(** * ScreenSnap: filename sanitisation, format validation and capture dispatch

    A shallow embedding of [screensnap.py] (classes [ScreenSnapConfig] and
    [ScreenSnap]) together with the few CPython library functions it calls
    ([os.path.basename], [pathlib.PurePath] joining, [str] methods,
    [strftime]).  Exceptions are values of an error type, the operating
    system and the optional libraries are an explicit oracle, and the effects
    of a call (files written, lines printed) are threaded as a state. *)

From Stdlib Require Import String Ascii List Bool Arith ZArith Lia DecimalString.
Import ListNotations.
Open Scope list_scope.
Open Scope string_scope.

Set Implicit Arguments.

(** ** Python strings

    A [str] is modelled as a [string] whose characters are the code points
    0..255.  [len] is [String.length]. *)

Module str.

Definition backslash : ascii := "092"%char.
Definition dquote : ascii := "034"%char.
Definition nul : ascii := "000"%char.

(** [bool(s)]: a string is truthy when it is not empty. *)
Definition truthy (s : string) : bool :=
  match s with EmptyString => false | String _ _ => true end.

(** [any(p(ch) for ch in s)]. *)
Fixpoint any (p : ascii -> bool) (s : string) : bool :=
  match s with
  | EmptyString => false
  | String a r => p a || any p r
  end.

(** [c in s] for a one-character [c]. *)
Definition contains (c : ascii) (s : string) : bool := any (Ascii.eqb c) s.

(** [s.startswith(prefix)]. *)
Fixpoint startswith (s prefix : string) : bool :=
  match prefix, s with
  | EmptyString, _ => true
  | String _ _, EmptyString => false
  | String b q, String a r => Ascii.eqb a b && startswith r q
  end.

(** [s[n:]] and [s[:n]] for [n >= 0]. *)
Fixpoint drop (n : nat) (s : string) : string :=
  match n, s with
  | O, _ => s
  | S _, EmptyString => EmptyString
  | S m, String _ r => drop m r
  end.

Fixpoint take (n : nat) (s : string) : string :=
  match n, s with
  | O, _ => EmptyString
  | S _, EmptyString => EmptyString
  | S m, String a r => String a (take m r)
  end.

(** [s.endswith(suffix)]: the last [len(suffix)] characters are [suffix]. *)
Definition endswith (s suffix : string) : bool :=
  (String.length suffix <=? String.length s)%nat &&
  (drop (String.length s - String.length suffix) s =? suffix).

(** [sub in s] for strings: some suffix of [s] starts with [sub]. *)
Fixpoint has_substring (sub s : string) : bool :=
  startswith s sub ||
  match s with
  | EmptyString => false
  | String _ r => has_substring sub r
  end.

Definition map (f : ascii -> ascii) : string -> string :=
  fix go (s : string) : string :=
    match s with
    | EmptyString => EmptyString
    | String a r => String (f a) (go r)
    end.

(** [s.replace(a, b)] for one-character [a] and [b]. *)
Definition replace (a b : ascii) : string -> string :=
  map (fun c => if Ascii.eqb c a then b else c).

Definition between (lo hi n : nat) : bool := ((lo <=? n) && (n <=? hi))%nat.

(** [str.lower] on the code points 0..255: A-Z and the capital letters
    U+00C0..U+00DE (U+00D7, the multiplication sign, apart) move up by 32. *)
Definition lower_char (c : ascii) : ascii :=
  let n := nat_of_ascii c in
  if between 65 90 n || (between 192 222 n && negb (n =? 215)%nat)
  then ascii_of_nat (n + 32) else c.

(** [str.upper] on the code points whose capital is again in 0..255: a-z
    and U+00E0..U+00FE (U+00F7 apart).  It is only ever applied to
    [self.format]. *)
Definition upper_char (c : ascii) : ascii :=
  let n := nat_of_ascii c in
  if between 97 122 n || (between 224 254 n && negb (n =? 247)%nat)
  then ascii_of_nat (n - 32) else c.

Definition lower : string -> string := map lower_char.
Definition upper : string -> string := map upper_char.

(** [sep.join(items)]. *)
Fixpoint join (sep : string) (items : list string) : string :=
  match items with
  | [] => EmptyString
  | [x] => x
  | x :: rest => x ++ sep ++ join sep rest
  end.

(** [s.find(c, start)]: index of the first [c] at or after [start], or -1. *)
Fixpoint find_from (c : ascii) (s : string) (i : nat) (start : nat) : Z :=
  match s with
  | EmptyString => (-1)%Z
  | String a r =>
      if (start <=? i)%nat && Ascii.eqb a c then Z.of_nat i
      else find_from c r (S i) start
  end.

Definition find (c : ascii) (s : string) (start : nat) : Z := find_from c s 0 start.

(** [str(n)] for a natural number. *)
Definition of_nat (n : nat) : string := NilZero.string_of_uint (Nat.to_uint n).

(** [x in items] for a list of strings. *)
Definition mem (x : string) (items : list string) : bool :=
  existsb (String.eqb x) items.

End str.

(** ** Exceptions

    An exception is its class and [str(e)].  Only the part of the built-in
    hierarchy below [Exception] that the program raises, catches or can meet
    is listed; [OtherException] stands for any class directly below
    [Exception]. *)

Inductive exn_class : Type :=
| ValueError
| UnicodeDecodeError
| UnicodeEncodeError
| JSONDecodeError
| RuntimeError
| ImportError
| ModuleNotFoundError
| OSError
| PermissionError
| KeyError
| TypeError
| OtherException (name : string).

Definition exn_class_eqb (a b : exn_class) : bool :=
  match a, b with
  | ValueError, ValueError
  | UnicodeDecodeError, UnicodeDecodeError
  | UnicodeEncodeError, UnicodeEncodeError
  | JSONDecodeError, JSONDecodeError
  | RuntimeError, RuntimeError
  | ImportError, ImportError
  | ModuleNotFoundError, ModuleNotFoundError
  | OSError, OSError
  | PermissionError, PermissionError
  | KeyError, KeyError
  | TypeError, TypeError => true
  | OtherException n, OtherException m => String.eqb n m
  | _, _ => false
  end.

(** The proper ancestors of a class, [Exception] excluded. *)
Definition bases (c : exn_class) : list exn_class :=
  match c with
  | UnicodeDecodeError => [ValueError]
  | UnicodeEncodeError => [ValueError]
  | JSONDecodeError => [ValueError]
  | ModuleNotFoundError => [ImportError]
  | PermissionError => [OSError]
  | _ => []
  end.

Definition issubclass (c parent : exn_class) : bool :=
  exn_class_eqb c parent || existsb (exn_class_eqb parent) (bases c).

Record exn : Type := Exn { exn_type : exn_class; exn_str : string }.

(** [isinstance(e, cls)], the test an [except cls:] clause makes. *)
Definition isinstance (e : exn) (cls : exn_class) : bool :=
  issubclass (exn_type e) cls.

(** The outcome of a call that can raise. *)
Inductive result (A : Type) : Type :=
| Ok (a : A)
| Raise (e : exn).

Arguments Ok {A} a.
Arguments Raise {A} e.

Definition bind {A B : Type} (r : result A) (k : A -> result B) : result B :=
  match r with
  | Ok a => k a
  | Raise e => Raise e
  end.

Declare Scope py_scope.
Delimit Scope py_scope with py.
Notation "x <- c ;; k" := (bind c (fun x => k))
  (at level 61, c at next level, right associativity) : py_scope.

(** ** [os.path.basename]

    [posixpath.basename(p)] is [p[p.rfind('/') + 1:]]; [ntpath.basename(p)]
    is the second half of [ntpath.split(p)]: the drive is split off, then the
    tail after the last of [/] and [\] is taken.  Both are the suffix
    after the last separator, written here by recursion on the string. *)

Inductive flavour : Type := Posix | Nt.

Module os_path.

Definition is_slash (c : ascii) : bool := Ascii.eqb c "/".
Definition is_bothseps (c : ascii) : bool := Ascii.eqb c "/" || Ascii.eqb c str.backslash.

Fixpoint after_last (sep : ascii -> bool) (p : string) : string :=
  match p with
  | EmptyString => EmptyString
  | String c r =>
      if str.any sep r then after_last sep r
      else if sep c then r
      else p
  end.

Definition posix_basename (p : string) : string := after_last is_slash p.

Definition unc_prefix : string :=
  String str.backslash (String str.backslash (String "?" (String str.backslash
    ("UNC" ++ String str.backslash EmptyString)))).

(** [ntpath.splitdrive]: a UNC or device prefix ([\\server\share]), or a
    drive letter with its colon. *)
Definition nt_splitdrive (p : string) : string * string :=
  if (2 <=? String.length p)%nat then
    let normp := str.replace "/" str.backslash p in
    if str.take 2 normp =? String str.backslash (String str.backslash EmptyString) then
      let start := if str.upper (str.take 8 normp) =? unc_prefix then 8 else 2 in
      let index := str.find str.backslash normp start in
      if (index =? -1)%Z then (p, EmptyString)
      else
        let index2 := str.find str.backslash normp (Z.to_nat index + 1) in
        if (index2 =? -1)%Z then (p, EmptyString)
        else (str.take (Z.to_nat index2) p, str.drop (Z.to_nat index2) p)
    else if str.take 1 (str.drop 1 normp) =? ":" then (str.take 2 p, str.drop 2 p)
    else (EmptyString, p)
  else (EmptyString, p).

Definition nt_basename (p : string) : string :=
  after_last is_bothseps (snd (nt_splitdrive p)).

Definition basename (os : flavour) (p : string) : string :=
  match os with
  | Posix => posix_basename p
  | Nt => nt_basename p
  end.

End os_path.

(** ** [pathlib]

    A path is kept parsed: drive, root and the list of components.  Parsing
    splits on the separators of the flavour and drops empty components and
    [.]; [..] is kept, as [pathlib] never resolves it. *)

Module pathlib.

Record Path : Type := mkPath { drive : string; root : string; parts : list string }.

Definition is_sep (os : flavour) : ascii -> bool :=
  match os with
  | Posix => os_path.is_slash
  | Nt => os_path.is_bothseps
  end.

Definition sep (os : flavour) : string :=
  match os with
  | Posix => "/"
  | Nt => String str.backslash EmptyString
  end.

(** [s.split(sep)] for a one-character separator (or either of two). *)
Fixpoint split (is_sep : ascii -> bool) (s : string) : list string :=
  match s with
  | EmptyString => [EmptyString]
  | String c r =>
      if is_sep c then EmptyString :: split is_sep r
      else match split is_sep r with
           | [] => [String c EmptyString]
           | x :: xs => String c x :: xs
           end
  end.

(** [s.lstrip(seps)]. *)
Fixpoint lstrip (is_sep : ascii -> bool) (s : string) : string :=
  match s with
  | EmptyString => EmptyString
  | String c r => if is_sep c then lstrip is_sep r else s
  end.

Definition keep_component (x : string) : bool :=
  str.truthy x && negb (x =? ".").

(** [_WindowsFlavour._split_extended_path]: the prefix of an extended path
    (two separators, a question mark, a separator), with [UNC] after it made
    part of the prefix. *)
Definition ext_namespace_prefix : string :=
  String str.backslash (String str.backslash (String "?" (String str.backslash EmptyString))).

Definition split_extended_path (s : string) : string * string :=
  if str.startswith s ext_namespace_prefix then
    let prefix := str.take 4 s in
    let s1 := str.drop 4 s in
    if str.startswith s1 ("UNC" ++ sep Nt)
    then (prefix ++ str.take 3 s1, sep Nt ++ str.drop 3 s1)
    else (prefix, s1)
  else (EmptyString, s).

Definition is_drive_letter (first : string) : bool :=
  match first with
  | String c EmptyString =>
      let n := nat_of_ascii c in str.between 65 90 n || str.between 97 122 n
  | _ => false
  end.

(** [_WindowsFlavour.splitroot], on a string whose [/] have been replaced:
    a UNC share, [\\machine\mount], is a drive and always has a root;
    otherwise a drive letter with its colon is the drive, and the path is
    rooted when what follows starts with a separator. *)
Definition nt_splitroot (part0 : string) : string * string * string :=
  let bs := sep Nt in
  let first0 := str.take 1 part0 in
  let second0 := str.take 1 (str.drop 1 part0) in
  let '(prefix, part) :=
    if (second0 =? bs) && (first0 =? bs) then split_extended_path part0
    else (EmptyString, part0) in
  let first := str.take 1 part in
  let second := str.take 1 (str.drop 1 part) in
  let third := str.take 1 (str.drop 2 part) in
  let letter_drive : string * string * string :=
    let '(drv, rest, head) :=
      if (second =? ":") && is_drive_letter first
      then (str.take 2 part, str.drop 2 part, third)
      else (EmptyString, part, first) in
    if head =? bs
    then (prefix ++ drv, bs, lstrip (Ascii.eqb str.backslash) rest)
    else (prefix ++ drv, EmptyString, rest) in
  if (second =? bs) && (first =? bs) && negb (third =? bs) then
    let index := str.find str.backslash part 2 in
    if (index =? -1)%Z then letter_drive
    else
      let index2 := str.find str.backslash part (Z.to_nat index + 1) in
      if (index2 =? index + 1)%Z then letter_drive
      else
        let stop := if (index2 =? -1)%Z then String.length part else Z.to_nat index2 in
        if str.truthy prefix
        then (prefix ++ str.take (stop - 1) (str.drop 1 part), bs, str.drop (stop + 1) part)
        else (str.take stop part, bs, str.drop (stop + 1) part)
  else letter_drive.

(** Drive and root of a path string, as [pathlib] splits them.  POSIX: no
    drive; the root is [/], or [//] when the string starts with exactly two
    slashes.  Windows: see [nt_splitroot]. *)
Definition splitroot (os : flavour) (s : string) : string * string * string :=
  match os with
  | Posix =>
      let stripped := lstrip os_path.is_slash s in
      if str.startswith s "/" then
        if (String.length s - String.length stripped =? 2)%nat
        then (EmptyString, "//", stripped)
        else (EmptyString, "/", stripped)
      else (EmptyString, EmptyString, s)
  | Nt => nt_splitroot s
  end.

(** [Path(s)]: on Windows every [/] is first replaced by the separator. *)
Definition parse (os : flavour) (s : string) : Path :=
  let normal :=
    match os with
    | Posix => s
    | Nt => str.replace "/" str.backslash s
    end in
  let '(drv, rt, rel) := splitroot os normal in
  mkPath drv rt (filter keep_component (split (is_sep os) rel)).

(** Drives compare case-insensitively on Windows. *)
Definition same_drive (os : flavour) (a b : string) : bool :=
  match os with
  | Posix => a =? b
  | Nt => str.lower a =? str.lower b
  end.

(** [p / s], where the right operand is a string: an anchored right
    operand replaces the left one (wholly, or below its drive). *)
Definition joinpath (os : flavour) (p : Path) (s : string) : Path :=
  let q := parse os s in
  if str.truthy (root q) then
    if negb (str.truthy (drive q)) && str.truthy (drive p)
    then mkPath (drive p) (root q) (parts q)
    else q
  else if str.truthy (drive q) then
    if same_drive os (drive q) (drive p)
    then mkPath (drive p) (root p) (parts p ++ parts q)%list
    else q
  else mkPath (drive p) (root p) (parts p ++ parts q)%list.

Fixpoint parts_eqb (a b : list string) : bool :=
  match a, b with
  | [], [] => true
  | x :: a', y :: b' => (x =? y) && parts_eqb a' b'
  | _, _ => false
  end.

Definition Path_eqb (p q : Path) : bool :=
  (drive p =? drive q) && (root p =? root q) && parts_eqb (parts p) (parts q).

(** A NUL character anywhere in the path: the operating-system calls
    refuse such a path with [ValueError("embedded null byte")]. *)
Definition has_nul (p : Path) : bool :=
  existsb (str.contains str.nul) (drive p :: root p :: parts p).

(** [p.name]: the final component, empty for a bare anchor. *)
Definition name (p : Path) : string := last (parts p) EmptyString.

(** [p.parent]: the path without its final component; a bare anchor, or
    the empty path, is its own parent. *)
Definition parent (p : Path) : Path :=
  mkPath (drive p) (root p) (removelast (parts p)).

(** [str(p)]. *)
Definition to_str (os : flavour) (p : Path) : string :=
  match drive p ++ root p ++ str.join (sep os) (parts p) with
  | EmptyString => "."
  | s => s
  end.

End pathlib.

Import pathlib.

(** ** [json] values, as [json.load] returns them

    Numbers are kept as integers; the program never computes with one. *)

#[local] Set Warnings "-register-all".

Inductive json : Type :=
| JNull
| JBool (b : bool)
| JNum (n : Z)
| JStr (s : string)
| JList (items : list json)
| JDict (items : list (string * json)).

Definition type_name (v : json) : string :=
  match v with
  | JNull => "NoneType"
  | JBool _ => "bool"
  | JNum _ => "int"
  | JStr _ => "str"
  | JList _ => "list"
  | JDict _ => "dict"
  end.

Fixpoint dict_get (items : list (string * json)) (key : string) : option json :=
  match items with
  | [] => None
  | (k, v) :: rest => if k =? key then Some v else dict_get rest key
  end.

(** [v[key]] for a string key: a [dict] looks the key up and raises
    [KeyError(key)] when it is absent ([str] of it shows the key quoted);
    every other value raises [TypeError]. *)
Definition getitem (v : json) (key : string) : result json :=
  match v with
  | JDict items =>
      match dict_get items key with
      | Some x => Ok x
      | None => Raise (Exn KeyError ("'" ++ key ++ "'"))
      end
  | JList _ => Raise (Exn TypeError "list indices must be integers or slices, not str")
  | JStr _ => Raise (Exn TypeError "string indices must be integers, not 'str'")
  | other => Raise (Exn TypeError ("'" ++ type_name other ++ "' object is not subscriptable"))
  end.

(** ** [datetime.now().strftime("%Y%m%d_%H%M%S")]

    The value formatted is a reading of the system clock: its year has four
    digits and its other fields lie in the calendar range.  For such a
    reading [%Y] gives the four digits of the year and the other directives
    two digits each, zero-padded, on every platform; [pad4] and [pad2] are
    meant for these readings only. *)

Record datetime : Type := mkDatetime {
  year : nat; month : nat; day : nat;
  hour : nat; minute : nat; second : nat;
  microsecond : nat
}.

Definition digit (n : nat) : ascii := ascii_of_nat (48 + n mod 10).

Definition pad2 (n : nat) : string :=
  String (digit (n / 10)) (String (digit n) EmptyString).

Definition pad4 (n : nat) : string :=
  String (digit (n / 1000)) (String (digit (n / 100)) (pad2 n)).

Definition strftime_Ymd_HMS (t : datetime) : string :=
  pad4 (year t) ++ pad2 (month t) ++ pad2 (day t) ++ "_" ++
  pad2 (hour t) ++ pad2 (minute t) ++ pad2 (second t).

(** ** The environment and the effects of a call

    What the machine answers at construction time ([machine]) and during one
    capture call ([oracle]) is an input of the model.  What a call does to
    the outside is recorded in the [world]: the files written (most recent
    first), the directories made and the lines printed. *)

Inductive image : Type := Image (width height : nat) (pixels : list nat).

(** The preferences file as [_load_config] meets it.  [Path.exists] answers
    [False] ([Missing]), answers [True] ([Present], with the outcome of [open]
    followed by [json.load]), or raises itself ([Unreachable]): it lets every
    [OSError] of [stat] through that does not mean that the file is absent,
    such as a directory on the way that may not be searched. *)
Inductive config_file : Type :=
| Missing
| Present (load : result json)
| Unreachable (e : exn).

Record machine : Type := mkMachine {
  home : Path;                              (* Path.home() *)
  prefs_file : Path -> config_file;
  platform_system : string;                 (* platform.system() *)
  mkdir_error : Path -> option string;      (* OSError of Path.mkdir, if any *)
  open_w_error : Path -> option string;     (* OSError of open(path, 'w'), if any *)
  pillow_installed : bool                   (* from PIL import ImageGrab *)
}.

Record window : Type := mkWindow {
  hwnd : Z;                                 (* handle given by EnumWindows *)
  IsWindowVisible : bool;
  GetWindowText : string
}.

Record oracle : Type := mkOracle {
  now : datetime;                                       (* datetime.now() *)
  grab : result image;                                  (* ImageGrab.grab() *)
  image_save : Path -> string -> image -> option exn;   (* Image.save(path, FORMAT) *)
  pywin32_installed : bool;                             (* import win32gui, win32ui, win32con *)
  EnumWindows : list window;
  window_pixels : Z -> result image                     (* the GDI copy of one window *)
}.

Inductive written : Type :=
| ImageData (format : string) (im : image)
| ConfigDump (cfg : json).

Record world : Type := mkWorld {
  files : list (Path * written);
  dirs : list Path;
  stdout : list string
}.

(** The content the calls have given to the file at [p], if they wrote it. *)
Fixpoint written_at (p : Path) (log : list (Path * written)) : option written :=
  match log with
  | [] => None
  | (q, d) :: rest => if Path_eqb p q then Some d else written_at p rest
  end.

(** Calls that raise and have effects. *)
Definition M (A : Type) : Type := world -> result A * world.

Definition ret {A : Type} (a : A) : M A := fun w => (Ok a, w).

Definition raise {A : Type} (e : exn) : M A := fun w => (Raise e, w).

Definition lift {A : Type} (r : result A) : M A := fun w => (r, w).

Definition bindM {A B : Type} (m : M A) (k : A -> M B) : M B :=
  fun w =>
    match m w with
    | (Ok a, w') => k a w'
    | (Raise e, w') => (Raise e, w')
    end.

(** [try: body / except ...: handler]: the handler sees the exception and
    the effects the body had before raising. *)
Definition try_except {A : Type} (body : M A) (handler : exn -> M A) : M A :=
  fun w =>
    match body w with
    | (Ok a, w') => (Ok a, w')
    | (Raise e, w') => handler e w'
    end.

Declare Scope eff_scope.
Delimit Scope eff_scope with eff.
Notation "x <-- c ;; k" := (bindM c (fun x => k))
  (at level 61, c at next level, right associativity) : eff_scope.
Notation "c ;;; k" := (bindM c (fun _ => k))
  (at level 61, right associativity) : eff_scope.

(** [print(line)] of a text that [sys.stdout] can encode: the line is added
    to what was printed.  The warnings of [capture_window] are printed this
    way: they are ASCII text around the name of the platform or the title
    asked for, and the titles are taken to be text the console can show. *)
Definition print (line : string) : M unit :=
  fun w => (Ok tt, mkWorld (files w) (dirs w) (stdout w ++ [line])%list).

(** [print(line)] on a stream that may fail to encode the text:
    [stdout_error line] is the message of the [UnicodeEncodeError] that
    [sys.stdout.write] raises for it, if any; nothing is written then. *)
Definition print_encoded (stdout_error : string -> option string) (line : string)
    : M unit :=
  match stdout_error line with
  | None => print line
  | Some message => raise (Exn UnicodeEncodeError message)
  end.

Definition write_file (p : Path) (d : written) : M unit :=
  fun w => (Ok tt, mkWorld ((p, d) :: files w) (dirs w) (stdout w)).

Definition new_exn (c : exn_class) (message : string) : exn := Exn c message.

(** ** [screensnap.py] *)

Definition VERSION : string := "1.0.0".

Section Program.

(** The flavour of [os.path] and of [pathlib.Path] in the running
    interpreter. *)
Variable os : flavour.

(** [DEFAULT_CONFIG_PATH = Path.home() / ".screensnaprc"]. *)
Definition DEFAULT_CONFIG_PATH (m : machine) : Path :=
  joinpath os (home m) ".screensnaprc".

(** *** class ScreenSnapConfig *)

Record ScreenSnapConfig : Type := mkConfig {
  config_path : Path;
  config : json
}.

Definition _default_config : json :=
  JDict [ ("version", JStr VERSION);
          ("output_dir", JStr ".");
          ("format", JStr "png");
          ("include_timestamp", JBool true) ].

(** [except (json.JSONDecodeError, IOError)]; [IOError] is [OSError].  The
    test [self.config_path.exists()] stands before the [try]: what it raises
    is not caught. *)
Definition _load_config (m : machine) (path : Path) : result json :=
  match prefs_file m path with
  | Unreachable e => Raise e
  | Present load =>
      match load with
      | Ok loaded => Ok loaded
      | Raise e =>
          if isinstance e JSONDecodeError || isinstance e OSError
          then Ok _default_config
          else Raise e
      end
  | Missing => Ok _default_config
  end.

(** [ScreenSnapConfig.__init__]: a [Path] is always truthy, so
    [config_path or DEFAULT_CONFIG_PATH] is the argument unless it is
    [None]. *)
Definition ScreenSnapConfig_init (m : machine) (path : option Path)
    : result ScreenSnapConfig :=
  let config_path :=
    match path with
    | Some p => p
    | None => DEFAULT_CONFIG_PATH m
    end in
  (cfg <- _load_config m config_path ;;
   Ok (mkConfig config_path cfg))%py.

Definition save (m : machine) (self : ScreenSnapConfig) : M unit :=
  match open_w_error m (config_path self) with
  | Some message => raise (new_exn OSError message)
  | None => write_file (config_path self) (ConfigDump (config self))
  end.

(** *** class ScreenSnap *)

Record ScreenSnap : Type := mkScreenSnap {
  config_manager : ScreenSnapConfig;
  output_dir : Path;
  format : string;
  system : string
}.

(** [Path(x)] for a value that came out of the configuration. *)
Definition Path_of_json (v : json) : result Path :=
  match v with
  | JStr s => Ok (parse os s)
  | other =>
      Raise (new_exn TypeError
        ("expected str, bytes or os.PathLike object, not " ++ type_name other))
  end.

(** [self.output_dir.mkdir(parents=True, exist_ok=True)]. *)
Definition mkdir (m : machine) (p : Path) : M unit :=
  if has_nul p then raise (new_exn ValueError "embedded null byte")
  else match mkdir_error m p with
       | Some message => raise (new_exn OSError message)
       | None => fun w => (Ok tt, mkWorld (files w) (p :: dirs w) (stdout w))
       end.

(** [Path(output_dir or self.config_manager.config['output_dir'])]: the
    configuration is consulted only when the argument is [None] or empty. *)
Definition resolve_output_dir (config_manager : ScreenSnapConfig)
    (output_dir : option string) : result Path :=
  let from_config : result Path :=
    (v <- getitem (config config_manager) "output_dir" ;; Path_of_json v)%py in
  match output_dir with
  | Some d => if str.truthy d then Ok (parse os d) else from_config
  | None => from_config
  end.

Definition valid_formats : list string := ["png"; "jpg"; "jpeg"].

(** [ScreenSnap.__init__(output_dir, format, config_path)]. *)
Definition ScreenSnap_init (m : machine) (output_dir : option string)
    (format : string) (config_path : option Path) : M ScreenSnap :=
  (config_manager <-- lift (ScreenSnapConfig_init m config_path) ;;
   output_dir <-- lift (resolve_output_dir config_manager output_dir) ;;
   let format_lower := str.lower format in
   if negb (str.mem format_lower valid_formats) then
     raise (new_exn ValueError
       ("Invalid format '" ++ format ++ "'. Must be one of: " ++
        str.join ", " valid_formats))
   else
     let system := platform_system m in
     mkdir m output_dir ;;;
     if pillow_installed m then
       ret (mkScreenSnap config_manager output_dir format_lower system)
     else
       raise (new_exn ImportError
         "Pillow is required for ScreenSnap. Install it with: pip install pillow"))%eff.

Definition invalid_chars : list ascii :=
  ["<"; ">"; ":"; str.dquote; "/"; str.backslash; "|"; "?"; "*"]%char.

(** The [for char in invalid_chars] loop: the first listed character
    that occurs in the name raises. *)
Fixpoint check_chars (chars : list ascii) (clean_filename : string) : result unit :=
  match chars with
  | [] => Ok tt
  | char :: rest =>
      if str.contains char clean_filename then
        Raise (new_exn ValueError
          ("Invalid character in filename: '" ++ String char "'"))
      else check_chars rest clean_filename
  end.

Definition _validate_filename (filename : string) : result string :=
  if negb (str.truthy filename) then Ok filename
  else
    let clean_filename := os_path.basename os filename in
    if negb (clean_filename =? filename) then
      Raise (new_exn ValueError
        ("Invalid filename (path components not allowed): " ++ filename))
    else if (255 <? String.length clean_filename)%nat then
      Raise (new_exn ValueError
        ("Filename too long (" ++ str.of_nat (String.length clean_filename) ++
         " chars). Max: 255"))
    else
      (_ <- check_chars invalid_chars clean_filename ;;
       Ok clean_filename)%py.

(** [if custom_name:] holds for a non-empty string; [None] and the empty
    string both take the timestamp branch. *)
Definition _generate_filename (self : ScreenSnap) (t : datetime)
    (custom_name : option string) : result Path :=
  let named (custom_name : string) : result Path :=
    (filename <- _validate_filename custom_name ;;
     let filename :=
       if negb (str.endswith filename ("." ++ format self))
       then filename ++ "." ++ format self
       else filename in
     Ok (joinpath os (output_dir self) filename))%py in
  let stamped : result Path :=
    let timestamp := strftime_Ymd_HMS t in
    let filename := "screenshot_" ++ timestamp ++ "." ++ format self in
    Ok (joinpath os (output_dir self) filename) in
  match custom_name with
  | Some n => if str.truthy n then named n else stamped
  | None => stamped
  end.

(** [screenshot.save(filepath, self.format.upper())]. *)
Definition save_image (o : oracle) (self : ScreenSnap) (screenshot : image)
    (filepath : Path) : M unit :=
  match image_save o filepath (str.upper (format self)) screenshot with
  | Some e => raise e
  | None => write_file filepath (ImageData (str.upper (format self)) screenshot)
  end.

(** [except ValueError: raise] comes first, then
    [except Exception as e: raise RuntimeError(...)]. *)
Definition capture (self : ScreenSnap) (o : oracle) (filename : option string)
    : M Path :=
  try_except
    (filepath <-- lift (_generate_filename self (now o) filename) ;;
     screenshot <-- lift (grab o) ;;
     save_image o self screenshot filepath ;;;
     ret filepath)%eff
    (fun e =>
       if isinstance e ValueError then raise e
       else raise (new_exn RuntimeError
              ("Failed to capture screenshot: " ++ exn_str e))).

(** [_find_window]: the visible windows whose title contains the
    substring, case-insensitively, in enumeration order; the first one, or
    [None].  Without [win32gui] the [ImportError] is caught and the answer
    is [None]. *)
Definition _find_window (o : oracle) (title_substring : string) : option Z :=
  if pywin32_installed o then
    let results :=
      filter (fun w => IsWindowVisible w &&
                       str.has_substring (str.lower title_substring)
                                         (str.lower (GetWindowText w)))
             (EnumWindows o) in
    match results with
    | first :: _ => Some (hwnd first)
    | [] => None
    end
  else None.

(** [if not hwnd]: [None] and the handle [0] are both falsy. *)
Definition falsy_hwnd (h : option Z) : bool :=
  match h with
  | None => true
  | Some z => (z =? 0)%Z
  end.

Definition capture_window (self : ScreenSnap) (o : oracle)
    (window_title : string) (filename : option string) : M Path :=
  if negb (system self =? "Windows") then
    (print ("Warning: Window capture not supported on " ++ system self ++
            ", capturing full screen") ;;;
     capture self o filename)%eff
  else
    try_except
      ((if pywin32_installed o then ret tt
        else raise (new_exn ModuleNotFoundError "No module named 'win32gui'")) ;;;
       let found := _find_window o window_title in
       if falsy_hwnd found then
         print ("Warning: Window '" ++ window_title ++
                "' not found, capturing full screen") ;;;
         capture self o filename
       else
         screenshot <-- lift (window_pixels o (match found with Some h => h | None => 0%Z end)) ;;
         filepath <-- lift (_generate_filename self (now o) filename) ;;
         save_image o self screenshot filepath ;;;
         ret filepath)%eff
      (fun e =>
         if isinstance e ImportError then
           (print "Warning: pywin32 not installed, capturing full screen instead" ;;;
            capture self o filename)%eff
         else raise (new_exn RuntimeError
                ("Failed to capture window: " ++ exn_str e))).

(** *** A caller: a sequence of capture calls on one instance, each with
    the answers the machine gives at that moment.  A call that raises
    does not stop the caller. *)

Inductive call : Type :=
| Capture (filename : option string)
| CaptureWindow (window_title : string) (filename : option string).

Definition do_call (self : ScreenSnap) (c : call) (o : oracle) : M Path :=
  match c with
  | Capture filename => capture self o filename
  | CaptureWindow window_title filename => capture_window self o window_title filename
  end.

Fixpoint run (self : ScreenSnap) (cs : list (call * oracle)) (w : world)
    : list (result Path) * world :=
  match cs with
  | [] => ([], w)
  | (c, o) :: rest =>
      let (r, w') := do_call self c o w in
      let (rs, w'') := run self rest w' in
      (r :: rs, w'')
  end.

End Program.

(** ** The vocabulary of the specification

    The rules of the PathSanitizer and FormatValidator contracts, written
    from the words of the specification, to be compared with what
    [_validate_filename] and [ScreenSnap.__init__] compute. *)

Module Spec.

(** The name contains [/] or [\]. *)
Definition has_separator (filename : string) : bool :=
  str.contains "/" filename || str.contains str.backslash filename.

(** Some segment of the name, cut at [/] and [\], is [..]. *)
Definition has_dotdot_segment (filename : string) : bool :=
  existsb (String.eqb "..") (split os_path.is_bothseps filename).

(** The name is longer than 255 characters. *)
Definition too_long (filename : string) : bool :=
  (255 <? String.length filename)%nat.

(** The reserved characters: angle brackets, colon, double quote, bar,
    question mark and star. *)
Definition reserved_chars : list ascii :=
  ["<"; ">"; ":"; str.dquote; "|"; "?"; "*"]%char.

Definition has_reserved_char (filename : string) : bool :=
  existsb (fun c => str.contains c filename) reserved_chars.

(** The rejection rule as testable properties 1 to 3 word it. *)
Definition claimed_invalid (filename : string) : bool :=
  has_separator filename || has_dotdot_segment filename ||
  too_long filename || has_reserved_char filename.

(** The same rule without the clause on [..] segments. *)
Definition rejected (filename : string) : bool :=
  has_separator filename || too_long filename || has_reserved_char filename.

(** The format is, letter case apart, one of [png], [jpg], [jpeg]. *)
Definition accepted_format (fmt : string) : Prop :=
  exists f, In f ["png"; "jpg"; "jpeg"] /\ str.lower fmt = str.lower f.

(** The message lists the accepted set. *)
Definition enumerates_accepted_set (message : string) : Prop :=
  str.has_substring "png, jpg, jpeg" message = true.

(** Two readings of the clock within the same second. *)
Definition same_second (a b : datetime) : Prop :=
  year a = year b /\ month a = month b /\ day a = day b /\
  hour a = hour b /\ minute a = minute b /\ second a = second b.

(** A working backend for one call: the screen is grabbed and the
    encoder writes the file it is asked to. *)
Definition backend_works (o : oracle) : Prop :=
  (exists screenshot, grab o = Ok screenshot) /\
  (forall p fmt im, image_save o p fmt im = None).

(** The platform gives no window capture: it is not Windows, or the
    optional pywin32 modules cannot be imported. *)
Definition no_window_support (system : string) (o : oracle) : Prop :=
  system <> "Windows" \/ pywin32_installed o = false.

End Spec.

(** ** Auxiliary predicates on names *)

(** No listed character occurs in the name. *)
Definition clean (filename : string) : bool :=
  negb (existsb (fun c => str.contains c filename) invalid_chars).

(** A character that can start or end a path component: a separator or
    the colon of a drive. *)
Definition anchor_char (c : ascii) : bool :=
  os_path.is_bothseps c || Ascii.eqb c ":".

(** A name without separator and without colon. *)
Definition plain (s : string) : Prop := str.any anchor_char s = false.

(** The name [_generate_filename] gives a caller-supplied name: the
    extension is added unless the name already ends with it. *)
Definition final_name (fmt custom_name : string) : string :=
  if str.endswith custom_name ("." ++ fmt) then custom_name
  else custom_name ++ "." ++ fmt.

(** The name [_generate_filename] makes up from the clock. *)
Definition stamped_name (fmt : string) (t : datetime) : string :=
  "screenshot_" ++ strftime_Ymd_HMS t ++ "." ++ fmt.

(** What the two [except] clauses of [capture] turn an exception into. *)
Definition surfaced (e : exn) : exn :=
  if isinstance e ValueError then e
  else new_exn RuntimeError ("Failed to capture screenshot: " ++ exn_str e).

(** The world after one more file has been written. *)
Definition with_file (p : Path) (d : written) (w : world) : world :=
  mkWorld ((p, d) :: files w) (dirs w) (stdout w).

(** The world after one more line has been printed. *)
Definition with_line (line : string) (w : world) : world :=
  mkWorld (files w) (dirs w) (stdout w ++ [line]).

(** A file written by [Image.save]. *)
Definition is_image (d : written) : Prop :=
  match d with
  | ImageData _ _ => True
  | ConfigDump _ => False
  end.

(** ** Sample environments

    A quiet Linux machine without preferences file, an instance as
    [ScreenSnap(output_dir="out")] builds it there, and the answers of a
    working backend at 2026-01-18 09:05:07. *)

Definition quiet_machine : machine :=
  mkMachine (parse Posix "/home/u") (fun _ => Missing) "Linux"
    (fun _ => None) (fun _ => None) true.

Definition blank : world := mkWorld [] [] [].

Definition one_pixel : image := Image 1 1 [0].

Definition working_oracle : oracle :=
  mkOracle (mkDatetime 2026 1 18 9 5 7 0) (Ok one_pixel) (fun _ _ _ => None)
    false [] (fun _ => Raise (Exn OSError "no window")).

Definition snap (fmt : string) : ScreenSnap :=
  mkScreenSnap (mkConfig (parse Posix "/home/u/.screensnaprc") _default_config)
    (parse Posix "out") fmt "Linux".

Definition out_file (filename : string) : Path :=
  mkPath EmptyString EmptyString ["out"; filename].

(** The exception [ScreenSnap.__init__] raises for a format it refuses. *)
Definition invalid_format_error (fmt : string) : exn :=
  Exn ValueError ("Invalid format '" ++ fmt ++ "'. Must be one of: png, jpg, jpeg").

(** A name with a NUL character in it, and a backend whose [Image.save]
    cannot open such a path: [open] raises [ValueError]. *)
Definition nul_name : string := "a" ++ String str.nul "b".

Definition strict_oracle : oracle :=
  mkOracle (mkDatetime 2026 1 18 9 5 7 0) (Ok one_pixel)
    (fun p _ _ => if has_nul p then Some (Exn ValueError "embedded null byte") else None)
    false [] (fun _ => Raise (Exn OSError "no window")).

(** ** Pillow's encoders

    [Image.save(fp, format)] starts by looking the encoder up,
    [SAVE[format.upper()]], before the file is opened.  [SAVE] holds the ids
    under which the plugins of Pillow register an encoder.  File extensions
    such as [.jpg] are kept in another table and are no ids: the JPEG plugin
    registers its encoder under [JPEG] only. *)

Module Pillow.

Definition SAVE : list string :=
  ["BLP"; "BMP"; "BUFR"; "DDS"; "DIB"; "EPS"; "GIF"; "GRIB"; "HDF5"; "ICNS";
   "ICO"; "IM"; "JPEG"; "JPEG2000"; "MPO"; "MSP"; "PALM"; "PCX"; "PDF"; "PNG";
   "PPM"; "SGI"; "SPIDER"; "TGA"; "TIFF"; "WEBP"; "WMF"; "XBM"].

(** [format.upper() in SAVE]. *)
Definition registered (fmt : string) : bool := str.mem (str.upper fmt) SAVE.

(** The lookup of [Image.save]: an id that is not registered raises
    [KeyError(format.upper())], whose [str] is the key in quotes. *)
Definition Image_save (fmt : string) : option exn :=
  if registered fmt then None
  else Some (Exn KeyError ("'" ++ str.upper fmt ++ "'")).

(** Pillow in working order on a writable directory: every file is written
    once the encoder is found, and the lookup is Pillow's. *)
Definition encodes (o : oracle) : Prop :=
  forall p fmt im, image_save o p fmt im = Image_save fmt.

End Pillow.

(** The sample backend with Pillow's lookup of the encoder. *)
Definition pillow_oracle : oracle :=
  mkOracle (mkDatetime 2026 1 18 9 5 7 0) (Ok one_pixel)
    (fun _ fmt _ => Pillow.Image_save fmt)
    false [] (fun _ => Raise (Exn OSError "no window")).

(** What [capture] raises when the encoder is asked for [JPG]. *)
Definition jpg_failure : exn :=
  Exn RuntimeError "Failed to capture screenshot: 'JPG'".

(** A machine whose preferences path cannot be examined: [stat] is refused
    on the way to it. *)
Definition locked_prefs_machine : machine :=
  mkMachine (parse Posix "/home/u")
    (fun _ => Unreachable (Exn PermissionError
       "[Errno 13] Permission denied: '/home/u/.screensnaprc'"))
    "Linux" (fun _ => None) (fun _ => None) true.

(** A machine whose preferences file holds the empty JSON object. *)
Definition empty_prefs_machine : machine :=
  mkMachine (parse Posix "/home/u") (fun _ => Present (Ok (JDict []))) "Linux"
    (fun _ => None) (fun _ => None) true.

(** The files a call adds are images at generated paths. *)
Definition generated (os : flavour) (self : ScreenSnap) (entry : Path * written) : Prop :=
  is_image (snd entry) /\
  exists t filename, _generate_filename os self t filename = Ok (fst entry).

(** A computation that only adds such files, whatever it returns. *)
Definition adds_generated (os : flavour) (self : ScreenSnap) (A : Type) (m : M A) : Prop :=
  forall w, exists new,
    Forall (generated os self) new /\
    files (snd (m w)) = (new ++ files w)%list.

(** The preferences file is absent, or [open] and [json.load] raised what
    [_load_config] catches: [JSONDecodeError] or [OSError]. *)
Definition absent_or_unreadable (f : config_file) : Prop :=
  f = Missing \/
  exists e, f = Present (Raise e) /\
            (isinstance e JSONDecodeError || isinstance e OSError) = true.

(** ** The command line: [main]

    [main] is modelled from the line after [parser.parse_args()]: the
    namespace is an input.  [argparse] gives [None] for an option that was
    not passed and restricts [--format] to its choices.  [Path.absolute]
    depends on the working directory of the process and is an input as well,
    and so is what the encoding of [sys.stdout] refuses.
    The two marks that open the printed lines lie outside the code points
    0..255; they are kept as their three UTF-8 bytes. *)

Record Namespace : Type := mkNamespace {
  args_filename : option string;
  args_window : option string;
  args_output_dir : option string;
  args_format : string
}.

Definition CHECK_MARK : string :=
  String "226"%char (String "156"%char (String "133"%char EmptyString)).

Definition CROSS_MARK : string :=
  String "226"%char (String "157"%char (String "140"%char EmptyString)).

(** The line [main] prints after a capture. *)
Definition success_line (os : flavour) (absolute : Path -> Path) (filepath : Path)
    : string :=
  CHECK_MARK ++ " Screenshot saved to: " ++ to_str os (absolute filepath).

(** The [try] block of [main].  The success message holds U+2705, which
    consoles with a legacy code page cannot encode: [stdout_error] says what
    the encoding of [sys.stdout] refuses. *)
Definition main_try (os : flavour) (m : machine) (o : oracle)
    (stdout_error : string -> option string)
    (absolute : Path -> Path) (args : Namespace) : M Z :=
  (snap <-- ScreenSnap_init os m (args_output_dir args) (args_format args) None ;;
   filepath <--
     (match args_window args with
      | Some title =>
          if str.truthy title
          then capture_window os snap o title (args_filename args)
          else capture os snap o (args_filename args)
      | None => capture os snap o (args_filename args)
      end) ;;
   print_encoded stdout_error (success_line os absolute filepath) ;;;
   ret 0%Z)%eff.

(** [main]: the exit status, the world after the call, and the lines
    written to [sys.stderr].  [except Exception] catches every exception of
    the [try] block, the one of the success message included.  The error
    stream replaces what it cannot encode by escapes and does not raise. *)
Definition main (os : flavour) (m : machine) (o : oracle)
    (stdout_error : string -> option string)
    (absolute : Path -> Path) (args : Namespace) (w : world)
    : Z * world * list string :=
  match main_try os m o stdout_error absolute args w with
  | (Ok status, w') => (status, w', [])
  | (Raise e, w') => (1%Z, w', [CROSS_MARK ++ " Error: " ++ exn_str e])
  end.

(** A Windows machine without preferences file. *)
Definition windows_machine : machine :=
  mkMachine (parse Nt "C:/Users/u") (fun _ => Missing) "Windows"
    (fun _ => None) (fun _ => None) true.

(** A console with a legacy code page: it refuses every line that holds the
    check mark, with the message of the [charmap] codec. *)
Definition legacy_console (line : string) : option string :=
  if str.has_substring CHECK_MARK line
  then Some "'charmap' codec can't encode character '\u2705' in position 0: character maps to <undefined>"
  else None.

(** ** More auxiliary predicates *)

(** A character of [invalid_chars]. *)
Definition listed (a : ascii) : bool :=
  existsb (fun c => Ascii.eqb c a) invalid_chars.

(** [c * n]: a character repeated. *)
Fixpoint replicate (n : nat) (c : ascii) : string :=
  match n with
  | O => EmptyString
  | S k => String c (replicate k c)
  end.

(** A computation that prints warnings only and makes no directory. *)
Definition only_warns (A : Type) (m : M A) : Prop :=
  forall w, exists lines,
    Forall (fun line => str.startswith line "Warning: " = true) lines /\
    stdout (snd (m w)) = (stdout w ++ lines)%list /\
    dirs (snd (m w)) = dirs w.

(** The window [_find_window] is after: visible, with the substring in its
    title, letter case apart. *)
Definition window_matches (title_substring : string) (win : window) : bool :=
  IsWindowVisible win &&
  str.has_substring (str.lower title_substring) (str.lower (GetWindowText win)).

(** A Windows machine answer with pywin32: two windows, the first hidden. *)
Definition windows_oracle : oracle :=
  mkOracle (mkDatetime 2026 1 18 9 5 7 0) (Ok one_pixel) (fun _ _ _ => None)
    true
    [mkWindow 11 false "Chrome hidden"; mkWindow 12 true "Google CHROME";
     mkWindow 13 true "chrome again"]
    (fun h => Ok (Image 2 1 [Z.to_nat h; 0])).

Definition windows_snap (fmt : string) : ScreenSnap :=
  mkScreenSnap (mkConfig (parse Posix "/home/u/.screensnaprc") _default_config)
    (parse Posix "out") fmt "Windows".

(** A machine whose preferences file is not text in the expected encoding:
    reading it raises [UnicodeDecodeError]. *)
Definition undecodable_prefs_machine : machine :=
  mkMachine (parse Posix "/home/u")
    (fun _ => Present (Raise (Exn UnicodeDecodeError
       "'utf-8' codec can't decode byte 0xff in position 0: invalid start byte")))
    "Linux" (fun _ => None) (fun _ => None) true.

(** The answers of a backend whose screen grab fails. *)
Definition blind_oracle : oracle :=
  mkOracle (mkDatetime 2026 1 18 9 5 8 0) (Raise (Exn OSError "screen grab failed"))
    (fun _ _ _ => None) false [] (fun _ => Raise (Exn OSError "no window")).

(** A machine without Pillow. *)
Definition no_pillow_machine : machine :=
  mkMachine (parse Posix "/home/u") (fun _ => Missing) "Linux"
    (fun _ => None) (fun _ => None) false.

(** A call of the shape [Capture _]. *)
Definition is_capture (c : call * oracle) : Prop :=
  match fst c with
  | Capture _ => True
  | CaptureWindow _ _ => False
  end.

(** * Properties *)

#[local] Arguments Ascii.eqb : simpl never.

(** ** Strings *)

Section StringFacts.

Lemma any_app (p : ascii -> bool) (a b : string) :
  str.any p (a ++ b) = str.any p a || str.any p b.
Proof.
  induction a as [|c a IH]; simpl; [reflexivity|].
  rewrite IH. apply orb_assoc.
Qed.

Lemma length_app (a b : string) :
  String.length (a ++ b) = String.length a + String.length b.
Proof. induction a as [|c a IH]; simpl; [reflexivity | now rewrite IH]. Qed.

Lemma append_assoc (a b c : string) : (a ++ b) ++ c = a ++ (b ++ c).
Proof. induction a as [|x a IH]; simpl; [reflexivity | now rewrite IH]. Qed.

Lemma drop_app_length (a b : string) :
  str.drop (String.length a) (a ++ b) = b.
Proof. induction a as [|c a IH]; simpl; [now destruct b | exact IH]. Qed.

Lemma take_drop (n : nat) (s : string) : str.take n s ++ str.drop n s = s.
Proof.
  revert s; induction n as [|n IH]; intros [|c s]; simpl; try reflexivity.
  now rewrite IH.
Qed.

Lemma endswith_app (a suffix : string) : str.endswith (a ++ suffix) suffix = true.
Proof.
  unfold str.endswith. rewrite length_app.
  replace (String.length a + String.length suffix - String.length suffix)
    with (String.length a) by lia.
  rewrite drop_app_length, String.eqb_refl, andb_true_r.
  apply Nat.leb_le. lia.
Qed.

Lemma endswith_length (s suffix : string) :
  str.endswith s suffix = true -> String.length suffix <= String.length s.
Proof.
  unfold str.endswith. intros H. apply andb_true_iff in H as [H _].
  now apply Nat.leb_le.
Qed.

Lemma startswith_app (a b : string) : str.startswith (a ++ b) a = true.
Proof.
  induction a as [|c a IH]; simpl; [now destruct b|].
  now rewrite Ascii.eqb_refl.
Qed.

Lemma truthy_nonempty (s : string) : str.truthy s = true <-> s <> EmptyString.
Proof. destruct s; simpl; split; congruence. Qed.

End StringFacts.

(** ** [os.path.basename] leaves exactly the names without separator alone *)

Section Basename.

Lemma after_last_id (sep : ascii -> bool) (p : string) :
  str.any sep p = false -> os_path.after_last sep p = p.
Proof.
  destruct p as [|c r]; simpl; [reflexivity|].
  intros H. apply orb_false_iff in H as [Hc Hr]. now rewrite Hr, Hc.
Qed.

Lemma after_last_shorter (sep : ascii -> bool) (p : string) :
  str.any sep p = true ->
  String.length (os_path.after_last sep p) < String.length p.
Proof.
  induction p as [|c r IH]; simpl; [discriminate|].
  intros H. destruct (str.any sep r) eqn:Hr.
  - specialize (IH eq_refl). lia.
  - rewrite orb_false_r in H. rewrite H. lia.
Qed.

Lemma posix_basename_fixed (p : string) :
  os_path.posix_basename p = p <-> str.contains "/" p = false.
Proof.
  unfold os_path.posix_basename, str.contains. split.
  - intros H. destruct (str.any (Ascii.eqb "/") p) eqn:E; [|reflexivity].
    assert (L : String.length (os_path.after_last os_path.is_slash p) < String.length p).
    { apply after_last_shorter. erewrite <- E. clear.
      induction p as [|c r IH]; simpl; [reflexivity|].
      unfold os_path.is_slash at 1. now rewrite IH, (Ascii.eqb_sym c). }
    rewrite H in L. lia.
  - intros H. apply after_last_id. rewrite <- H. clear.
    induction p as [|c r IH]; simpl; [reflexivity|].
    unfold os_path.is_slash at 1. now rewrite IH, (Ascii.eqb_sym c).
Qed.

End Basename.

Section Sanitizer.

Lemma any_ext (p q : ascii -> bool) (s : string) :
  (forall c, p c = q c) -> str.any p s = str.any q s.
Proof.
  intros E. induction s as [|c r IH]; simpl; [reflexivity|]. now rewrite E, IH.
Qed.

Lemma any_bothseps (s : string) :
  str.any os_path.is_bothseps s = Spec.has_separator s.
Proof.
  unfold Spec.has_separator, str.contains.
  induction s as [|c r IH]; cbn [str.any]; [reflexivity|].
  rewrite IH. unfold os_path.is_bothseps.
  rewrite (Ascii.eqb_sym c "/"), (Ascii.eqb_sym c str.backslash).
  destruct (Ascii.eqb "/" c), (Ascii.eqb str.backslash c),
    (str.any (Ascii.eqb "/") r), (str.any (Ascii.eqb str.backslash) r);
    reflexivity.
Qed.

Lemma clean_chars (filename : string) :
  clean filename = true ->
  str.contains "/" filename = false /\
  str.contains str.backslash filename = false /\
  str.contains ":" filename = false.
Proof.
  unfold clean, invalid_chars. simpl. intros H. apply negb_true_iff in H.
  repeat (apply orb_false_iff in H as [? H]). auto.
Qed.

Lemma clean_rejected (filename : string) :
  Spec.rejected filename = negb (clean filename) || Spec.too_long filename.
Proof.
  unfold Spec.rejected, Spec.has_separator, Spec.has_reserved_char, clean,
    invalid_chars, Spec.reserved_chars. simpl. rewrite negb_involutive.
  destruct (str.contains "/" filename), (str.contains str.backslash filename),
    (str.contains "<" filename), (str.contains ">" filename),
    (str.contains ":" filename), (str.contains str.dquote filename),
    (str.contains "|" filename), (str.contains "?" filename),
    (str.contains "*" filename), (Spec.too_long filename); reflexivity.
Qed.

Lemma plain_app (a b : string) : plain a -> plain b -> plain (a ++ b).
Proof. unfold plain. intros Ha Hb. now rewrite any_app, Ha, Hb. Qed.

Lemma plain_cons (c : ascii) (s : string) :
  plain (String c s) <-> anchor_char c = false /\ plain s.
Proof. unfold plain. cbn [str.any]. apply orb_false_iff. Qed.

Lemma plain_no_separator (s : string) :
  plain s -> str.any os_path.is_bothseps s = false.
Proof.
  unfold plain. induction s as [|c r IH]; cbn [str.any]; [reflexivity|].
  intros H. apply orb_false_iff in H as [Hc Hr].
  unfold anchor_char in Hc. apply orb_false_iff in Hc as [Hc _].
  now rewrite Hc, IH.
Qed.

Lemma plain_no_slash (s : string) : plain s -> str.any os_path.is_slash s = false.
Proof.
  intros H. apply plain_no_separator in H.
  induction s as [|c r IH]; cbn [str.any] in *; [reflexivity|].
  apply orb_false_iff in H as [Hc Hr]. unfold os_path.is_bothseps in Hc.
  apply orb_false_iff in Hc as [Hc _]. unfold os_path.is_slash at 1.
  now rewrite Hc, IH.
Qed.

Lemma clean_plain (filename : string) : clean filename = true -> plain filename.
Proof.
  intros H. apply clean_chars in H as (Hs & Hb & Hc). unfold plain.
  unfold str.contains in *.
  induction filename as [|c r IH]; cbn [str.any] in *; [reflexivity|].
  apply orb_false_iff in Hs as [Hs1 Hs]. apply orb_false_iff in Hb as [Hb1 Hb].
  apply orb_false_iff in Hc as [Hc1 Hc]. rewrite (IH Hs Hb Hc).
  unfold anchor_char, os_path.is_bothseps.
  now rewrite (Ascii.eqb_sym c "/"), Hs1, (Ascii.eqb_sym c str.backslash), Hb1,
    (Ascii.eqb_sym c ":"), Hc1.
Qed.

Lemma nt_splitdrive_plain (p : string) :
  plain p -> os_path.nt_splitdrive p = (EmptyString, p).
Proof.
  intros H. destruct p as [|a [|b r]]; try reflexivity.
  apply plain_cons in H as [Ha H]. apply plain_cons in H as [Hb _].
  unfold anchor_char, os_path.is_bothseps in Ha, Hb.
  apply orb_false_iff in Ha as [Ha _]. apply orb_false_iff in Ha as [Ha1 Ha2].
  apply orb_false_iff in Hb as [Hb Hb3]. apply orb_false_iff in Hb as [Hb1 _].
  unfold os_path.nt_splitdrive.
  change (2 <=? String.length (String a (String b r)))%nat with true. cbv iota.
  unfold str.replace. cbn [str.map str.take str.drop].
  rewrite Ha1, Hb1. cbn [String.eqb]. rewrite Ha2. cbn [andb].
  rewrite Hb3. reflexivity.
Qed.

Lemma basename_clean (os : flavour) (p : string) :
  clean p = true -> os_path.basename os p = p.
Proof.
  intros H. apply clean_plain in H. destruct os; simpl.
  - apply after_last_id. now apply plain_no_slash.
  - unfold os_path.nt_basename. rewrite (nt_splitdrive_plain H). simpl.
    apply after_last_id. now apply plain_no_separator.
Qed.

Lemma check_chars_spec (chars : list ascii) (s : string) :
  (existsb (fun c => str.contains c s) chars = false /\ check_chars chars s = Ok tt) \/
  (existsb (fun c => str.contains c s) chars = true /\
   exists message, check_chars chars s = Raise (Exn ValueError message)).
Proof.
  induction chars as [|c rest IH]; simpl; [now left|].
  destruct (str.contains c s); simpl.
  - right. split; [reflexivity|]. eexists. reflexivity.
  - exact IH.
Qed.

(** What [_validate_filename] does with a non-empty name: it raises a
    [ValueError] when a listed character occurs in the name or the name is
    longer than 255 characters, and returns the name unchanged otherwise. *)
Lemma validate_cases (os : flavour) (filename : string) :
  filename <> EmptyString ->
  (Spec.rejected filename = false /\ _validate_filename os filename = Ok filename) \/
  (Spec.rejected filename = true /\
   exists message, _validate_filename os filename = Raise (Exn ValueError message)).
Proof.
  intros Hne. rewrite clean_rejected. unfold _validate_filename.
  apply truthy_nonempty in Hne. rewrite Hne. cbn [negb].
  destruct (os_path.basename os filename =? filename) eqn:Hb; cbn [negb].
  - apply String.eqb_eq in Hb. rewrite Hb.
    unfold Spec.too_long. destruct (255 <? String.length filename)%nat.
    + right. rewrite orb_true_r. split; [reflexivity|]. eexists. reflexivity.
    + rewrite orb_false_r. unfold clean.
      destruct (check_chars_spec invalid_chars filename) as [[E ->] | [E [message ->]]];
        rewrite E; simpl.
      * now left.
      * right. split; [reflexivity|]. now exists message.
  - right. split; [|eexists; reflexivity].
    destruct (clean filename) eqn:Hc; [|reflexivity].
    apply (basename_clean os) in Hc. rewrite Hc, String.eqb_refl in Hb. discriminate.
Qed.

End Sanitizer.

(** ** Joining a plain name to a directory adds exactly one component *)

Section Joining.

Variable os : flavour.

Lemma split_no_separator (sep : ascii -> bool) (s : string) :
  str.any sep s = false -> split sep s = [s].
Proof.
  induction s as [|c r IH]; cbn [str.any split]; [reflexivity|].
  intros H. apply orb_false_iff in H as [Hc Hr]. now rewrite Hc, (IH Hr).
Qed.

Lemma lstrip_no_separator (sep : ascii -> bool) (s : string) :
  str.any sep s = false -> lstrip sep s = s.
Proof.
  destruct s as [|c r]; cbn [str.any lstrip]; [reflexivity|].
  intros H. apply orb_false_iff in H as [Hc _]. now rewrite Hc.
Qed.

Lemma is_sep_no_separator (s : string) : plain s -> str.any (is_sep os) s = false.
Proof.
  destruct os; simpl; [apply plain_no_slash | apply plain_no_separator].
Qed.

Lemma char_at_avoids (p : ascii -> bool) (c : ascii) (s : string) (n : nat) :
  str.any p s = false -> p c = true ->
  (str.take 1 (str.drop n s) =? String c EmptyString) = false.
Proof.
  intros H Hc. revert s H.
  induction n as [|n IH]; intros [|a r] H; try reflexivity.
  - cbn [str.any] in H. apply orb_false_iff in H as [Ha _].
    cbn [str.drop str.take String.eqb].
    destruct (Ascii.eqb_spec a c) as [->|]; [congruence|reflexivity].
  - cbn [str.any] in H. apply orb_false_iff in H as [_ Hr].
    cbn [str.drop]. now apply IH.
Qed.

Lemma splitroot_plain (s : string) :
  plain s -> splitroot os s = (EmptyString, EmptyString, s).
Proof.
  intros H. unfold splitroot. destruct os.
  - replace (str.startswith s "/") with false; [reflexivity|].
    apply plain_no_slash in H. destruct s as [|c r]; [reflexivity|].
    cbn [str.any] in H. apply orb_false_iff in H as [Hc _].
    unfold os_path.is_slash in Hc. cbn [str.startswith]. now rewrite Hc.
  - unfold nt_splitroot. cbn [sep].
    assert (B : forall n, (str.take 1 (str.drop n s) =? String str.backslash EmptyString) = false).
    { intros n. apply char_at_avoids with (p := anchor_char); [exact H|].
      unfold anchor_char, os_path.is_bothseps.
      now rewrite Ascii.eqb_refl, orb_true_r. }
    assert (C : (str.take 1 (str.drop 1 s) =? ":") = false).
    { apply char_at_avoids with (p := anchor_char); [exact H|].
      unfold anchor_char. now rewrite Ascii.eqb_refl, orb_true_r. }
    rewrite (B 1). cbn [andb]. cbv beta iota. rewrite (B 1), C. cbn [andb].
    cbv beta iota. change (str.take 1 s) with (str.take 1 (str.drop 0 s)).
    now rewrite (B 0).
Qed.

Lemma replace_absent (a b : ascii) (s : string) :
  str.any (fun c => Ascii.eqb c a) s = false -> str.replace a b s = s.
Proof.
  induction s as [|c r IH]; cbn [str.any]; [reflexivity|].
  intros H. apply orb_false_iff in H as [Hc Hr].
  unfold str.replace in *. cbn [str.map]. now rewrite Hc, (IH Hr).
Qed.

Lemma keep_component_long (s : string) :
  2 <= String.length s -> keep_component s = true.
Proof.
  destruct s as [|a [|b r]]; simpl; intros H; try lia.
  unfold keep_component. cbn [str.truthy String.eqb andb].
  now destruct (Ascii.eqb a ".").
Qed.

Lemma parse_plain (s : string) :
  plain s -> 2 <= String.length s -> parse os s = mkPath EmptyString EmptyString [s].
Proof.
  intros H L. unfold parse.
  replace (match os with Posix => s | Nt => str.replace "/" str.backslash s end) with s
    by (destruct os; [reflexivity | symmetry; apply replace_absent, plain_no_slash, H]).
  rewrite (splitroot_plain H).
  rewrite (split_no_separator _ _ (is_sep_no_separator H)).
  cbn [filter]. now rewrite (keep_component_long _ L).
Qed.

Lemma joinpath_plain (p : Path) (s : string) :
  plain s -> 2 <= String.length s ->
  joinpath os p s = mkPath (drive p) (root p) (parts p ++ [s]).
Proof.
  intros H L. unfold joinpath. now rewrite (parse_plain H L).
Qed.

Lemma name_joinpath (p : Path) (s : string) :
  plain s -> 2 <= String.length s -> name (joinpath os p s) = s.
Proof.
  intros H L. rewrite (joinpath_plain p H L). unfold name. cbn [parts].
  apply last_last.
Qed.

Lemma parent_joinpath (p : Path) (s : string) :
  plain s -> 2 <= String.length s -> parent (joinpath os p s) = p.
Proof.
  intros H L. rewrite (joinpath_plain p H L). unfold parent. cbn [drive root parts].
  rewrite removelast_last. now destruct p.
Qed.

Lemma join_snoc (sp : string) (items : list string) (s : string) :
  exists prefix, str.join sp (items ++ [s]) = prefix ++ s.
Proof.
  induction items as [|x rest [prefix IH]].
  - exists EmptyString. reflexivity.
  - destruct rest as [|y rest'].
    + exists (x ++ sp). cbn. now rewrite append_assoc.
    + exists (x ++ sp ++ prefix).
      change (str.join sp ((x :: y :: rest') ++ [s]))
        with (x ++ sp ++ str.join sp ((y :: rest') ++ [s])).
      rewrite IH. now rewrite !append_assoc.
Qed.

(** [str(p / s)] ends with [s]. *)
Lemma to_str_joinpath (p : Path) (s : string) :
  plain s -> 2 <= String.length s ->
  str.endswith (to_str os (joinpath os p s)) s = true.
Proof.
  intros H L. rewrite (joinpath_plain p H L). unfold to_str. cbn [drive root parts].
  destruct (join_snoc (sep os) (parts p) s) as [prefix ->].
  destruct (drive p ++ root p ++ prefix ++ s) eqn:E.
  - apply (f_equal String.length) in E. rewrite !length_app in E. simpl in E. lia.
  - rewrite <- E. rewrite <- !append_assoc. apply endswith_app.
Qed.

End Joining.

(** ** The names [_generate_filename] produces *)

Section Naming.

Variable os : flavour.

Lemma digit_plain (n : nat) : anchor_char (digit n) = false.
Proof.
  unfold digit. assert (H : n mod 10 < 10) by (apply Nat.mod_upper_bound; lia).
  destruct (n mod 10) as [|k]; [reflexivity|].
  do 9 (destruct k as [|k]; [reflexivity|]). lia.
Qed.

Lemma pad2_plain (n : nat) : plain (pad2 n).
Proof.
  unfold pad2. apply plain_cons. split; [apply digit_plain|].
  apply plain_cons. split; [apply digit_plain | reflexivity].
Qed.

Lemma pad4_plain (n : nat) : plain (pad4 n).
Proof.
  unfold pad4. apply plain_cons. split; [apply digit_plain|].
  apply plain_cons. split; [apply digit_plain | apply pad2_plain].
Qed.

Lemma strftime_plain (t : datetime) : plain (strftime_Ymd_HMS t).
Proof.
  unfold strftime_Ymd_HMS.
  apply plain_app; [apply pad4_plain|].
  apply plain_app; [apply pad2_plain|].
  apply plain_app; [apply pad2_plain|].
  apply plain_app; [reflexivity|].
  apply plain_app; [apply pad2_plain|].
  apply plain_app; apply pad2_plain.
Qed.

Lemma format_plain (fmt : string) :
  In fmt valid_formats -> plain ("." ++ fmt) /\ 4 <= String.length ("." ++ fmt).
Proof.
  unfold valid_formats. simpl.
  intros [<- | [<- | [<- | []]]]; split; solve [reflexivity | simpl; lia].
Qed.

Lemma stamped_name_plain (fmt : string) (t : datetime) :
  In fmt valid_formats ->
  plain (stamped_name fmt t) /\ 2 <= String.length (stamped_name fmt t).
Proof.
  intros H. destruct (format_plain H) as [Hp Hl]. unfold stamped_name. split.
  - apply plain_app; [reflexivity|]. apply plain_app; [apply strftime_plain | exact Hp].
  - rewrite !length_app. simpl. lia.
Qed.

Lemma final_name_plain (fmt custom_name : string) :
  In fmt valid_formats -> clean custom_name = true ->
  plain (final_name fmt custom_name) /\ 2 <= String.length (final_name fmt custom_name).
Proof.
  intros H Hc. destruct (format_plain H) as [Hp Hl]. apply clean_plain in Hc.
  unfold final_name. destruct (str.endswith custom_name ("." ++ fmt)) eqn:E.
  - split; [exact Hc|]. apply endswith_length in E. lia.
  - split; [now apply plain_app|]. rewrite length_app. lia.
Qed.

Lemma final_name_endswith (fmt custom_name : string) :
  str.endswith (final_name fmt custom_name) ("." ++ fmt) = true.
Proof.
  unfold final_name. destruct (str.endswith custom_name ("." ++ fmt)) eqn:E;
    [exact E | apply endswith_app].
Qed.

Lemma stamped_name_endswith (fmt : string) (t : datetime) :
  str.endswith (stamped_name fmt t) ("." ++ fmt) = true.
Proof.
  unfold stamped_name.
  replace ("screenshot_" ++ strftime_Ymd_HMS t ++ "." ++ fmt)
    with (("screenshot_" ++ strftime_Ymd_HMS t) ++ "." ++ fmt)
    by apply append_assoc.
  apply endswith_app.
Qed.

Lemma validated_clean (custom_name validated : string) :
  custom_name <> EmptyString ->
  _validate_filename os custom_name = Ok validated ->
  validated = custom_name /\ clean custom_name = true /\
  Spec.rejected custom_name = false.
Proof.
  intros Hne H. destruct (validate_cases os Hne) as [[Hr Hv] | [_ [message Hv]]];
    rewrite Hv in H; [|discriminate].
  injection H as <-. repeat split; [|exact Hr].
  rewrite clean_rejected in Hr. apply orb_false_iff in Hr as [Hr _].
  now apply negb_false_iff in Hr.
Qed.

Lemma generate_named (self : ScreenSnap) (t : datetime) (custom_name : string) :
  custom_name <> EmptyString ->
  _generate_filename os self t (Some custom_name) =
    match _validate_filename os custom_name with
    | Ok filename => Ok (joinpath os (output_dir self) (final_name (format self) filename))
    | Raise e => Raise e
    end.
Proof.
  intros Hne. apply truthy_nonempty in Hne. unfold _generate_filename. rewrite Hne.
  destruct (_validate_filename os custom_name) as [filename|e]; [|reflexivity].
  unfold bind, final_name. now destruct (str.endswith filename ("." ++ format self)).
Qed.

Lemma generate_stamped (self : ScreenSnap) (t : datetime) (custom_name : option string) :
  custom_name = None \/ custom_name = Some EmptyString ->
  _generate_filename os self t custom_name =
    Ok (joinpath os (output_dir self) (stamped_name (format self) t)).
Proof. intros [-> | ->]; reflexivity. Qed.

(** Whatever the argument, a path that [_generate_filename] returns lies
    directly in the output directory and its name ends with the extension. *)
Lemma generate_target (self : ScreenSnap) (t : datetime)
    (custom_name : option string) (p : Path) :
  In (format self) valid_formats ->
  _generate_filename os self t custom_name = Ok p ->
  exists filename,
    p = joinpath os (output_dir self) filename /\
    plain filename /\ 2 <= String.length filename /\
    str.endswith filename ("." ++ format self) = true /\
    (str.truthy (match custom_name with Some n => n | None => EmptyString end) = true ->
     filename = final_name (format self)
                  (match custom_name with Some n => n | None => EmptyString end)) /\
    (str.truthy (match custom_name with Some n => n | None => EmptyString end) = false ->
     filename = stamped_name (format self) t).
Proof.
  intros Hf H.
  assert (Hstamp : _generate_filename os self t custom_name =
                     Ok (joinpath os (output_dir self) (stamped_name (format self) t)) ->
                   str.truthy (match custom_name with Some n => n | None => EmptyString end) = false ->
                   exists filename,
    p = joinpath os (output_dir self) filename /\
    plain filename /\ 2 <= String.length filename /\
    str.endswith filename ("." ++ format self) = true /\
    (str.truthy (match custom_name with Some n => n | None => EmptyString end) = true ->
     filename = final_name (format self)
                  (match custom_name with Some n => n | None => EmptyString end)) /\
    (str.truthy (match custom_name with Some n => n | None => EmptyString end) = false ->
     filename = stamped_name (format self) t)).
  { intros E Ht. rewrite E in H. injection H as <-.
    exists (stamped_name (format self) t).
    destruct (stamped_name_plain t Hf) as [Hp Hl].
    repeat split; auto using stamped_name_endswith. rewrite Ht. discriminate. }
  destruct custom_name as [[|c n]|].
  - apply Hstamp; [now apply generate_stamped; right | reflexivity].
  - clear Hstamp. rewrite generate_named in H by discriminate.
    destruct (_validate_filename os (String c n)) as [filename|e] eqn:Hv; [|discriminate].
    injection H as <-.
    apply validated_clean in Hv as (-> & Hc & _); [|discriminate].
    exists (final_name (format self) (String c n)).
    destruct (@final_name_plain _ _ Hf Hc) as [Hp Hl].
    repeat split; auto using final_name_endswith. discriminate.
  - apply Hstamp; [now apply generate_stamped; left | reflexivity].
Qed.

End Naming.

(** ** What one call does *)

Section Capturing.

Variable os : flavour.

(** [capture], clause by clause. *)
Lemma capture_unfold (self : ScreenSnap) (o : oracle) (filename : option string)
    (w : world) :
  capture os self o filename w =
    match _generate_filename os self (now o) filename with
    | Raise e => (Raise (surfaced e), w)
    | Ok filepath =>
        match grab o with
        | Raise e => (Raise (surfaced e), w)
        | Ok screenshot =>
            match image_save o filepath (str.upper (format self)) screenshot with
            | Some e => (Raise (surfaced e), w)
            | None =>
                (Ok filepath,
                 with_file filepath (ImageData (str.upper (format self)) screenshot) w)
            end
        end
    end.
Proof.
  unfold capture, try_except, bindM, lift, save_image, surfaced, raise, ret,
    write_file, with_file.
  destruct (_generate_filename os self (now o) filename) as [filepath|e].
  - destruct (grab o) as [screenshot|e].
    + destruct (image_save o filepath (str.upper (format self)) screenshot) as [e|].
      * now destruct (isinstance e ValueError).
      * reflexivity.
    + now destruct (isinstance e ValueError).
  - now destruct (isinstance e ValueError).
Qed.

(** A rejected name: the [ValueError] of the validation reaches the
    caller unchanged, whatever the backend would have done, and nothing is
    written. *)
Lemma capture_rejected (self : ScreenSnap) (o : oracle) (filename : string)
    (w : world) :
  filename <> EmptyString -> Spec.rejected filename = true ->
  exists message,
    _validate_filename os filename = Raise (Exn ValueError message) /\
    capture os self o (Some filename) w = (Raise (Exn ValueError message), w).
Proof.
  intros Hne Hr. destruct (validate_cases os Hne) as [[Hr' _] | [_ [message Hv]]];
    [congruence|].
  exists message. split; [exact Hv|].
  rewrite capture_unfold, generate_named, Hv by exact Hne. reflexivity.
Qed.

(** An accepted name and a working backend: the file lands at
    [output_dir / final_name]. *)
Lemma capture_accepted (self : ScreenSnap) (o : oracle) (filename : string)
    (w : world) (screenshot : image) :
  filename <> EmptyString -> Spec.rejected filename = false ->
  grab o = Ok screenshot ->
  (forall p fmt im, image_save o p fmt im = None) ->
  capture os self o (Some filename) w =
    (Ok (joinpath os (output_dir self) (final_name (format self) filename)),
     with_file (joinpath os (output_dir self) (final_name (format self) filename))
       (ImageData (str.upper (format self)) screenshot) w).
Proof.
  intros Hne Hr Hg Hs. destruct (validate_cases os Hne) as [[_ Hv] | [Hr' _]];
    [|congruence].
  rewrite capture_unfold, generate_named, Hv, Hg, Hs by exact Hne. reflexivity.
Qed.

Lemma adds_ret (self : ScreenSnap) (A : Type) (a : A) : adds_generated os self (ret a).
Proof. intros w. exists []. split; [constructor | reflexivity]. Qed.

Lemma adds_raise (self : ScreenSnap) (A : Type) (e : exn) :
  adds_generated os self (@raise A e).
Proof. intros w. exists []. split; [constructor | reflexivity]. Qed.

Lemma adds_lift (self : ScreenSnap) (A : Type) (r : result A) :
  adds_generated os self (lift r).
Proof. intros w. exists []. split; [constructor | reflexivity]. Qed.

Lemma adds_print (self : ScreenSnap) (line : string) :
  adds_generated os self (print line).
Proof. intros w. exists []. split; [constructor | reflexivity]. Qed.

Lemma adds_bind (self : ScreenSnap) (A B : Type) (m : M A) (k : A -> M B) :
  adds_generated os self m -> (forall a, adds_generated os self (k a)) ->
  adds_generated os self (bindM m k).
Proof.
  intros Hm Hk w. unfold bindM. destruct (Hm w) as (new1 & F1 & E1).
  destruct (m w) as [[a|e] w']; cbn [snd] in *.
  - destruct (Hk a w') as (new2 & F2 & E2). exists (new2 ++ new1)%list. split.
    + apply Forall_app. now split.
    + now rewrite E2, E1, app_assoc.
  - now exists new1.
Qed.

Lemma adds_try (self : ScreenSnap) (A : Type) (body : M A) (handler : exn -> M A) :
  adds_generated os self body -> (forall e, adds_generated os self (handler e)) ->
  adds_generated os self (try_except body handler).
Proof.
  intros Hb Hh w. unfold try_except. destruct (Hb w) as (new1 & F1 & E1).
  destruct (body w) as [[a|e] w']; cbn [snd] in *.
  - now exists new1.
  - destruct (Hh e w') as (new2 & F2 & E2). exists (new2 ++ new1)%list. split.
    + apply Forall_app. now split.
    + now rewrite E2, E1, app_assoc.
Qed.

Lemma adds_save_image (self : ScreenSnap) (o : oracle) (screenshot : image)
    (filepath : Path) (t : datetime) (filename : option string) :
  _generate_filename os self t filename = Ok filepath ->
  adds_generated os self (save_image o self screenshot filepath).
Proof.
  intros G w. unfold save_image.
  destruct (image_save o filepath (str.upper (format self)) screenshot) as [e|].
  - exists []. split; [constructor | reflexivity].
  - exists [(filepath, ImageData (str.upper (format self)) screenshot)].
    split; [|reflexivity]. constructor; [|constructor].
    split; [exact I|]. now exists t, filename.
Qed.

Lemma adds_capture (self : ScreenSnap) (o : oracle) (filename : option string) :
  adds_generated os self (capture os self o filename).
Proof.
  unfold capture. apply adds_try.
  - intros w. unfold bindM at 1, lift at 1.
    destruct (_generate_filename os self (now o) filename) as [filepath|e] eqn:G.
    + revert w. apply adds_bind; [apply adds_lift|]. intros screenshot.
      apply adds_bind; [now apply adds_save_image with (now o) filename|].
      intros _. apply adds_ret.
    + exists []. split; [constructor | reflexivity].
  - intros e. destruct (isinstance e ValueError); apply adds_raise.
Qed.

Lemma adds_capture_window (self : ScreenSnap) (o : oracle)
    (window_title : string) (filename : option string) :
  adds_generated os self (capture_window os self o window_title filename).
Proof.
  unfold capture_window. destruct (negb (system self =? "Windows")).
  - apply adds_bind; [apply adds_print | intros _; apply adds_capture].
  - apply adds_try.
    + apply adds_bind.
      * destruct (pywin32_installed o); [apply adds_ret | apply adds_raise].
      * intros _. destruct (falsy_hwnd (_find_window o window_title)).
        -- apply adds_bind; [apply adds_print | intros _; apply adds_capture].
        -- apply adds_bind; [apply adds_lift|]. intros screenshot.
           intros w. unfold bindM at 1, lift at 1.
           destruct (_generate_filename os self (now o) filename) as [filepath|e] eqn:G.
           ++ revert w.
              apply adds_bind; [now apply adds_save_image with (now o) filename|].
              intros _. apply adds_ret.
           ++ exists []. split; [constructor | reflexivity].
    + intros e. destruct (isinstance e ImportError).
      * apply adds_bind; [apply adds_print | intros _; apply adds_capture].
      * apply adds_raise.
Qed.

Lemma adds_do_call (self : ScreenSnap) (c : call) (o : oracle) :
  adds_generated os self (do_call os self c o).
Proof. destruct c; [apply adds_capture | apply adds_capture_window]. Qed.

Lemma run_adds_generated (self : ScreenSnap) (cs : list (call * oracle)) (w : world) :
  exists new,
    Forall (generated os self) new /\
    files (snd (run os self cs w)) = (new ++ files w)%list.
Proof.
  revert w. induction cs as [|[c o] rest IH]; intros w; cbn [run].
  - exists []. split; [constructor | reflexivity].
  - destruct (adds_do_call self c o w) as (new1 & F1 & E1).
    destruct (do_call os self c o w) as [r w']. cbn [snd] in E1.
    destruct (IH w') as (new2 & F2 & E2).
    destruct (run os self rest w') as [rs w'']. cbn [snd] in *.
    exists (new2 ++ new1)%list. split.
    + apply Forall_app. now split.
    + now rewrite E2, E1, app_assoc.
Qed.

(** Without window support, [capture_window] prints one warning and is
    [capture]. *)
Lemma capture_window_fallback (self : ScreenSnap) (o : oracle)
    (window_title : string) (filename : option string) (w : world) :
  Spec.no_window_support (system self) o ->
  exists warning,
    str.startswith warning "Warning: " = true /\
    capture_window os self o window_title filename w =
      capture os self o filename (with_line warning w).
Proof.
  intros H. unfold capture_window.
  destruct (system self =? "Windows") eqn:E; cbn [negb].
  - destruct H as [H | H]; [apply String.eqb_eq in E; contradiction|].
    rewrite H.
    exists "Warning: pywin32 not installed, capturing full screen instead".
    split; reflexivity.
  - exists ("Warning: Window capture not supported on " ++ system self ++
            ", capturing full screen").
    split; reflexivity.
Qed.

Lemma capture_with_line (self : ScreenSnap) (o : oracle) (filename : option string)
    (line : string) (w : world) :
  capture os self o filename (with_line line w) =
    (fst (capture os self o filename w),
     with_line line (snd (capture os self o filename w))).
Proof.
  rewrite !capture_unfold.
  destruct (_generate_filename os self (now o) filename) as [filepath|e];
    [|reflexivity].
  destruct (grab o) as [screenshot|e]; [|reflexivity].
  now destruct (image_save o filepath (str.upper (format self)) screenshot).
Qed.

End Capturing.

(** ** Construction *)

Section Construction.

Variable os : flavour.

(** [ScreenSnap.__init__], step by step. *)
Lemma init_unfold (m : machine) (dir : option string) (fmt : string)
    (path : option Path) (w : world) :
  ScreenSnap_init os m dir fmt path w =
    match ScreenSnapConfig_init os m path with
    | Raise e => (Raise e, w)
    | Ok cm =>
        match resolve_output_dir os cm dir with
        | Raise e => (Raise e, w)
        | Ok d =>
            if negb (str.mem (str.lower fmt) valid_formats)
            then (Raise (invalid_format_error fmt), w)
            else if has_nul d
            then (Raise (Exn ValueError "embedded null byte"), w)
            else match mkdir_error m d with
                 | Some message => (Raise (Exn OSError message), w)
                 | None =>
                     if pillow_installed m
                     then (Ok (mkScreenSnap cm d (str.lower fmt) (platform_system m)),
                           mkWorld (files w) (d :: dirs w) (stdout w))
                     else (Raise (Exn ImportError
                             "Pillow is required for ScreenSnap. Install it with: pip install pillow"),
                           mkWorld (files w) (d :: dirs w) (stdout w))
                 end
        end
    end.
Proof.
  unfold ScreenSnap_init, bindM, lift.
  destruct (ScreenSnapConfig_init os m path) as [cm|e]; [|reflexivity].
  destruct (resolve_output_dir os cm dir) as [d|e]; [|reflexivity].
  destruct (negb (str.mem (str.lower fmt) valid_formats)); [reflexivity|].
  unfold mkdir. destruct (has_nul d); [reflexivity|].
  destruct (mkdir_error m d); [reflexivity|].
  now destruct (pillow_installed m).
Qed.

Lemma mem_In (x : string) (items : list string) :
  str.mem x items = true <-> In x items.
Proof.
  unfold str.mem. rewrite existsb_exists. split.
  - intros (y & Hy & E). apply String.eqb_eq in E. now subst.
  - intros H. exists x. split; [exact H | apply String.eqb_refl].
Qed.

Lemma accepted_format_mem (fmt : string) :
  Spec.accepted_format fmt <-> str.mem (str.lower fmt) valid_formats = true.
Proof.
  rewrite mem_In. unfold Spec.accepted_format, valid_formats. split.
  - intros (f & Hf & E). rewrite E. simpl in Hf.
    destruct Hf as [<- | [<- | [<- | []]]]; simpl; auto.
  - intros H. exists (str.lower fmt). split; [exact H|].
    simpl in H. destruct H as [<- | [<- | [<- | []]]]; reflexivity.
Qed.

Lemma init_format (m : machine) (dir : option string) (fmt : string)
    (path : option Path) (w w' : world) (self : ScreenSnap) :
  ScreenSnap_init os m dir fmt path w = (Ok self, w') ->
  format self = str.lower fmt /\ In (format self) valid_formats.
Proof.
  rewrite init_unfold.
  destruct (ScreenSnapConfig_init os m path) as [cm|e]; [|discriminate].
  destruct (resolve_output_dir os cm dir) as [d|e]; [|discriminate].
  destruct (str.mem (str.lower fmt) valid_formats) eqn:E; cbn [negb]; [|discriminate].
  destruct (has_nul d); [discriminate|].
  destruct (mkdir_error m d); [discriminate|].
  destruct (pillow_installed m); [|discriminate].
  intros H. injection H as <- _. cbn [format]. split; [reflexivity | now apply mem_In].
Qed.

End Construction.

(** ** A valid name on a constructed instance *)

Lemma capture_valid_name (os : flavour) (self : ScreenSnap) (o : oracle)
    (w : world) (n : string) :
  In (format self) valid_formats ->
  n <> EmptyString ->
  _validate_filename os n = Ok n ->
  exists p,
    _generate_filename os self (now o) (Some n) = Ok p /\
    parent p = output_dir self /\
    name p = final_name (format self) n /\
    str.endswith (to_str os p) (name p) = true /\
    (forall q w', capture os self o (Some n) w = (Ok q, w') -> q = p) /\
    (Spec.backend_works o -> exists w', capture os self o (Some n) w = (Ok p, w')).
Proof.
  intros Hf Hne Hv.
  apply validated_clean in Hv as (_ & Hc & Hr); [|exact Hne].
  destruct (@final_name_plain _ _ Hf Hc) as [Hp Hl].
  exists (joinpath os (output_dir self) (final_name (format self) n)).
  assert (G : _generate_filename os self (now o) (Some n) =
              Ok (joinpath os (output_dir self) (final_name (format self) n))).
  { rewrite generate_named by exact Hne.
    destruct (validate_cases os Hne) as [[_ ->] | [Hr' _]]; [reflexivity | congruence]. }
  split; [exact G|].
  rewrite (name_joinpath os (output_dir self) Hp Hl).
  split; [now apply parent_joinpath|]. split; [reflexivity|].
  split; [now apply to_str_joinpath|]. split.
  - intros q w'. rewrite capture_unfold, G.
    destruct (grab o) as [screenshot|e]; [|discriminate].
    destruct (image_save o _ (str.upper (format self)) screenshot); [discriminate|].
    intros H. now injection H as <- _.
  - intros [[screenshot Hg] Hs]. eexists.
    now apply capture_accepted with (screenshot := screenshot).
Qed.

(** * The claims *)

Unset Implicit Arguments.

(** The sample backend works. *)
Ltac sample_backend_works := split; [now exists one_pixel | reflexivity].

(** ** C1: which names [capture] rejects *)

(** C1, as worded, at the name [..]: the name consists of one [..] segment,
    so the worded rule calls it invalid, yet [_validate_filename] returns it
    on both flavours (its basename is itself, it is short and holds no listed
    character) and [capture] writes [out/...png]. *)
Lemma capture_accepts_dotdot :
  Spec.claimed_invalid ".." = true /\
  _validate_filename Posix ".." = Ok ".." /\
  _validate_filename Nt ".." = Ok ".." /\
  capture Posix (snap "png") working_oracle (Some "..") blank =
    (Ok (out_file "...png"),
     with_file (out_file "...png") (ImageData "PNG" one_pixel) blank).
Proof. repeat split; reflexivity. Qed.

(** C1, amended: with a working backend, [capture] of a non-empty name fails
    with the [ValueError] of the validation exactly when the name contains
    [/] or [\], is longer than 255 characters, or contains one of the
    reserved characters; every other name, [..] included, is accepted and
    the file is written under the output directory.  A rejected name is
    rejected whatever the backend does. *)
Theorem capture_rejects_exactly (os : flavour) (self : ScreenSnap) (o : oracle)
    (w : world) (filename : string) :
  filename <> EmptyString ->
  Spec.backend_works o ->
  ((exists message,
      capture os self o (Some filename) w = (Raise (Exn ValueError message), w))
   <-> Spec.rejected filename = true) /\
  (Spec.rejected filename = true ->
   forall o', exists message,
     _validate_filename os filename = Raise (Exn ValueError message) /\
     capture os self o' (Some filename) w = (Raise (Exn ValueError message), w)) /\
  (Spec.rejected filename = false ->
   _validate_filename os filename = Ok filename /\
   exists w',
     capture os self o (Some filename) w =
       (Ok (joinpath os (output_dir self) (final_name (format self) filename)), w')).
Proof.
  intros Hne [[screenshot Hg] Hs].
  assert (Hok : Spec.rejected filename = false ->
    _validate_filename os filename = Ok filename /\
    exists w',
      capture os self o (Some filename) w =
        (Ok (joinpath os (output_dir self) (final_name (format self) filename)), w')).
  { intros Hr. split.
    - destruct (validate_cases os Hne) as [[_ Hv] | [Hr' _]]; [exact Hv | congruence].
    - eexists. now apply capture_accepted with (screenshot := screenshot). }
  split; [split|split].
  - intros [message Hc]. destruct (Spec.rejected filename) eqn:Hr; [reflexivity|].
    destruct (Hok eq_refl) as [_ [w' Hc']]. congruence.
  - intros Hr. destruct (capture_rejected os self o w Hne Hr) as (message & _ & Hc).
    now exists message.
  - intros Hr o'. apply capture_rejected; assumption.
  - exact Hok.
Qed.

(** An instance: the name [a/b] on the sample instance. *)
Lemma capture_rejects_exactly_witness :
  "a/b" <> EmptyString /\
  Spec.backend_works working_oracle /\
  ((exists message,
      capture Posix (snap "png") working_oracle (Some "a/b") blank =
        (Raise (Exn ValueError message), blank))
   <-> Spec.rejected "a/b" = true).
Proof.
  assert (Hne : "a/b" <> EmptyString) by discriminate.
  assert (Hb : Spec.backend_works working_oracle) by sample_backend_works.
  split; [exact Hne|]. split; [exact Hb|].
  exact (proj1 (capture_rejects_exactly Posix (snap "png") working_oracle blank
                  "a/b" Hne Hb)).
Defined.

(** ** C2: the returned path cannot leave the output directory *)

(** C2: for an instance the constructor returned, whenever [capture]
    returns a path, the parent of the path is the output directory and its
    final component contains no separator; that component is the validated
    name (with the extension added when missing) for a caller-supplied name,
    and the timestamp name otherwise. *)
Theorem capture_stays_in_output_dir (os : flavour) (m : machine)
    (dir : option string) (fmt : string) (path : option Path) (w0 w1 : world)
    (self : ScreenSnap) (o : oracle) (filename : option string) (w w' : world)
    (p : Path) :
  ScreenSnap_init os m dir fmt path w0 = (Ok self, w1) ->
  capture os self o filename w = (Ok p, w') ->
  parent p = output_dir self /\
  str.any os_path.is_bothseps (name p) = false /\
  (forall n, filename = Some n -> n <> EmptyString ->
     _validate_filename os n = Ok n /\ name p = final_name (format self) n) /\
  (filename = None \/ filename = Some EmptyString ->
     name p = stamped_name (format self) (now o)).
Proof.
  intros Hinit Hcap. apply init_format in Hinit as [_ Hf].
  assert (G : _generate_filename os self (now o) filename = Ok p).
  { rewrite capture_unfold in Hcap.
    destruct (_generate_filename os self (now o) filename) as [q|e]; [|discriminate].
    destruct (grab o) as [screenshot|e]; [|discriminate].
    destruct (image_save o q (str.upper (format self)) screenshot); [discriminate|].
    now injection Hcap as -> _. }
  destruct (generate_target os self (now o) filename Hf G)
    as (f & -> & Hp & Hl & _ & Hnamed & Hstamped).
  rewrite (name_joinpath os (output_dir self) Hp Hl).
  rewrite (parent_joinpath os (output_dir self) Hp Hl).
  split; [reflexivity|]. split; [now apply plain_no_separator|]. split.
  - intros n -> Hne. split.
    + rewrite generate_named in G by exact Hne.
      destruct (validate_cases os Hne) as [[_ Hv] | [_ [message Hv]]];
        [exact Hv | rewrite Hv in G; discriminate].
    + apply Hnamed. now apply truthy_nonempty.
  - intros [-> | ->]; now apply Hstamped.
Qed.

(** An instance: [capture("shot")] on the sample instance lands in [out]. *)
Lemma capture_stays_in_output_dir_witness :
  ScreenSnap_init Posix quiet_machine (Some "out") "png" None blank =
    (Ok (snap "png"), mkWorld [] [parse Posix "out"] []) /\
  capture Posix (snap "png") working_oracle (Some "shot") blank =
    (Ok (out_file "shot.png"),
     with_file (out_file "shot.png") (ImageData "PNG" one_pixel) blank) /\
  parent (out_file "shot.png") = output_dir (snap "png") /\
  str.any os_path.is_bothseps (name (out_file "shot.png")) = false.
Proof.
  assert (Hinit : ScreenSnap_init Posix quiet_machine (Some "out") "png" None blank =
    (Ok (snap "png"), mkWorld [] [parse Posix "out"] [])) by reflexivity.
  assert (Hcap : capture Posix (snap "png") working_oracle (Some "shot") blank =
    (Ok (out_file "shot.png"),
     with_file (out_file "shot.png") (ImageData "PNG" one_pixel) blank)) by reflexivity.
  split; [exact Hinit|]. split; [exact Hcap|].
  destruct (capture_stays_in_output_dir Posix quiet_machine (Some "out") "png" None
              blank _ (snap "png") working_oracle (Some "shot") blank _
              (out_file "shot.png") Hinit Hcap) as (H1 & H2 & _).
  split; [exact H1 | exact H2].
Defined.

(** ** C3 and C4: the format [jpg] reaches the encoder as [JPG] *)

(** [capture] passes [self.format.upper()] to [Image.save].  For the format
    [jpg] this is [JPG], which is no encoder id of Pillow: the lookup raises
    [KeyError('JPG')] and [capture] turns it into a [RuntimeError].  So an
    instance of format [jpg] never returns from [capture], whatever the name. *)
Lemma capture_jpg_raises (os : flavour) (self : ScreenSnap) (o : oracle)
    (filename : option string) (w : world) :
  format self = "jpg" ->
  Pillow.encodes o ->
  (forall p w', capture os self o filename w <> (Ok p, w')) /\
  (forall p screenshot,
     _generate_filename os self (now o) filename = Ok p ->
     grab o = Ok screenshot ->
     capture os self o filename w = (Raise jpg_failure, w)).
Proof.
  intros Hf Henc. rewrite capture_unfold, Hf. split.
  - intros p w'.
    destruct (_generate_filename os self (now o) filename) as [q|e]; [|discriminate].
    destruct (grab o) as [screenshot|e]; [|discriminate].
    rewrite (Henc q (str.upper "jpg") screenshot). discriminate.
  - intros p screenshot -> ->.
    now rewrite (Henc p (str.upper "jpg") screenshot).
Qed.

(** C3, at the format [jpg]: for an instance the constructor returned for
    the format [jpg] and a name that passes the validation, the path is
    generated as claimed, its final component being the name itself when it
    ends with [.jpg] and the name followed by [.jpg] otherwise ([shot]
    becomes [shot.jpg]); but with the screen grabbed and Pillow in working
    order [capture] does not return it: it raises [RuntimeError] with the
    text [Failed to capture screenshot: 'JPG'] and writes no file. *)
Theorem capture_jpg_name_fails (os : flavour) (m : machine)
    (dir : option string) (fmt : string) (path : option Path) (w0 w1 : world)
    (self : ScreenSnap) (o : oracle) (w : world) (n : string)
    (screenshot : image) :
  ScreenSnap_init os m dir fmt path w0 = (Ok self, w1) ->
  str.lower fmt = "jpg" ->
  n <> EmptyString ->
  _validate_filename os n = Ok n ->
  Pillow.encodes o ->
  grab o = Ok screenshot ->
  exists p,
    _generate_filename os self (now o) (Some n) = Ok p /\
    parent p = output_dir self /\
    name p = (if str.endswith n ".jpg" then n else n ++ ".jpg") /\
    (n = "shot" -> name p = "shot.jpg") /\
    capture os self o (Some n) w = (Raise jpg_failure, w) /\
    (forall q w', capture os self o (Some n) w <> (Ok q, w')).
Proof.
  intros Hinit Hfmt Hne Hv Henc Hg. apply init_format in Hinit as [Hl Hf].
  rewrite Hfmt in Hl.
  destruct (@capture_valid_name os self o w n Hf Hne Hv)
    as (p & G & Hpar & Hn & _).
  destruct (capture_jpg_raises os self o (Some n) w Hl Henc) as [Hnever Hraise].
  exists p. unfold final_name in Hn. rewrite Hl in Hn.
  split; [exact G|]. split; [exact Hpar|]. split; [exact Hn|]. split.
  - intros ->. exact Hn.
  - split; [exact (Hraise p screenshot G Hg) | exact Hnever].
Qed.

(** The failing input: [ScreenSnap(output_dir="out", format="jpg")] and
    [capture("shot")]. *)
Lemma capture_jpg_name_fails_witness :
  ScreenSnap_init Posix quiet_machine (Some "out") "jpg" None blank =
    (Ok (snap "jpg"), mkWorld [] [parse Posix "out"] []) /\
  _validate_filename Posix "shot" = Ok "shot" /\
  Pillow.encodes pillow_oracle /\
  grab pillow_oracle = Ok one_pixel /\
  _generate_filename Posix (snap "jpg") (now pillow_oracle) (Some "shot") =
    Ok (out_file "shot.jpg") /\
  capture Posix (snap "jpg") pillow_oracle (Some "shot") blank =
    (Raise (Exn RuntimeError "Failed to capture screenshot: 'JPG'"), blank).
Proof.
  assert (Hinit : ScreenSnap_init Posix quiet_machine (Some "out") "jpg" None blank =
    (Ok (snap "jpg"), mkWorld [] [parse Posix "out"] [])) by reflexivity.
  assert (Hne : "shot" <> EmptyString) by discriminate.
  assert (Hv : _validate_filename Posix "shot" = Ok "shot") by reflexivity.
  assert (Henc : Pillow.encodes pillow_oracle) by (intros p fmt im; reflexivity).
  assert (Hg : grab pillow_oracle = Ok one_pixel) by reflexivity.
  split; [exact Hinit|]. split; [exact Hv|]. split; [exact Henc|].
  split; [exact Hg|]. split; [reflexivity|].
  destruct (capture_jpg_name_fails Posix quiet_machine (Some "out") "jpg" None
              blank _ (snap "jpg") pillow_oracle blank "shot" one_pixel
              Hinit eq_refl Hne Hv Henc Hg)
    as (p & _ & _ & _ & _ & Hc & _).
  exact Hc.
Defined.

Lemma same_second_strftime (a b : datetime) :
  Spec.same_second a b -> strftime_Ymd_HMS a = strftime_Ymd_HMS b.
Proof.
  intros (Hy & Hmo & Hd & Hh & Hmi & Hs). unfold strftime_Ymd_HMS.
  now rewrite Hy, Hmo, Hd, Hh, Hmi, Hs.
Qed.

(** C4, at the format [jpg]: for an instance the constructor returned for
    the format [jpg], the empty name and the missing name get the path
    [output_dir / screenshot_<YYYYMMDD_HHMMSS>.jpg], as claimed; but with
    the screen grabbed and Pillow in working order on a writable directory
    [capture("")] and [capture()] do not succeed: they raise [RuntimeError]
    with the text [Failed to capture screenshot: 'JPG'] and write no file. *)
Theorem capture_jpg_empty_name_fails (os : flavour) (m : machine)
    (dir : option string) (fmt : string) (path : option Path) (w0 w1 : world)
    (self : ScreenSnap) (o : oracle) (w : world) (screenshot : image) :
  ScreenSnap_init os m dir fmt path w0 = (Ok self, w1) ->
  str.lower fmt = "jpg" ->
  Pillow.encodes o ->
  grab o = Ok screenshot ->
  exists p,
    _generate_filename os self (now o) (Some EmptyString) = Ok p /\
    _generate_filename os self (now o) None = Ok p /\
    parent p = output_dir self /\
    name p = "screenshot_" ++ strftime_Ymd_HMS (now o) ++ ".jpg" /\
    capture os self o (Some EmptyString) w = (Raise jpg_failure, w) /\
    capture os self o None w = (Raise jpg_failure, w) /\
    (forall filename q w', capture os self o filename w <> (Ok q, w')).
Proof.
  intros Hinit Hfmt Henc Hg. apply init_format in Hinit as [Hl Hf].
  rewrite Hfmt in Hl.
  destruct (stamped_name_plain (now o) Hf) as [Hp Hlen].
  exists (joinpath os (output_dir self) (stamped_name (format self) (now o))).
  assert (G1 := generate_stamped os self (now o) (or_intror eq_refl)).
  assert (G2 := generate_stamped os self (now o) (or_introl eq_refl)).
  split; [exact G1|]. split; [exact G2|].
  split; [now apply parent_joinpath|]. split.
  - rewrite (name_joinpath os (output_dir self) Hp Hlen). now rewrite Hl.
  - split; [|split].
    + exact (proj2 (capture_jpg_raises os self o (Some EmptyString) w Hl Henc)
               _ screenshot G1 Hg).
    + exact (proj2 (capture_jpg_raises os self o None w Hl Henc) _ screenshot G2 Hg).
    + intros filename. exact (proj1 (capture_jpg_raises os self o filename w Hl Henc)).
Qed.

(** The failing input: [ScreenSnap(output_dir="out", format="jpg")] and
    [capture("")] at 09:05:07 on 2026-01-18. *)
Lemma capture_jpg_empty_name_fails_witness :
  ScreenSnap_init Posix quiet_machine (Some "out") "jpg" None blank =
    (Ok (snap "jpg"), mkWorld [] [parse Posix "out"] []) /\
  Pillow.encodes pillow_oracle /\
  grab pillow_oracle = Ok one_pixel /\
  _generate_filename Posix (snap "jpg") (now pillow_oracle) (Some EmptyString) =
    Ok (out_file "screenshot_20260118_090507.jpg") /\
  capture Posix (snap "jpg") pillow_oracle (Some EmptyString) blank =
    (Raise (Exn RuntimeError "Failed to capture screenshot: 'JPG'"), blank).
Proof.
  assert (Hinit : ScreenSnap_init Posix quiet_machine (Some "out") "jpg" None blank =
    (Ok (snap "jpg"), mkWorld [] [parse Posix "out"] [])) by reflexivity.
  assert (Henc : Pillow.encodes pillow_oracle) by (intros p fmt im; reflexivity).
  assert (Hg : grab pillow_oracle = Ok one_pixel) by reflexivity.
  split; [exact Hinit|]. split; [exact Henc|]. split; [exact Hg|].
  split; [reflexivity|].
  destruct (capture_jpg_empty_name_fails Posix quiet_machine (Some "out") "jpg" None
              blank _ (snap "jpg") pillow_oracle blank one_pixel
              Hinit eq_refl Henc Hg)
    as (p & _ & _ & _ & _ & Hc & _).
  exact Hc.
Defined.

(** ** C5: without window support, [capture_window] is [capture] *)

(** C5: when the platform is not Windows, or the pywin32 modules cannot be
    imported, [capture_window(title, filename)] returns what
    [capture(filename)] returns in the same situation, success or failure
    alike, writes the same files, and prints exactly one more line, the
    warning. *)
Theorem capture_window_falls_back (os : flavour) (self : ScreenSnap) (o : oracle)
    (window_title : string) (filename : option string) (w : world) :
  Spec.no_window_support (system self) o ->
  exists warning,
    str.startswith warning "Warning: " = true /\
    fst (capture_window os self o window_title filename w) =
      fst (capture os self o filename w) /\
    snd (capture_window os self o window_title filename w) =
      with_line warning (snd (capture os self o filename w)).
Proof.
  intros H.
  destruct (@capture_window_fallback os self o window_title filename w H)
    as (warning & Hw & ->).
  exists warning. rewrite capture_with_line. repeat split. exact Hw.
Qed.

(** An instance: a Linux machine asked for the window [Chrome]. *)
Lemma capture_window_falls_back_witness :
  Spec.no_window_support (system (snap "png")) working_oracle /\
  capture_window Posix (snap "png") working_oracle "Chrome" (Some "shot.png") blank =
    (Ok (out_file "shot.png"),
     with_line "Warning: Window capture not supported on Linux, capturing full screen"
       (with_file (out_file "shot.png") (ImageData "PNG" one_pixel) blank)) /\
  exists warning,
    fst (capture_window Posix (snap "png") working_oracle "Chrome" (Some "shot.png") blank) =
      fst (capture Posix (snap "png") working_oracle (Some "shot.png") blank) /\
    snd (capture_window Posix (snap "png") working_oracle "Chrome" (Some "shot.png") blank) =
      with_line warning
        (snd (capture Posix (snap "png") working_oracle (Some "shot.png") blank)).
Proof.
  assert (H : Spec.no_window_support (system (snap "png")) working_oracle).
  { left. discriminate. }
  split; [exact H|]. split; [reflexivity|].
  destruct (capture_window_falls_back Posix (snap "png") working_oracle "Chrome"
              (Some "shot.png") blank H) as (warning & _ & Hr & Hw).
  exists warning. split; [exact Hr | exact Hw].
Defined.

(** ** C6: the format is checked once, by the constructor *)

Lemma has_substring_app (sub a b : string) :
  str.has_substring sub b = true -> str.has_substring sub (a ++ b) = true.
Proof.
  intros H. induction a as [|c a IH]; [exact H|].
  cbn [append str.has_substring]. rewrite IH. apply orb_true_r.
Qed.

(** C6: once the preferences are loaded and the output directory is
    resolved (the two statements before the check), construction fails with
    the invalid-format [ValueError] exactly when the format is not, letter
    case apart, one of png, jpg, jpeg; the message lists that set; an
    instance that is returned carries the lower-cased format; and [capture]
    makes no format check of its own: with a working backend it accepts
    every valid name on any instance, whatever its [format] field holds. *)
Theorem init_rejects_other_formats (os : flavour) (m : machine)
    (dir : option string) (fmt : string) (path : option Path) (w : world)
    (cm : ScreenSnapConfig) (d : Path) :
  ScreenSnapConfig_init os m path = Ok cm ->
  resolve_output_dir os cm dir = Ok d ->
  (fst (ScreenSnap_init os m dir fmt path w) = Raise (invalid_format_error fmt)
   <-> ~ Spec.accepted_format fmt) /\
  exn_type (invalid_format_error fmt) = ValueError /\
  Spec.enumerates_accepted_set (exn_str (invalid_format_error fmt)) /\
  (forall self w',
     ScreenSnap_init os m dir fmt path w = (Ok self, w') ->
     format self = str.lower fmt /\ In (format self) ["png"; "jpg"; "jpeg"]) /\
  (forall (any : ScreenSnap) (o : oracle) (n : string) (w2 : world),
     n <> EmptyString -> Spec.rejected n = false -> Spec.backend_works o ->
     exists p w2', capture os any o (Some n) w2 = (Ok p, w2')).
Proof.
  intros Hcm Hd. split; [|split; [reflexivity|split; [|split]]].
  - rewrite init_unfold, Hcm, Hd, accepted_format_mem.
    destruct (str.mem (str.lower fmt) valid_formats); cbn [negb fst].
    + split; [|intros H; now contradiction H].
      destruct (has_nul d); [discriminate|].
      destruct (mkdir_error m d); [discriminate|].
      destruct (pillow_installed m); discriminate.
    + split; [intros _; discriminate | reflexivity].
  - unfold Spec.enumerates_accepted_set, invalid_format_error. cbn [exn_str].
    apply has_substring_app. apply has_substring_app. reflexivity.
  - intros self w' H. exact (@init_format os m dir fmt path w w' self H).
  - intros any o n w2 Hne Hr [[screenshot Hg] Hs]. eexists. eexists.
    now apply capture_accepted with (screenshot := screenshot).
Qed.

(** An instance: the format [bmp]. *)
Lemma init_rejects_other_formats_witness :
  ScreenSnapConfig_init Posix quiet_machine None =
    Ok (mkConfig (parse Posix "/home/u/.screensnaprc") _default_config) /\
  resolve_output_dir Posix
    (mkConfig (parse Posix "/home/u/.screensnaprc") _default_config) (Some "out") =
    Ok (parse Posix "out") /\
  (fst (ScreenSnap_init Posix quiet_machine (Some "out") "bmp" None blank) =
     Raise (invalid_format_error "bmp")
   <-> ~ Spec.accepted_format "bmp").
Proof.
  assert (Hcm : ScreenSnapConfig_init Posix quiet_machine None =
    Ok (mkConfig (parse Posix "/home/u/.screensnaprc") _default_config))
    by reflexivity.
  assert (Hd : resolve_output_dir Posix
    (mkConfig (parse Posix "/home/u/.screensnaprc") _default_config) (Some "out") =
    Ok (parse Posix "out")) by reflexivity.
  split; [exact Hcm|]. split; [exact Hd|].
  exact (proj1 (init_rejects_other_formats Posix quiet_machine (Some "out") "bmp" None
                  blank _ _ Hcm Hd)).
Defined.

(** ** C7: how [capture] classifies failures *)

(** The part of C7 the code keeps: an exception of the backend that is not
    a [ValueError] reaches the caller as a [RuntimeError] whose message
    carries the cause. *)
Lemma capture_wraps_backend_error (os : flavour) (self : ScreenSnap) (o : oracle)
    (filename : option string) (w : world) (p : Path) (e : exn) :
  _generate_filename os self (now o) filename = Ok p ->
  grab o = Raise e \/
  (exists screenshot, grab o = Ok screenshot /\
     image_save o p (str.upper (format self)) screenshot = Some e) ->
  isinstance e ValueError = false ->
  capture os self o filename w =
    (Raise (Exn RuntimeError ("Failed to capture screenshot: " ++ exn_str e)), w).
Proof.
  intros G H Hv. rewrite capture_unfold, G.
  destruct H as [-> | (screenshot & -> & ->)]; unfold surfaced; now rewrite Hv.
Qed.

(** C7 at [capture("a\0b")]: the name passes the validation, [Image.save]
    cannot open the path and raises [ValueError("embedded null byte")], and
    [except ValueError: raise] hands that exception to the caller as it is:
    a failure of the write step arrives as a [ValueError], not wrapped in a
    [RuntimeError]. *)
Theorem capture_reraises_backend_ValueError :
  _validate_filename Posix nul_name = Ok nul_name /\
  _generate_filename Posix (snap "png") (now strict_oracle) (Some nul_name) =
    Ok (out_file (nul_name ++ ".png")) /\
  image_save strict_oracle (out_file (nul_name ++ ".png")) "PNG" one_pixel =
    Some (Exn ValueError "embedded null byte") /\
  capture Posix (snap "png") strict_oracle (Some nul_name) blank =
    (Raise (Exn ValueError "embedded null byte"), blank) /\
  isinstance (Exn ValueError "embedded null byte") RuntimeError = false.
Proof. repeat split; reflexivity. Qed.

(** ** C8: the preferences file at start-up *)

(** C8, as worded, at a preferences file holding the empty JSON object:
    [_load_config] returns the empty [dict], not the defaults, and
    [ScreenSnap(format="png")] then fails with [KeyError('output_dir')],
    while the same call succeeds when the file is absent. *)
Lemma empty_preferences_break_construction :
  prefs_file empty_prefs_machine (DEFAULT_CONFIG_PATH Posix empty_prefs_machine) =
    Present (Ok (JDict [])) /\
  _load_config empty_prefs_machine (DEFAULT_CONFIG_PATH Posix empty_prefs_machine) =
    Ok (JDict []) /\
  ScreenSnap_init Posix empty_prefs_machine None "png" None blank =
    (Raise (Exn KeyError "'output_dir'"), blank) /\
  fst (ScreenSnap_init Posix quiet_machine None "png" None blank) =
    Ok (mkScreenSnap (mkConfig (parse Posix "/home/u/.screensnaprc") _default_config)
          (parse Posix ".") "png" "Linux").
Proof. repeat split; reflexivity. Qed.

(** C8, amended: when the existence test finds no preferences file, or the
    file is there and opening or reading it raises [OSError], or its content
    is not valid JSON, [_load_config] yields the defaults, the output
    directory resolves (to the argument, or to the default [.]), and
    construction succeeds whenever the format is accepted, the directory can
    be made and Pillow is installed.  A file that holds valid JSON is used as
    loaded, whatever its shape: the output directory then resolves exactly
    when the argument is given and non-empty or the loaded value is an object
    whose [output_dir] is a string; when it does not resolve, construction
    fails with [KeyError] or [TypeError] and has no effect. *)
Theorem preferences_fallback (os : flavour) (m : machine) (dir : option string)
    (fmt : string) (path : option Path) (w : world) :
  let p := match path with Some q => q | None => DEFAULT_CONFIG_PATH os m end in
  (absent_or_unreadable (prefs_file m p) ->
   ScreenSnapConfig_init os m path = Ok (mkConfig p _default_config) /\
   exists d,
     resolve_output_dir os (mkConfig p _default_config) dir = Ok d /\
     (Spec.accepted_format fmt -> has_nul d = false -> mkdir_error m d = None ->
      pillow_installed m = true ->
      exists w',
        ScreenSnap_init os m dir fmt path w =
          (Ok (mkScreenSnap (mkConfig p _default_config) d (str.lower fmt)
                 (platform_system m)), w'))) /\
  (forall v, prefs_file m p = Present (Ok v) ->
   ScreenSnapConfig_init os m path = Ok (mkConfig p v) /\
   ((exists d, resolve_output_dir os (mkConfig p v) dir = Ok d) <->
    (exists given, dir = Some given /\ given <> EmptyString) \/
    (exists s, getitem v "output_dir" = Ok (JStr s))) /\
   ((forall d, resolve_output_dir os (mkConfig p v) dir <> Ok d) ->
    exists e,
      ScreenSnap_init os m dir fmt path w = (Raise e, w) /\
      (exn_type e = KeyError \/ exn_type e = TypeError))).
Proof.
  intros p. split.
  - intros Habs.
    assert (Hcm : ScreenSnapConfig_init os m path = Ok (mkConfig p _default_config)).
    { unfold ScreenSnapConfig_init, _load_config. fold p.
      destruct Habs as [-> | (e & -> & ->)]; reflexivity. }
    split; [exact Hcm|].
    assert (Hd : exists d, resolve_output_dir os (mkConfig p _default_config) dir = Ok d).
    { unfold resolve_output_dir. destruct dir as [[|c given]|]; eexists; reflexivity. }
    destruct Hd as [d Hd]. exists d. split; [exact Hd|].
    intros Hfmt Hnul Hmk Hpil. apply accepted_format_mem in Hfmt.
    rewrite init_unfold, Hcm, Hd, Hfmt, Hnul, Hmk, Hpil. cbn [negb].
    eexists. reflexivity.
  - intros v Hv.
    assert (Hcm : ScreenSnapConfig_init os m path = Ok (mkConfig p v)).
    { unfold ScreenSnapConfig_init, _load_config. fold p. now rewrite Hv. }
    split; [exact Hcm|]. split.
    + unfold resolve_output_dir. cbn [config]. split.
      * intros [d Hd]. destruct dir as [[|c given]|].
        -- right. destruct (getitem v "output_dir") as [[]|]; try discriminate.
           eexists. reflexivity.
        -- left. eexists. split; [reflexivity | discriminate].
        -- right. destruct (getitem v "output_dir") as [[]|]; try discriminate.
           eexists. reflexivity.
      * intros [(given & -> & Hne) | (s & Hs)].
        -- apply truthy_nonempty in Hne. rewrite Hne. eexists. reflexivity.
        -- rewrite Hs. destruct dir as [[|c given]|]; eexists; reflexivity.
    + intros Hno. rewrite init_unfold, Hcm.
      destruct (resolve_output_dir os (mkConfig p v) dir) as [d|e] eqn:Hd;
        [now elim (Hno d)|].
      exists e. split; [reflexivity|].
      assert (Hfrom : forall r,
        (x <- getitem v "output_dir" ;; Path_of_json os x)%py = Raise r ->
        exn_type r = KeyError \/ exn_type r = TypeError).
      { intros r. unfold getitem.
        destruct v as [| | | | |items]; cbn [bind];
          try (intros H; injection H as <-; now right).
        destruct (dict_get items "output_dir") as [x|]; cbn [bind].
        - destruct x; cbn [Path_of_json]; try discriminate;
            intros H; injection H as <-; now right.
        - intros H. injection H as <-. now left. }
      unfold resolve_output_dir in Hd. cbn [config] in Hd.
      destruct dir as [[|c given]|]; cbn [str.truthy] in Hd;
        [now apply Hfrom | discriminate | now apply Hfrom].
Qed.

(** An instance: no preferences file at the default location. *)
Lemma preferences_fallback_witness :
  absent_or_unreadable
    (prefs_file quiet_machine (DEFAULT_CONFIG_PATH Posix quiet_machine)) /\
  ScreenSnapConfig_init Posix quiet_machine None =
    Ok (mkConfig (DEFAULT_CONFIG_PATH Posix quiet_machine) _default_config).
Proof.
  assert (H : absent_or_unreadable
    (prefs_file quiet_machine (DEFAULT_CONFIG_PATH Posix quiet_machine))).
  { left. reflexivity. }
  split; [exact H|].
  exact (proj1 (proj1 (preferences_fallback Posix quiet_machine None "png" None blank) H)).
Defined.

(** ** C9: captures never write the preferences *)

Lemma parts_eqb_eq (a b : list string) : parts_eqb a b = true -> a = b.
Proof.
  revert b. induction a as [|x a IH]; intros [|y b]; cbn [parts_eqb];
    try discriminate; [reflexivity|].
  intros H. apply andb_true_iff in H as [Hx H].
  apply String.eqb_eq in Hx. subst. now rewrite (IH b H).
Qed.

Lemma Path_eqb_eq (p q : Path) : Path_eqb p q = true -> p = q.
Proof.
  destruct p as [d1 r1 ps1], q as [d2 r2 ps2]. unfold Path_eqb. cbn [drive root parts].
  intros H. apply andb_true_iff in H as [H Hp]. apply andb_true_iff in H as [Hd Hr].
  apply String.eqb_eq in Hd, Hr. apply parts_eqb_eq in Hp. now subst.
Qed.

Lemma written_at_app (p : Path) (new old : list (Path * written)) :
  Forall (fun entry => fst entry <> p) new ->
  written_at p (new ++ old) = written_at p old.
Proof.
  induction 1 as [|[q d] new Hq _ IH]; [reflexivity|].
  cbn [app written_at]. destruct (Path_eqb p q) eqn:E; [|exact IH].
  apply Path_eqb_eq in E. cbn [fst] in Hq. congruence.
Qed.

Lemma init_config_path (os : flavour) (m : machine) (dir : option string)
    (fmt : string) (path : option Path) (w w' : world) (self : ScreenSnap) :
  ScreenSnap_init os m dir fmt path w = (Ok self, w') ->
  config_path (config_manager self) =
    match path with Some q => q | None => DEFAULT_CONFIG_PATH os m end.
Proof.
  rewrite init_unfold. unfold ScreenSnapConfig_init.
  destruct (_load_config m _) as [cfg|e]; cbn [bind]; [|discriminate].
  destruct (resolve_output_dir os _ dir) as [d|e]; [|discriminate].
  destruct (negb (str.mem (str.lower fmt) valid_formats)); [discriminate|].
  destruct (has_nul d); [discriminate|].
  destruct (mkdir_error m d); [discriminate|].
  destruct (pillow_installed m); [|discriminate].
  intros H. now injection H as <- _.
Qed.

Lemma generated_target (os : flavour) (self : ScreenSnap) (entry : Path * written) :
  In (format self) valid_formats ->
  generated os self entry ->
  is_image (snd entry) /\
  parent (fst entry) = output_dir self /\
  str.endswith (name (fst entry)) ("." ++ format self) = true.
Proof.
  intros Hf [Hi (t & filename & G)]. split; [exact Hi|].
  destruct (generate_target os self t filename Hf G) as (f & -> & Hp & Hl & He & _).
  rewrite (name_joinpath os (output_dir self) Hp Hl).
  split; [now apply parent_joinpath | exact He].
Qed.

(** C9: for an instance the constructor returned and any sequence of
    [capture] and [capture_window] calls (which read [self] and assign
    none of its attributes), every file the calls write is an image, placed
    directly in the output directory under a name ending with the extension;
    none is a dump of the preferences.  So the preferences file is as it was
    whenever its name does not end with that extension, which is always so
    at the default location [~/.screensnaprc].  The preferences reach the
    file through [save] only, which writes [config] at [config_path]. *)
Theorem captures_leave_preferences (os : flavour) (m : machine)
    (dir : option string) (fmt : string) (path : option Path) (w0 w1 : world)
    (self : ScreenSnap) (cs : list (call * oracle)) (w : world) :
  ScreenSnap_init os m dir fmt path w0 = (Ok self, w1) ->
  let prefs := config_path (config_manager self) in
  let after := snd (run os self cs w) in
  (exists new,
     files after = (new ++ files w)%list /\
     Forall (fun entry =>
               is_image (snd entry) /\
               parent (fst entry) = output_dir self /\
               str.endswith (name (fst entry)) ("." ++ format self) = true) new) /\
  (str.endswith (name prefs) ("." ++ format self) = false ->
   written_at prefs (files after) = written_at prefs (files w)) /\
  (path = None -> written_at prefs (files after) = written_at prefs (files w)) /\
  (open_w_error m prefs = None ->
   save m (config_manager self) after =
     (Ok tt, with_file prefs (ConfigDump (config (config_manager self))) after) /\
   written_at prefs (files (with_file prefs (ConfigDump (config (config_manager self))) after)) =
     Some (ConfigDump (config (config_manager self)))).
Proof.
  intros Hinit prefs after.
  pose proof (init_config_path os m dir fmt path w0 w1 self Hinit) as Hpath.
  apply init_format in Hinit as [_ Hf].
  destruct (run_adds_generated os self cs w) as (new & Hgen & Hfiles).
  fold after in Hfiles.
  assert (Htargets : Forall (fun entry =>
               is_image (snd entry) /\
               parent (fst entry) = output_dir self /\
               str.endswith (name (fst entry)) ("." ++ format self) = true) new).
  { eapply Forall_impl; [|exact Hgen]. intros entry. now apply generated_target. }
  assert (Hkeep : str.endswith (name prefs) ("." ++ format self) = false ->
                  written_at prefs (files after) = written_at prefs (files w)).
  { intros Hname. rewrite Hfiles. apply written_at_app.
    eapply Forall_impl; [|exact Htargets].
    intros entry (_ & _ & He) Heq. rewrite Heq in He. congruence. }
  split; [now exists new|]. split; [exact Hkeep|]. split.
  - intros ->. apply Hkeep. fold prefs in Hpath. rewrite Hpath.
    unfold DEFAULT_CONFIG_PATH.
    rewrite name_joinpath by (first [reflexivity | simpl; lia]).
    unfold valid_formats in Hf. simpl in Hf.
    destruct Hf as [<- | [<- | [<- | []]]]; reflexivity.
  - intros Hopen. split.
    + unfold save. fold prefs. now rewrite Hopen.
    + unfold with_file. cbn [files written_at].
      replace (Path_eqb prefs prefs) with true; [reflexivity|].
      symmetry. unfold Path_eqb. rewrite !String.eqb_refl. cbn [andb].
      induction (parts prefs) as [|x ps IH]; [reflexivity|].
      cbn [parts_eqb]. now rewrite String.eqb_refl.
Qed.

(** An instance: a capture and a window capture on the sample instance. *)
Lemma captures_leave_preferences_witness :
  ScreenSnap_init Posix quiet_machine (Some "out") "png" None blank =
    (Ok (snap "png"), mkWorld [] [parse Posix "out"] []) /\
  written_at (config_path (config_manager (snap "png")))
    (files (snd (run Posix (snap "png")
                   [(Capture (Some "shot.png"), working_oracle);
                    (CaptureWindow "Chrome" None, working_oracle)] blank))) =
    written_at (config_path (config_manager (snap "png"))) (files blank).
Proof.
  assert (Hinit : ScreenSnap_init Posix quiet_machine (Some "out") "png" None blank =
    (Ok (snap "png"), mkWorld [] [parse Posix "out"] [])) by reflexivity.
  split; [exact Hinit|].
  exact (proj1 (proj2 (proj2
    (captures_leave_preferences Posix quiet_machine (Some "out") "png" None blank _
       (snap "png")
       [(Capture (Some "shot.png"), working_oracle);
        (CaptureWindow "Chrome" None, working_oracle)] blank Hinit))) eq_refl).
Defined.

(** ** C10: the extension test is case-sensitive *)

(** C10: for an instance the constructor returned, a name that passes the
    validation and ends with the extension only when letter case is ignored
    gets the lower-case extension appended: the generated path, which is the
    one [capture] returns whenever it returns, is named [n.<format>];
    [shot.PNG] with format [png] becomes [shot.PNG.png]. *)
Theorem extension_test_is_case_sensitive (os : flavour) (m : machine)
    (dir : option string) (fmt : string) (path : option Path) (w0 w1 : world)
    (self : ScreenSnap) (o : oracle) (w : world) (n : string) :
  ScreenSnap_init os m dir fmt path w0 = (Ok self, w1) ->
  n <> EmptyString ->
  _validate_filename os n = Ok n ->
  str.endswith (str.lower n) ("." ++ format self) = true ->
  str.endswith n ("." ++ format self) = false ->
  exists p,
    _generate_filename os self (now o) (Some n) = Ok p /\
    parent p = output_dir self /\
    name p = n ++ "." ++ format self /\
    (format self = "png" -> n = "shot.PNG" -> name p = "shot.PNG.png") /\
    (forall q w', capture os self o (Some n) w = (Ok q, w') -> q = p) /\
    (Spec.backend_works o -> exists w', capture os self o (Some n) w = (Ok p, w')).
Proof.
  intros Hinit Hne Hv _ Hcase. apply init_format in Hinit as [_ Hf].
  destruct (@capture_valid_name os self o w n Hf Hne Hv)
    as (p & Hg & Hpar & Hn & _ & Honly & Hworks).
  exists p. unfold final_name in Hn. rewrite Hcase in Hn.
  repeat split; try assumption.
  intros Hpng ->. now rewrite Hn, Hpng.
Qed.

(** An instance: [shot.PNG] with format [png]. *)
Lemma extension_test_is_case_sensitive_witness :
  ScreenSnap_init Posix quiet_machine (Some "out") "png" None blank =
    (Ok (snap "png"), mkWorld [] [parse Posix "out"] []) /\
  "shot.PNG" <> EmptyString /\
  _validate_filename Posix "shot.PNG" = Ok "shot.PNG" /\
  str.endswith (str.lower "shot.PNG") ("." ++ format (snap "png")) = true /\
  str.endswith "shot.PNG" ("." ++ format (snap "png")) = false /\
  exists p,
    _generate_filename Posix (snap "png") (now working_oracle) (Some "shot.PNG") = Ok p /\
    name p = "shot.PNG.png".
Proof.
  assert (Hinit : ScreenSnap_init Posix quiet_machine (Some "out") "png" None blank =
    (Ok (snap "png"), mkWorld [] [parse Posix "out"] [])) by reflexivity.
  assert (Hne : "shot.PNG" <> EmptyString) by discriminate.
  assert (Hv : _validate_filename Posix "shot.PNG" = Ok "shot.PNG") by reflexivity.
  assert (Hl : str.endswith (str.lower "shot.PNG") ("." ++ format (snap "png")) = true)
    by reflexivity.
  assert (Hx : str.endswith "shot.PNG" ("." ++ format (snap "png")) = false)
    by reflexivity.
  repeat (split; [assumption|]).
  destruct (extension_test_is_case_sensitive Posix quiet_machine (Some "out") "png"
              None blank _ (snap "png") working_oracle blank "shot.PNG"
              Hinit Hne Hv Hl Hx) as (p & Hg & _ & _ & Hpng & _).
  exists p. split; [exact Hg | now apply Hpng].
Defined.

(** * Further properties of the code *)

(** ** [_validate_filename]: verdicts and messages *)

Lemma after_last_no_sep (sep : ascii -> bool) (p : string) :
  str.any sep (os_path.after_last sep p) = false.
Proof.
  induction p as [|c r IH]; [reflexivity|]. cbn [os_path.after_last].
  destruct (str.any sep r) eqn:Hr; [exact IH|].
  destruct (sep c) eqn:Hc; [exact Hr|]. cbn [str.any]. now rewrite Hc, Hr.
Qed.

Lemma basename_moves_separator (os : flavour) (p : string) :
  str.any (is_sep os) p = true -> os_path.basename os p <> p.
Proof.
  intros H E. destruct os; simpl in *.
  - unfold os_path.posix_basename in E.
    pose proof (after_last_no_sep os_path.is_slash p) as N. rewrite E in N. congruence.
  - unfold os_path.nt_basename in E.
    pose proof (after_last_no_sep os_path.is_bothseps (snd (os_path.nt_splitdrive p))) as N.
    rewrite E in N. congruence.
Qed.

Lemma check_chars_first (chars : list ascii) (s : string) :
  existsb (fun c => str.contains c s) chars = true ->
  exists before c after,
    chars = (before ++ c :: after)%list /\
    Forall (fun x => str.contains x s = false) before /\
    str.contains c s = true /\
    check_chars chars s =
      Raise (Exn ValueError ("Invalid character in filename: '" ++ String c "'")).
Proof.
  induction chars as [|x rest IH]; [discriminate|]. cbn [existsb check_chars].
  destruct (str.contains x s) eqn:Hx.
  - intros _. exists [], x, rest. repeat split; [constructor | exact Hx].
  - cbn [orb]. intros H. destruct (IH H) as (before & c & after & -> & F & Hc & E).
    exists (x :: before), c, after. repeat split; try assumption.
    now constructor.
Qed.

(** X1: the verdict of [_validate_filename] does not depend on the
    platform: a name is refused under [posixpath] exactly when it is refused
    under [ntpath], every refusal is a [ValueError], and a name that is
    returned is returned unchanged, on both. *)
Theorem validate_verdict_is_portable (filename : string) :
  ((exists e, _validate_filename Posix filename = Raise e) <->
   (exists e, _validate_filename Nt filename = Raise e)) /\
  (forall os e, _validate_filename os filename = Raise e -> exn_type e = ValueError) /\
  (forall os validated,
     _validate_filename os filename = Ok validated ->
     validated = filename /\
     _validate_filename Posix filename = Ok filename /\
     _validate_filename Nt filename = Ok filename).
Proof.
  destruct filename as [|c r].
  { split; [split; intros [e H]; discriminate|].
    split; [intros os e H; destruct os; discriminate|].
    intros os validated H. destruct os; injection H as <-; repeat split. }
  assert (Hne : String c r <> EmptyString) by discriminate.
  destruct (validate_cases Posix Hne) as [[Hr Hp] | [Hr [mp Hp]]];
    destruct (validate_cases Nt Hne) as [[Hr' Hn] | [Hr' [mn Hn]]];
    try congruence.
  - split; [split; intros [e H]; congruence|].
    split; [intros os e H; destruct os; congruence|].
    intros os validated H. destruct os; rewrite ?Hp, ?Hn in H; injection H as <-;
      repeat split; assumption.
  - split; [split; intros _; eexists; eassumption|].
    split.
    + intros os e H. destruct os; rewrite ?Hp, ?Hn in H; injection H as <-; reflexivity.
    + intros os validated H. destruct os; congruence.
Qed.

(** X2: the three checks of [_validate_filename] are made in order and the
    first that fails names the message.  A name with a separator of the
    platform is refused as a path, with the whole name quoted, whatever else
    is wrong with it; a name equal to its basename and longer than 255
    characters is refused with its length, even when it holds listed
    characters; otherwise the message quotes the first character of
    [invalid_chars], in list order, that occurs in the name. *)
Theorem validate_message_order (os : flavour) (filename : string) :
  filename <> EmptyString ->
  (str.any (is_sep os) filename = true ->
   _validate_filename os filename =
     Raise (Exn ValueError
       ("Invalid filename (path components not allowed): " ++ filename))) /\
  (os_path.basename os filename = filename ->
   255 < String.length filename ->
   _validate_filename os filename =
     Raise (Exn ValueError
       ("Filename too long (" ++ str.of_nat (String.length filename) ++
        " chars). Max: 255"))) /\
  (os_path.basename os filename = filename ->
   String.length filename <= 255 ->
   clean filename = false ->
   exists before c after,
     invalid_chars = (before ++ c :: after)%list /\
     Forall (fun x => str.contains x filename = false) before /\
     str.contains c filename = true /\
     _validate_filename os filename =
       Raise (Exn ValueError ("Invalid character in filename: '" ++ String c "'"))).
Proof.
  intros Hne. apply truthy_nonempty in Hne. unfold _validate_filename.
  rewrite Hne. cbn [negb]. split; [|split].
  - intros Hs. apply basename_moves_separator in Hs.
    apply String.eqb_neq in Hs. now rewrite Hs.
  - intros Hb Hl. rewrite Hb, String.eqb_refl. cbn [negb].
    apply Nat.ltb_lt in Hl. now rewrite Hl.
  - intros Hb Hl Hc. rewrite Hb, String.eqb_refl. cbn [negb].
    replace (255 <? String.length filename)%nat with false
      by (symmetry; apply Nat.ltb_ge; exact Hl).
    unfold clean in Hc. apply negb_false_iff in Hc.
    destruct (check_chars_first invalid_chars filename Hc)
      as (before & c & after & E & F & Hin & ->).
    now exists before, c, after.
Qed.

(** An instance: [a:b/c] is refused as a path on POSIX although it also
    holds a colon. *)
Lemma validate_message_order_witness :
  "a:b/c" <> EmptyString /\
  str.any (is_sep Posix) "a:b/c" = true /\
  _validate_filename Posix "a:b/c" =
    Raise (Exn ValueError "Invalid filename (path components not allowed): a:b/c").
Proof.
  assert (Hne : "a:b/c" <> EmptyString) by discriminate.
  assert (Hs : str.any (is_sep Posix) "a:b/c" = true) by reflexivity.
  split; [exact Hne|]. split; [exact Hs|].
  exact (proj1 (validate_message_order Posix "a:b/c" Hne) Hs).
Defined.

(** ** [_generate_filename]: the names it makes *)

Lemma any_orb (p q : ascii -> bool) (s : string) :
  str.any (fun a => p a || q a) s = str.any p s || str.any q s.
Proof.
  induction s as [|c r IH]; [reflexivity|]. cbn [str.any]. rewrite IH.
  destruct (p c), (q c), (str.any p r), (str.any q r); reflexivity.
Qed.

Lemma clean_listed (s : string) : clean s = negb (str.any listed s).
Proof.
  unfold clean, listed. f_equal. unfold str.contains.
  induction invalid_chars as [|x rest IH]; cbn [existsb].
  - induction s as [|c r IHs]; [reflexivity|]. cbn [str.any]. now rewrite <- IHs.
  - rewrite any_orb, IH. reflexivity.
Qed.

Lemma clean_app (a b : string) : clean (a ++ b) = clean a && clean b.
Proof. rewrite !clean_listed, any_app. apply negb_orb. Qed.

Lemma digit_not_listed (n : nat) : listed (digit n) = false.
Proof.
  unfold digit. assert (H : n mod 10 < 10) by (apply Nat.mod_upper_bound; lia).
  destruct (n mod 10) as [|k]; [reflexivity|].
  do 9 (destruct k as [|k]; [reflexivity|]). lia.
Qed.

Lemma strftime_clean (t : datetime) :
  clean (strftime_Ymd_HMS t) = true /\ String.length (strftime_Ymd_HMS t) = 15.
Proof.
  split.
  - rewrite clean_listed. unfold strftime_Ymd_HMS, pad4, pad2.
    cbn [append str.any]. rewrite !digit_not_listed. reflexivity.
  - reflexivity.
Qed.

Lemma extension_clean (fmt : string) :
  In fmt valid_formats -> clean ("." ++ fmt) = true.
Proof.
  unfold valid_formats. simpl. intros [<- | [<- | [<- | []]]]; reflexivity.
Qed.

Lemma clean_short_validates (os : flavour) (f : string) :
  clean f = true -> 1 <= String.length f <= 255 -> _validate_filename os f = Ok f.
Proof.
  intros Hc Hl.
  assert (Hne : f <> EmptyString) by (intros ->; simpl in Hl; lia).
  destruct (validate_cases os Hne) as [[_ Hv] | [Hr _]]; [exact Hv|].
  rewrite clean_rejected, Hc in Hr. cbn [negb orb] in Hr.
  unfold Spec.too_long in Hr. apply Nat.ltb_lt in Hr. lia.
Qed.

(** The final component of every generated path. *)
Lemma generated_name (os : flavour) (self : ScreenSnap) (t : datetime)
    (custom_name : option string) (p : Path) :
  In (format self) valid_formats ->
  _generate_filename os self t custom_name = Ok p ->
  exists f,
    p = joinpath os (output_dir self) f /\ name p = f /\
    clean f = true /\ 2 <= String.length f /\
    str.endswith f ("." ++ format self) = true /\
    String.length f <= 255 + String.length ("." ++ format self).
Proof.
  intros Hf G.
  destruct (@generate_target os self t custom_name p Hf G)
    as (f & -> & Hp & Hl & He & Hnamed & Hstamped).
  exists f. rewrite (name_joinpath os (output_dir self) Hp Hl).
  repeat split; try assumption.
  - destruct (str.truthy (match custom_name with Some n => n | None => EmptyString end))
      eqn:Ht.
    + rewrite (Hnamed eq_refl). destruct custom_name as [n|]; [|discriminate].
      apply truthy_nonempty in Ht. rewrite generate_named in G by exact Ht.
      destruct (_validate_filename os n) as [v|e] eqn:Hv; [|discriminate].
      apply validated_clean in Hv as (_ & Hc & _); [|exact Ht].
      unfold final_name. destruct (str.endswith n ("." ++ format self)); [exact Hc|].
      now rewrite clean_app, Hc, (extension_clean _ Hf).
    + rewrite (Hstamped eq_refl). unfold stamped_name.
      rewrite clean_app, clean_app, (proj1 (strftime_clean t)), (extension_clean _ Hf).
      reflexivity.
  - destruct (str.truthy (match custom_name with Some n => n | None => EmptyString end))
      eqn:Ht.
    + rewrite (Hnamed eq_refl). destruct custom_name as [n|]; [|discriminate].
      apply truthy_nonempty in Ht. rewrite generate_named in G by exact Ht.
      destruct (_validate_filename os n) as [v|e] eqn:Hv; [|discriminate].
      apply validated_clean in Hv as (_ & _ & Hr); [|exact Ht].
      rewrite clean_rejected in Hr. apply orb_false_iff in Hr as [_ Hr].
      unfold Spec.too_long in Hr. apply Nat.ltb_ge in Hr.
      unfold final_name. destruct (str.endswith n ("." ++ format self)).
      * lia.
      * rewrite length_app. lia.
    + rewrite (Hstamped eq_refl). unfold stamped_name.
      rewrite !length_app, (proj2 (strftime_clean t)). simpl. lia.
Qed.

(** X3: the limit of 255 characters is checked before the extension is
    added.  On an instance the constructor returned, the final component of
    a generated path has at most 255 characters plus the extension (260 at
    most), and the excess is reached: 255 letters are accepted as a name and
    saved, with format [png], under a name of 259 characters. *)
Theorem generated_name_length (os : flavour) (m : machine) (dir : option string)
    (fmt : string) (path : option Path) (w0 w1 : world) (self : ScreenSnap)
    (t : datetime) (custom_name : option string) (p : Path) :
  ScreenSnap_init os m dir fmt path w0 = (Ok self, w1) ->
  _generate_filename os self t custom_name = Ok p ->
  String.length (name p) <= 255 + String.length ("." ++ format self) /\
  String.length (name p) <= 260 /\
  (format self = "png" ->
   exists q,
     _generate_filename os self t (Some (replicate 255 "a")) = Ok q /\
     String.length (name q) = 259).
Proof.
  intros Hinit G. apply init_format in Hinit as [_ Hf].
  destruct (generated_name os self t custom_name p Hf G) as (f & _ & -> & _ & _ & _ & Hl).
  split; [exact Hl|]. split.
  - unfold valid_formats in Hf. simpl in Hf.
    destruct Hf as [E | [E | [E | []]]]; rewrite <- E in Hl; simpl in Hl; lia.
  - intros Hpng.
    assert (Hv : _validate_filename os (replicate 255 "a") = Ok (replicate 255 "a")).
    { apply clean_short_validates; [reflexivity | simpl; lia]. }
    assert (Hne : replicate 255 "a" <> EmptyString) by discriminate.
    exists (joinpath os (output_dir self) (replicate 255 "a" ++ ".png")). split.
    + rewrite generate_named, Hv, Hpng by exact Hne. reflexivity.
    + rewrite name_joinpath; [reflexivity | reflexivity | simpl; lia].
Qed.

(** An instance: the 255-letter name on the sample instance. *)
Lemma generated_name_length_witness :
  ScreenSnap_init Posix quiet_machine (Some "out") "png" None blank =
    (Ok (snap "png"), mkWorld [] [parse Posix "out"] []) /\
  _generate_filename Posix (snap "png") (now working_oracle)
     (Some (replicate 255 "a")) =
    Ok (out_file (replicate 255 "a" ++ ".png")) /\
  String.length (name (out_file (replicate 255 "a" ++ ".png"))) <= 260.
Proof.
  assert (Hinit : ScreenSnap_init Posix quiet_machine (Some "out") "png" None blank =
    (Ok (snap "png"), mkWorld [] [parse Posix "out"] [])) by reflexivity.
  assert (G : _generate_filename Posix (snap "png") (now working_oracle)
     (Some (replicate 255 "a")) = Ok (out_file (replicate 255 "a" ++ ".png")))
    by reflexivity.
  split; [exact Hinit|]. split; [exact G|].
  exact (proj1 (proj2 (generated_name_length Posix quiet_machine (Some "out") "png" None
    blank _ (snap "png") (now working_oracle) (Some (replicate 255 "a"))
    (out_file (replicate 255 "a" ++ ".png")) Hinit G))).
Defined.

(** X4: a returned name can be given back.  On an instance the constructor
    returned, if [_generate_filename] made the path [p], from a supplied name
    or from the clock, and the final component of [p] has at most 255
    characters, then asking for that component by name gives [p] again, at
    any later time; a longer component is refused. *)
Theorem generated_name_resubmitted (os : flavour) (m : machine)
    (dir : option string) (fmt : string) (path : option Path) (w0 w1 : world)
    (self : ScreenSnap) (t t' : datetime) (custom_name : option string)
    (p : Path) :
  ScreenSnap_init os m dir fmt path w0 = (Ok self, w1) ->
  _generate_filename os self t custom_name = Ok p ->
  (String.length (name p) <= 255 ->
   _generate_filename os self t' (Some (name p)) = Ok p) /\
  (255 < String.length (name p) ->
   exists message,
     _generate_filename os self t' (Some (name p)) = Raise (Exn ValueError message)).
Proof.
  intros Hinit G. apply init_format in Hinit as [_ Hf].
  destruct (generated_name os self t custom_name p Hf G)
    as (f & Hp & Hn & Hc & Hl2 & He & _).
  rewrite Hn.
  assert (Hne : f <> EmptyString) by (intros ->; simpl in Hl2; lia).
  rewrite generate_named by exact Hne. split.
  - intros Hl. rewrite (clean_short_validates os f Hc) by lia.
    unfold final_name. now rewrite He, Hp.
  - intros Hl. destruct (validate_cases os Hne) as [[Hr _] | [_ [message ->]]].
    + rewrite clean_rejected in Hr. apply orb_false_iff in Hr as [_ Hr].
      unfold Spec.too_long in Hr. apply Nat.ltb_ge in Hr. lia.
    + now exists message.
Qed.

(** An instance: the timestamp name of the sample call, given back. *)
Lemma generated_name_resubmitted_witness :
  ScreenSnap_init Posix quiet_machine (Some "out") "png" None blank =
    (Ok (snap "png"), mkWorld [] [parse Posix "out"] []) /\
  _generate_filename Posix (snap "png") (now working_oracle) None =
    Ok (out_file "screenshot_20260118_090507.png") /\
  String.length (name (out_file "screenshot_20260118_090507.png")) <= 255 /\
  _generate_filename Posix (snap "png") (mkDatetime 2027 2 3 4 5 6 7)
     (Some (name (out_file "screenshot_20260118_090507.png"))) =
    Ok (out_file "screenshot_20260118_090507.png").
Proof.
  assert (Hinit : ScreenSnap_init Posix quiet_machine (Some "out") "png" None blank =
    (Ok (snap "png"), mkWorld [] [parse Posix "out"] [])) by reflexivity.
  assert (G : _generate_filename Posix (snap "png") (now working_oracle) None =
    Ok (out_file "screenshot_20260118_090507.png")) by reflexivity.
  assert (Hl : String.length (name (out_file "screenshot_20260118_090507.png")) <= 255)
    by (simpl; lia).
  split; [exact Hinit|]. split; [exact G|]. split; [exact Hl|].
  exact (proj1 (generated_name_resubmitted Posix quiet_machine (Some "out") "png" None
    blank _ (snap "png") (now working_oracle) (mkDatetime 2027 2 3 4 5 6 7) None
    (out_file "screenshot_20260118_090507.png") Hinit G) Hl).
Defined.

(** ** [capture]: one effect, and overwriting *)

Lemma Path_eqb_refl (p : Path) : Path_eqb p p = true.
Proof.
  unfold Path_eqb. rewrite !String.eqb_refl. cbn [andb].
  induction (parts p) as [|x ps IH]; [reflexivity|].
  cbn [parts_eqb]. now rewrite String.eqb_refl.
Qed.

(** X5: [capture] does not look whether the target exists, and the last
    successful call wins.  After a capture has written [p], a second capture
    that generates the same path and succeeds returns [p] again and leaves
    the second image there; a second capture whose screen grab fails
    raises and leaves the first image in place. *)
Theorem capture_overwrites (os : flavour) (self : ScreenSnap) (o1 o2 : oracle)
    (filename : option string) (w : world) (p : Path) (first : image) :
  _generate_filename os self (now o1) filename = Ok p ->
  _generate_filename os self (now o2) filename = Ok p ->
  grab o1 = Ok first ->
  image_save o1 p (str.upper (format self)) first = None ->
  let w1 := with_file p (ImageData (str.upper (format self)) first) w in
  capture os self o1 filename w = (Ok p, w1) /\
  (forall second,
     grab o2 = Ok second ->
     image_save o2 p (str.upper (format self)) second = None ->
     run os self [(Capture filename, o1); (Capture filename, o2)] w =
       ([Ok p; Ok p],
        with_file p (ImageData (str.upper (format self)) second) w1) /\
     written_at p
       (files (snd (run os self [(Capture filename, o1); (Capture filename, o2)] w))) =
       Some (ImageData (str.upper (format self)) second)) /\
  (forall e,
     grab o2 = Raise e ->
     run os self [(Capture filename, o1); (Capture filename, o2)] w =
       ([Ok p; Raise (surfaced e)], w1) /\
     written_at p
       (files (snd (run os self [(Capture filename, o1); (Capture filename, o2)] w))) =
       Some (ImageData (str.upper (format self)) first)).
Proof.
  intros G1 G2 Hg1 Hs1 w1.
  assert (H1 : capture os self o1 filename w = (Ok p, w1)).
  { rewrite capture_unfold, G1, Hg1, Hs1. reflexivity. }
  split; [exact H1|]. split.
  - intros second Hg2 Hs2.
    assert (R : run os self [(Capture filename, o1); (Capture filename, o2)] w =
       ([Ok p; Ok p], with_file p (ImageData (str.upper (format self)) second) w1)).
    { cbn [run do_call]. rewrite H1, capture_unfold, G2, Hg2, Hs2. reflexivity. }
    split; [exact R|]. rewrite R. cbn [snd with_file files written_at].
    now rewrite Path_eqb_refl.
  - intros e Hg2.
    assert (R : run os self [(Capture filename, o1); (Capture filename, o2)] w =
       ([Ok p; Raise (surfaced e)], w1)).
    { cbn [run do_call]. rewrite H1, capture_unfold, G2, Hg2. reflexivity. }
    split; [exact R|]. rewrite R. unfold w1. cbn [snd with_file files written_at].
    now rewrite Path_eqb_refl.
Qed.

(** An instance: [shot.png] captured, then captured again with a backend
    that cannot grab the screen. *)
Lemma capture_overwrites_witness :
  _generate_filename Posix (snap "png") (now working_oracle) (Some "shot.png") =
    Ok (out_file "shot.png") /\
  _generate_filename Posix (snap "png") (now blind_oracle) (Some "shot.png") =
    Ok (out_file "shot.png") /\
  grab working_oracle = Ok one_pixel /\
  image_save working_oracle (out_file "shot.png") (str.upper (format (snap "png")))
    one_pixel = None /\
  grab blind_oracle = Raise (Exn OSError "screen grab failed") /\
  written_at (out_file "shot.png")
    (files (snd (run Posix (snap "png")
       [(Capture (Some "shot.png"), working_oracle);
        (Capture (Some "shot.png"), blind_oracle)] blank))) =
    Some (ImageData (str.upper (format (snap "png"))) one_pixel).
Proof.
  assert (G1 : _generate_filename Posix (snap "png") (now working_oracle)
                 (Some "shot.png") = Ok (out_file "shot.png")) by reflexivity.
  assert (G2 : _generate_filename Posix (snap "png") (now blind_oracle)
                 (Some "shot.png") = Ok (out_file "shot.png")) by reflexivity.
  assert (Hg : grab working_oracle = Ok one_pixel) by reflexivity.
  assert (Hs : image_save working_oracle (out_file "shot.png")
                 (str.upper (format (snap "png"))) one_pixel = None) by reflexivity.
  assert (Hb : grab blind_oracle = Raise (Exn OSError "screen grab failed"))
    by reflexivity.
  repeat (split; [assumption|]).
  exact (proj2 (proj2 (proj2
    (capture_overwrites Posix (snap "png") working_oracle blind_oracle
       (Some "shot.png") blank (out_file "shot.png") one_pixel G1 G2 Hg Hs))
    (Exn OSError "screen grab failed") Hb)).
Defined.

(** ** [_find_window] *)

Lemma filter_head (A : Type) (f : A -> bool) (l : list A) (x : A) (rest : list A) :
  filter f l = x :: rest ->
  exists before after,
    l = (before ++ x :: after)%list /\
    Forall (fun y => f y = false) before /\ f x = true.
Proof.
  induction l as [|y l IH]; [discriminate|]. cbn [filter].
  destruct (f y) eqn:Hy.
  - intros H. injection H as -> _. exists [], l. repeat split; [constructor | exact Hy].
  - intros H. destruct (IH H) as (before & after & -> & F & Hx).
    exists (y :: before), after. repeat split; [now constructor | exact Hx].
Qed.

Lemma filter_nil (A : Type) (f : A -> bool) (l : list A) :
  filter f l = [] -> Forall (fun y => f y = false) l.
Proof.
  induction l as [|y l IH]; [constructor|]. cbn [filter].
  destruct (f y) eqn:Hy; [discriminate|]. intros H. constructor; auto.
Qed.

Lemma lower_char_idempotent (c : ascii) :
  str.lower_char (str.lower_char c) = str.lower_char c.
Proof. destruct c as [[] [] [] [] [] [] [] []]; reflexivity. Qed.

Lemma lower_idempotent (s : string) : str.lower (str.lower s) = str.lower s.
Proof.
  unfold str.lower. induction s as [|c r IH]; [reflexivity|].
  cbn [str.map]. now rewrite lower_char_idempotent, IH.
Qed.

Lemma has_empty_substring (s : string) : str.has_substring EmptyString s = true.
Proof. destruct s; reflexivity. Qed.

(** X6: [_find_window] returns the handle of the first window, in the
    order of enumeration, that is visible and whose title contains the
    substring, letter case apart; it returns [None] when pywin32 is missing
    and, with pywin32, only when no window qualifies.  Lower-casing the
    substring changes nothing, and the empty substring selects the first
    visible window. *)
Theorem find_window_first_match (o : oracle) (title_substring : string) :
  (pywin32_installed o = false -> _find_window o title_substring = None) /\
  (forall h,
     _find_window o title_substring = Some h ->
     exists before win after,
       EnumWindows o = (before ++ win :: after)%list /\
       hwnd win = h /\
       window_matches title_substring win = true /\
       Forall (fun x => window_matches title_substring x = false) before) /\
  (pywin32_installed o = true ->
   _find_window o title_substring = None ->
   Forall (fun x => window_matches title_substring x = false) (EnumWindows o)) /\
  _find_window o (str.lower title_substring) = _find_window o title_substring /\
  (forall win rest,
     pywin32_installed o = true ->
     filter IsWindowVisible (EnumWindows o) = win :: rest ->
     _find_window o EmptyString = Some (hwnd win)).
Proof.
  unfold _find_window. fold (window_matches title_substring).
  split; [intros ->; reflexivity|]. split; [|split; [|split]].
  - intros h. destruct (pywin32_installed o); [|discriminate].
    destruct (filter (window_matches title_substring) (EnumWindows o))
      as [|win rest] eqn:F; [discriminate|].
    intros H. injection H as <-.
    destruct (filter_head _ _ _ _ _ F) as (before & after & E & Hb & Hw).
    now exists before, win, after.
  - intros ->. destruct (filter (window_matches title_substring) (EnumWindows o))
      as [|win rest] eqn:F; [|discriminate].
    intros _. now apply filter_nil.
  - rewrite lower_idempotent. reflexivity.
  - intros win rest -> F.
    replace (filter _ (EnumWindows o)) with (filter IsWindowVisible (EnumWindows o)).
    + now rewrite F.
    + apply filter_ext. intros a. change (str.lower EmptyString) with EmptyString.
      now rewrite has_empty_substring, andb_true_r.
Qed.

(** An instance: [chrome] among three windows, the first of them hidden. *)
Lemma find_window_first_match_witness :
  _find_window windows_oracle "chrome" = Some 12%Z /\
  exists before win after,
    EnumWindows windows_oracle = (before ++ win :: after)%list /\
    hwnd win = 12%Z /\
    window_matches "chrome" win = true /\
    Forall (fun x => window_matches "chrome" x = false) before.
Proof.
  assert (H : _find_window windows_oracle "chrome" = Some 12%Z) by reflexivity.
  split; [exact H|].
  exact (proj1 (proj2 (find_window_first_match windows_oracle "chrome")) 12%Z H).
Defined.

(** ** [capture_window] on Windows *)

Lemma surfaced_no_ImportError (e : exn) : isinstance (surfaced e) ImportError = false.
Proof. destruct e as [c message]. destruct c; reflexivity. Qed.

Lemma capture_raises_no_ImportError (os : flavour) (self : ScreenSnap) (o : oracle)
    (filename : option string) (w w' : world) (e : exn) :
  capture os self o filename w = (Raise e, w') -> isinstance e ImportError = false.
Proof.
  rewrite capture_unfold.
  destruct (_generate_filename os self (now o) filename) as [p|e0].
  - destruct (grab o) as [im|e0].
    + destruct (image_save o p (str.upper (format self)) im) as [e0|]; [|discriminate].
      intros H. injection H as <- _. apply surfaced_no_ImportError.
    + intros H. injection H as <- _. apply surfaced_no_ImportError.
  - intros H. injection H as <- _. apply surfaced_no_ImportError.
Qed.

(** X7: on Windows with pywin32, when no window qualifies (or the handle
    found is 0), [capture_window] prints the not-found warning and calls
    [capture] inside its own [try]: a path that [capture] returns is
    returned, but an exception of [capture], the [ValueError] of a refused
    name included, reaches the caller as
    [RuntimeError("Failed to capture window: ...")]. *)
Theorem capture_window_not_found (os : flavour) (self : ScreenSnap) (o : oracle)
    (window_title : string) (filename : option string) (w : world) :
  system self = "Windows" ->
  pywin32_installed o = true ->
  falsy_hwnd (_find_window o window_title) = true ->
  snd (capture_window os self o window_title filename w) =
    with_line ("Warning: Window '" ++ window_title ++
               "' not found, capturing full screen")
      (snd (capture os self o filename w)) /\
  (forall p,
     fst (capture os self o filename w) = Ok p ->
     fst (capture_window os self o window_title filename w) = Ok p) /\
  (forall e,
     fst (capture os self o filename w) = Raise e ->
     fst (capture_window os self o window_title filename w) =
       Raise (Exn RuntimeError ("Failed to capture window: " ++ exn_str e))).
Proof.
  intros Hsys Hpy Hnf.
  assert (U : capture_window os self o window_title filename w =
    (match fst (capture os self o filename w) with
     | Ok p => Ok p
     | Raise e => Raise (Exn RuntimeError ("Failed to capture window: " ++ exn_str e))
     end,
     with_line ("Warning: Window '" ++ window_title ++
                "' not found, capturing full screen")
       (snd (capture os self o filename w)))).
  { unfold capture_window. rewrite Hsys, Hpy, Hnf.
    change (negb ("Windows" =? "Windows")) with false. cbv iota.
    unfold try_except, bindM, ret, print.
    fold (with_line ("Warning: Window '" ++ window_title ++
                     "' not found, capturing full screen") w).
    rewrite capture_with_line.
    destruct (capture os self o filename w) as [[p|e] w'] eqn:E; cbn [fst snd];
      [reflexivity|].
    now rewrite (capture_raises_no_ImportError os self o filename w w' e E). }
  rewrite U. cbn [fst snd]. split; [reflexivity|].
  split; [intros p -> | intros e ->]; reflexivity.
Qed.

(** An instance: no window titled [Firefox]; the name [a:b] is refused. *)
Lemma capture_window_not_found_witness :
  system (windows_snap "png") = "Windows" /\
  pywin32_installed windows_oracle = true /\
  falsy_hwnd (_find_window windows_oracle "Firefox") = true /\
  fst (capture Nt (windows_snap "png") windows_oracle (Some "a:b") blank) =
    Raise (Exn ValueError "Invalid filename (path components not allowed): a:b") /\
  fst (capture_window Nt (windows_snap "png") windows_oracle "Firefox" (Some "a:b")
         blank) =
    Raise (Exn RuntimeError
      "Failed to capture window: Invalid filename (path components not allowed): a:b").
Proof.
  assert (Hs : system (windows_snap "png") = "Windows") by reflexivity.
  assert (Hp : pywin32_installed windows_oracle = true) by reflexivity.
  assert (Hf : falsy_hwnd (_find_window windows_oracle "Firefox") = true)
    by reflexivity.
  assert (Hc : fst (capture Nt (windows_snap "png") windows_oracle (Some "a:b") blank) =
    Raise (Exn ValueError "Invalid filename (path components not allowed): a:b"))
    by reflexivity.
  repeat (split; [assumption|]).
  exact (proj2 (proj2 (capture_window_not_found Nt (windows_snap "png") windows_oracle
    "Firefox" (Some "a:b") blank Hs Hp Hf)) _ Hc).
Defined.

(** X8: on Windows with pywin32, when a window is found and copied, the
    file that [capture_window] writes holds the pixels of that window, at
    the path [_generate_filename] makes, and nothing is printed; the name is
    validated only after the window was copied, and a refused name then
    arrives as a [RuntimeError] that carries the message of the validation,
    with no file written. *)
Theorem capture_window_found (os : flavour) (self : ScreenSnap) (o : oracle)
    (window_title : string) (filename : option string) (w : world)
    (h : Z) (pixels : image) :
  system self = "Windows" ->
  pywin32_installed o = true ->
  _find_window o window_title = Some h ->
  h <> 0%Z ->
  window_pixels o h = Ok pixels ->
  (forall p,
     _generate_filename os self (now o) filename = Ok p ->
     image_save o p (str.upper (format self)) pixels = None ->
     capture_window os self o window_title filename w =
       (Ok p, with_file p (ImageData (str.upper (format self)) pixels) w)) /\
  (forall n,
     filename = Some n -> n <> EmptyString -> Spec.rejected n = true ->
     exists message,
       _validate_filename os n = Raise (Exn ValueError message) /\
       capture_window os self o window_title filename w =
         (Raise (Exn RuntimeError ("Failed to capture window: " ++ message)), w)).
Proof.
  intros Hsys Hpy Hfound Hh Hpix.
  assert (Hfalsy : falsy_hwnd (Some h) = false).
  { cbn [falsy_hwnd]. now apply Z.eqb_neq. }
  assert (U : capture_window os self o window_title filename w =
    match _generate_filename os self (now o) filename with
    | Ok p =>
        match image_save o p (str.upper (format self)) pixels with
        | None => (Ok p, with_file p (ImageData (str.upper (format self)) pixels) w)
        | Some e =>
            if isinstance e ImportError
            then capture os self o filename
                   (with_line "Warning: pywin32 not installed, capturing full screen instead" w)
            else (Raise (Exn RuntimeError ("Failed to capture window: " ++ exn_str e)), w)
        end
    | Raise e =>
        if isinstance e ImportError
        then capture os self o filename
               (with_line "Warning: pywin32 not installed, capturing full screen instead" w)
        else (Raise (Exn RuntimeError ("Failed to capture window: " ++ exn_str e)), w)
    end).
  { unfold capture_window. rewrite Hsys, Hpy, Hfound, Hfalsy, Hpix.
    change (negb ("Windows" =? "Windows")) with false. cbv iota.
    unfold try_except, bindM, lift, ret, save_image, write_file, print, raise.
    destruct (_generate_filename os self (now o) filename) as [p|e].
    - destruct (image_save o p (str.upper (format self)) pixels) as [e|]; [|reflexivity].
      cbv beta iota. now destruct (isinstance e ImportError).
    - cbv beta iota. now destruct (isinstance e ImportError). }
  split.
  - intros p G Hs. now rewrite U, G, Hs.
  - intros n -> Hne Hr.
    destruct (validate_cases os Hne) as [[Hr' _] | [_ [message Hv]]]; [congruence|].
    exists message. split; [exact Hv|].
    rewrite U, generate_named, Hv by exact Hne. reflexivity.
Qed.

(** An instance: the window [Google CHROME], handle 12. *)
Lemma capture_window_found_witness :
  system (windows_snap "png") = "Windows" /\
  pywin32_installed windows_oracle = true /\
  _find_window windows_oracle "chrome" = Some 12%Z /\
  12%Z <> 0%Z /\
  window_pixels windows_oracle 12%Z = Ok (Image 2 1 [12; 0]) /\
  capture_window Nt (windows_snap "png") windows_oracle "chrome" (Some "shot") blank =
    (Ok (out_file "shot.png"),
     with_file (out_file "shot.png") (ImageData "PNG" (Image 2 1 [12; 0])) blank).
Proof.
  assert (Hs : system (windows_snap "png") = "Windows") by reflexivity.
  assert (Hp : pywin32_installed windows_oracle = true) by reflexivity.
  assert (Hf : _find_window windows_oracle "chrome" = Some 12%Z) by reflexivity.
  assert (Hh : 12%Z <> 0%Z) by discriminate.
  assert (Hx : window_pixels windows_oracle 12%Z = Ok (Image 2 1 [12; 0]))
    by reflexivity.
  repeat (split; [assumption|]).
  exact (proj1 (capture_window_found Nt (windows_snap "png") windows_oracle "chrome"
    (Some "shot") blank 12%Z (Image 2 1 [12; 0]) Hs Hp Hf Hh Hx)
    (out_file "shot.png") eq_refl eq_refl).
Defined.

(** ** [ScreenSnap.__init__]: effects and failures *)

(** X9: construction writes no file and prints nothing; the only thing it
    can do to the outside is make the output directory, which it has done
    whenever it returns an instance.  A refused format leaves the world
    untouched, because the format is checked before [mkdir]; a missing
    Pillow is noticed only after [mkdir], so construction then fails with
    [ImportError] and the directory has been made all the same. *)
Theorem init_effects (os : flavour) (m : machine) (dir : option string)
    (fmt : string) (path : option Path) (w : world) :
  files (snd (ScreenSnap_init os m dir fmt path w)) = files w /\
  stdout (snd (ScreenSnap_init os m dir fmt path w)) = stdout w /\
  (forall self,
     fst (ScreenSnap_init os m dir fmt path w) = Ok self ->
     dirs (snd (ScreenSnap_init os m dir fmt path w)) = output_dir self :: dirs w) /\
  (~ Spec.accepted_format fmt -> snd (ScreenSnap_init os m dir fmt path w) = w) /\
  (forall cm d,
     ScreenSnapConfig_init os m path = Ok cm ->
     resolve_output_dir os cm dir = Ok d ->
     Spec.accepted_format fmt -> has_nul d = false -> mkdir_error m d = None ->
     pillow_installed m = false ->
     ScreenSnap_init os m dir fmt path w =
       (Raise (Exn ImportError
          "Pillow is required for ScreenSnap. Install it with: pip install pillow"),
        mkWorld (files w) (d :: dirs w) (stdout w))).
Proof.
  rewrite init_unfold.
  assert (Hacc : str.mem (str.lower fmt) valid_formats = true ->
                 ~ Spec.accepted_format fmt -> False).
  { intros Hf Hn. apply Hn. now apply accepted_format_mem. }
  destruct (ScreenSnapConfig_init os m path) as [cm|e] eqn:Hcm;
    [destruct (resolve_output_dir os cm dir) as [d|e] eqn:Hd;
     [destruct (str.mem (str.lower fmt) valid_formats) eqn:Hf; cbn [negb];
      [destruct (has_nul d) eqn:Hn;
       [|destruct (mkdir_error m d) as [message|] eqn:Hm;
         [|destruct (pillow_installed m) eqn:Hp]]|]|]|];
    cbn [fst snd files stdout dirs].
  all: split; [reflexivity|]; split; [reflexivity|].
  all: split; [intros self E; try discriminate E; now injection E as <- |].
  all: split; [intros Hno; try reflexivity; exfalso; now apply Hacc |].
  all: intros cm' d' E1 E2 Ha Hn' Hm' Hp'; try discriminate E1.
  all: injection E1 as <-; rewrite Hd in E2; try discriminate E2.
  all: injection E2 as <-.
  all: try congruence.
  apply accepted_format_mem in Ha. congruence.
Qed.

(** An instance: a machine without Pillow still gets its directory. *)
Lemma init_effects_witness :
  ScreenSnapConfig_init Posix no_pillow_machine None =
    Ok (mkConfig (parse Posix "/home/u/.screensnaprc") _default_config) /\
  resolve_output_dir Posix
    (mkConfig (parse Posix "/home/u/.screensnaprc") _default_config) (Some "out") =
    Ok (parse Posix "out") /\
  Spec.accepted_format "png" /\
  ScreenSnap_init Posix no_pillow_machine (Some "out") "png" None blank =
    (Raise (Exn ImportError
       "Pillow is required for ScreenSnap. Install it with: pip install pillow"),
     mkWorld [] [parse Posix "out"] []).
Proof.
  assert (Hcm : ScreenSnapConfig_init Posix no_pillow_machine None =
    Ok (mkConfig (parse Posix "/home/u/.screensnaprc") _default_config))
    by reflexivity.
  assert (Hd : resolve_output_dir Posix
    (mkConfig (parse Posix "/home/u/.screensnaprc") _default_config) (Some "out") =
    Ok (parse Posix "out")) by reflexivity.
  assert (Ha : Spec.accepted_format "png").
  { exists "png". split; [now left | reflexivity]. }
  repeat (split; [assumption|]).
  exact (proj2 (proj2 (proj2 (proj2
    (init_effects Posix no_pillow_machine (Some "out") "png" None blank)))) _ _
    Hcm Hd Ha eq_refl eq_refl eq_refl).
Defined.

(** X10: [_load_config] recovers from [JSONDecodeError] and [OSError]
    only.  Any other exception raised while the preferences file is read
    (a [UnicodeDecodeError], say) leaves [ScreenSnap.__init__] unchanged,
    before anything is made, even when the caller passes an output directory
    and so needs nothing from the preferences. *)
Theorem read_error_propagates (os : flavour) (m : machine) (dir : option string)
    (fmt : string) (path : option Path) (w : world) (e : exn) :
  prefs_file m (match path with Some q => q | None => DEFAULT_CONFIG_PATH os m end) =
    Present (Raise e) ->
  isinstance e JSONDecodeError = false ->
  isinstance e OSError = false ->
  ScreenSnap_init os m dir fmt path w = (Raise e, w).
Proof.
  intros Hp Hj Ho. rewrite init_unfold.
  unfold ScreenSnapConfig_init, _load_config. now rewrite Hp, Hj, Ho.
Qed.

(** An instance: an undecodable preferences file and [output_dir="out"]. *)
Lemma read_error_propagates_witness :
  prefs_file undecodable_prefs_machine
    (DEFAULT_CONFIG_PATH Posix undecodable_prefs_machine) =
    Present (Raise (Exn UnicodeDecodeError
      "'utf-8' codec can't decode byte 0xff in position 0: invalid start byte")) /\
  ScreenSnap_init Posix undecodable_prefs_machine (Some "out") "png" None blank =
    (Raise (Exn UnicodeDecodeError
       "'utf-8' codec can't decode byte 0xff in position 0: invalid start byte"),
     blank).
Proof.
  split; [reflexivity|].
  exact (read_error_propagates Posix undecodable_prefs_machine (Some "out") "png" None
    blank _ eq_refl eq_refl eq_refl).
Defined.

(** X11: with no preferences file (or one that cannot be read or parsed)
    and no output directory argument, the output directory is the current
    directory: the path generated for a valid name is the bare file name. *)
Theorem default_output_dir_is_cwd (os : flavour) (m : machine) (fmt : string)
    (w0 w1 : world) (self : ScreenSnap) (t : datetime) (n : string) :
  absent_or_unreadable (prefs_file m (DEFAULT_CONFIG_PATH os m)) ->
  ScreenSnap_init os m None fmt None w0 = (Ok self, w1) ->
  n <> EmptyString ->
  _validate_filename os n = Ok n ->
  to_str os (output_dir self) = "." /\
  exists p,
    _generate_filename os self t (Some n) = Ok p /\
    to_str os p = final_name (format self) n.
Proof.
  intros Habs Hinit Hne Hv.
  assert (Hcm : ScreenSnapConfig_init os m None =
                Ok (mkConfig (DEFAULT_CONFIG_PATH os m) _default_config)).
  { unfold ScreenSnapConfig_init, _load_config.
    destruct Habs as [-> | (e & -> & ->)]; reflexivity. }
  assert (Hdir : output_dir self = mkPath EmptyString EmptyString []).
  { rewrite init_unfold, Hcm in Hinit.
    change (resolve_output_dir os
              (mkConfig (DEFAULT_CONFIG_PATH os m) _default_config) None)
      with (Ok (parse os ".")) in Hinit.
    revert Hinit.
    destruct (negb (str.mem (str.lower fmt) valid_formats)); [discriminate|].
    destruct (has_nul (parse os ".")); [discriminate|].
    destruct (mkdir_error m (parse os ".")); [discriminate|].
    destruct (pillow_installed m); [|discriminate].
    intros Hinit. injection Hinit as <- _. cbn [output_dir]. now destruct os. }
  apply init_format in Hinit as [_ Hf].
  split; [now rewrite Hdir|].
  apply validated_clean in Hv as (_ & Hc & Hrej); [|exact Hne].
  destruct (@final_name_plain _ _ Hf Hc) as [Hp Hl].
  exists (joinpath os (output_dir self) (final_name (format self) n)). split.
  - rewrite generate_named by exact Hne.
    destruct (validate_cases os Hne) as [[_ ->] | [Hr _]]; [reflexivity | congruence].
  - rewrite (joinpath_plain os (output_dir self) Hp Hl), Hdir.
    unfold to_str. cbn [drive root parts app str.join append].
    destruct (final_name (format self) n); [simpl in Hl; lia | reflexivity].
Qed.

(** An instance: [ScreenSnap().capture("shot")] aims at [shot.png]. *)
Lemma default_output_dir_is_cwd_witness :
  absent_or_unreadable (prefs_file quiet_machine (DEFAULT_CONFIG_PATH Posix quiet_machine)) /\
  ScreenSnap_init Posix quiet_machine None "png" None blank =
    (Ok (mkScreenSnap
           (mkConfig (parse Posix "/home/u/.screensnaprc") _default_config)
           (parse Posix ".") "png" "Linux"),
     mkWorld [] [parse Posix "."] []) /\
  "shot" <> EmptyString /\
  _validate_filename Posix "shot" = Ok "shot" /\
  exists p,
    _generate_filename Posix
      (mkScreenSnap
         (mkConfig (parse Posix "/home/u/.screensnaprc") _default_config)
         (parse Posix ".") "png" "Linux")
      (now working_oracle) (Some "shot") = Ok p /\
    to_str Posix p = "shot.png".
Proof.
  assert (Ha : absent_or_unreadable
    (prefs_file quiet_machine (DEFAULT_CONFIG_PATH Posix quiet_machine)))
    by (left; reflexivity).
  assert (Hinit : ScreenSnap_init Posix quiet_machine None "png" None blank =
    (Ok (mkScreenSnap
           (mkConfig (parse Posix "/home/u/.screensnaprc") _default_config)
           (parse Posix ".") "png" "Linux"),
     mkWorld [] [parse Posix "."] [])) by reflexivity.
  assert (Hne : "shot" <> EmptyString) by discriminate.
  assert (Hv : _validate_filename Posix "shot" = Ok "shot") by reflexivity.
  repeat (split; [assumption|]).
  exact (proj2 (default_output_dir_is_cwd Posix quiet_machine "png" blank _ _
    (now working_oracle) "shot" Ha Hinit Hne Hv)).
Defined.

(** ** What the calls print *)

Lemma warns_ret (A : Type) (a : A) : only_warns (ret a).
Proof. intros w. exists []. now rewrite app_nil_r. Qed.

Lemma warns_raise (A : Type) (e : exn) : only_warns (@raise A e).
Proof. intros w. exists []. now rewrite app_nil_r. Qed.

Lemma warns_lift (A : Type) (r : result A) : only_warns (lift r).
Proof. intros w. exists []. now rewrite app_nil_r. Qed.

Lemma warns_print (line : string) :
  str.startswith line "Warning: " = true -> only_warns (print line).
Proof. intros H w. exists [line]. repeat split. now constructor. Qed.

Lemma warns_bind (A B : Type) (m : M A) (k : A -> M B) :
  only_warns m -> (forall a, only_warns (k a)) -> only_warns (bindM m k).
Proof.
  intros Hm Hk w. unfold bindM. destruct (Hm w) as (l1 & F1 & E1 & D1).
  destruct (m w) as [[a|e] w']; cbn [snd] in *.
  - destruct (Hk a w') as (l2 & F2 & E2 & D2). exists (l1 ++ l2)%list.
    split; [apply Forall_app; now split|].
    split; [now rewrite E2, E1, app_assoc | congruence].
  - now exists l1.
Qed.

Lemma warns_try (A : Type) (body : M A) (handler : exn -> M A) :
  only_warns body -> (forall e, only_warns (handler e)) ->
  only_warns (try_except body handler).
Proof.
  intros Hb Hh w. unfold try_except. destruct (Hb w) as (l1 & F1 & E1 & D1).
  destruct (body w) as [[a|e] w']; cbn [snd] in *.
  - now exists l1.
  - destruct (Hh e w') as (l2 & F2 & E2 & D2). exists (l1 ++ l2)%list.
    split; [apply Forall_app; now split|].
    split; [now rewrite E2, E1, app_assoc | congruence].
Qed.

Lemma capture_is_silent (os : flavour) (self : ScreenSnap) (o : oracle)
    (filename : option string) (w : world) :
  stdout (snd (capture os self o filename w)) = stdout w /\
  dirs (snd (capture os self o filename w)) = dirs w.
Proof.
  rewrite capture_unfold.
  destruct (_generate_filename os self (now o) filename) as [p|e]; [|now split].
  destruct (grab o) as [im|e]; [|now split].
  destruct (image_save o p (str.upper (format self)) im); now split.
Qed.

Lemma warns_capture (os : flavour) (self : ScreenSnap) (o : oracle)
    (filename : option string) :
  only_warns (capture os self o filename).
Proof.
  intros w. exists []. rewrite app_nil_r.
  destruct (capture_is_silent os self o filename w) as [-> ->]. now repeat split.
Qed.

Lemma warns_capture_window (os : flavour) (self : ScreenSnap) (o : oracle)
    (window_title : string) (filename : option string) :
  only_warns (capture_window os self o window_title filename).
Proof.
  unfold capture_window. destruct (negb (system self =? "Windows")).
  - apply warns_bind; [now apply warns_print | intros _; apply warns_capture].
  - apply warns_try.
    + apply warns_bind.
      * destruct (pywin32_installed o); [apply warns_ret | apply warns_raise].
      * intros _. destruct (falsy_hwnd (_find_window o window_title)).
        -- apply warns_bind; [now apply warns_print | intros _; apply warns_capture].
        -- apply warns_bind; [apply warns_lift|]. intros screenshot.
           apply warns_bind; [apply warns_lift|]. intros filepath.
           apply warns_bind; [|intros _; apply warns_ret].
           unfold save_image. destruct (image_save o filepath _ screenshot).
           ++ apply warns_raise.
           ++ intros w. exists []. now rewrite app_nil_r.
    + intros e. destruct (isinstance e ImportError).
      * apply warns_bind; [now apply warns_print | intros _; apply warns_capture].
      * apply warns_raise.
Qed.

(** X12: whatever the calls and their outcomes, a sequence of [capture]
    and [capture_window] calls makes no directory and prints nothing but
    lines that start with [Warning: ], after what was printed before; the
    calls to [capture] print nothing at all. *)
Theorem calls_print_warnings_only (os : flavour) (self : ScreenSnap)
    (cs : list (call * oracle)) (w : world) :
  dirs (snd (run os self cs w)) = dirs w /\
  (exists lines,
     stdout (snd (run os self cs w)) = (stdout w ++ lines)%list /\
     Forall (fun line => str.startswith line "Warning: " = true) lines) /\
  (Forall is_capture cs -> stdout (snd (run os self cs w)) = stdout w).
Proof.
  revert w. induction cs as [|[c o] rest IH]; intros w; cbn [run].
  - split; [reflexivity|]. split; [exists []; now rewrite app_nil_r | reflexivity].
  - assert (Hc : only_warns (do_call os self c o)).
    { destruct c; [apply warns_capture | apply warns_capture_window]. }
    destruct (Hc w) as (l1 & F1 & E1 & D1).
    assert (Hsilent : is_capture (c, o) ->
                      stdout (snd (do_call os self c o w)) = stdout w).
    { destruct c; [intros _; apply capture_is_silent | intros []]. }
    destruct (do_call os self c o w) as [r w']. cbn [snd] in *.
    destruct (IH w') as (D2 & (l2 & E2 & F2) & S2).
    destruct (run os self rest w') as [rs w'']. cbn [snd] in *.
    split; [congruence|]. split.
    + exists (l1 ++ l2)%list. split; [now rewrite E2, E1, app_assoc|].
      apply Forall_app. now split.
    + intros F. inversion F as [|x xs Hx Hxs]; subst.
      rewrite (S2 Hxs). now apply Hsilent.
Qed.

(** An instance: two captures print nothing. *)
Lemma calls_print_warnings_only_witness :
  Forall is_capture
    [(Capture (Some "shot.png"), working_oracle); (Capture None, blind_oracle)] /\
  stdout (snd (run Posix (snap "png")
    [(Capture (Some "shot.png"), working_oracle); (Capture None, blind_oracle)]
    blank)) = stdout blank.
Proof.
  assert (F : Forall is_capture
    [(Capture (Some "shot.png"), working_oracle); (Capture None, blind_oracle)]).
  { repeat constructor. }
  split; [exact F|].
  exact (proj2 (proj2 (calls_print_warnings_only Posix (snap "png") _ blank)) F).
Defined.

(** ** [main] *)

(** A refused name makes every capture mode raise, with no file written. *)
Lemma refused_name_writes_nothing (os : flavour) (self : ScreenSnap) (o : oracle)
    (n : string) (w : world) :
  n <> EmptyString -> Spec.rejected n = true ->
  exists message,
    _validate_filename os n = Raise (Exn ValueError message) /\
    capture os self o (Some n) w = (Raise (Exn ValueError message), w) /\
    forall title, exists e,
      fst (capture_window os self o title (Some n) w) = Raise e /\
      files (snd (capture_window os self o title (Some n) w)) = files w.
Proof.
  intros Hne Hr.
  destruct (validate_cases os Hne) as [[Hr' _] | [_ [message Hv]]]; [congruence|].
  assert (G : _generate_filename os self (now o) (Some n) =
              Raise (Exn ValueError message)).
  { now rewrite generate_named, Hv by exact Hne. }
  assert (Hcap : forall w', capture os self o (Some n) w' =
                            (Raise (Exn ValueError message), w')).
  { intros w'. now rewrite capture_unfold, G. }
  exists message. split; [exact Hv|]. split; [apply Hcap|]. intros title.
  unfold capture_window. destruct (negb (system self =? "Windows")).
  - unfold bindM, print. cbv beta iota. rewrite Hcap. eexists. split; reflexivity.
  - unfold try_except, bindM, ret, raise, lift, print.
    destruct (pywin32_installed o); cbv beta iota.
    + destruct (falsy_hwnd (_find_window o title)); cbv beta iota.
      * rewrite Hcap. cbv beta iota.
        change (isinstance (Exn ValueError message) ImportError) with false.
        cbv iota. eexists. split; reflexivity.
      * destruct (window_pixels o _) as [pixels|e0]; cbv beta iota.
        -- rewrite G. cbv beta iota.
           change (isinstance (Exn ValueError message) ImportError) with false.
           cbv iota. eexists. split; reflexivity.
        -- destruct (isinstance e0 ImportError); cbv beta iota.
           ++ rewrite Hcap. eexists. split; reflexivity.
           ++ eexists. split; reflexivity.
    + change (isinstance (new_exn ModuleNotFoundError "No module named 'win32gui'")
                ImportError) with true.
      cbv beta iota. rewrite Hcap. eexists. split; reflexivity.
Qed.

(** X13: [main] never lets a refused name through.  Once the instance is
    built, a non-empty file name that the validation refuses makes [main]
    return status 1, write no file and put exactly one line on standard
    error, which starts with the cross mark and [ Error: ], in every capture
    mode; without [--window] (or with an empty title) the line ends with the
    message of the validation. *)
Theorem main_refuses_bad_name (os : flavour) (m : machine) (o : oracle)
    (stdout_error : string -> option string) (absolute : Path -> Path) (args : Namespace) (w w1 : world)
    (self : ScreenSnap) (n : string) :
  ScreenSnap_init os m (args_output_dir args) (args_format args) None w =
    (Ok self, w1) ->
  args_filename args = Some n ->
  n <> EmptyString ->
  Spec.rejected n = true ->
  fst (fst (main os m o stdout_error absolute args w)) = 1%Z /\
  files (snd (fst (main os m o stdout_error absolute args w))) = files w /\
  (exists text, snd (main os m o stdout_error absolute args w) = [CROSS_MARK ++ " Error: " ++ text]) /\
  (args_window args = None \/ args_window args = Some EmptyString ->
   exists message,
     _validate_filename os n = Raise (Exn ValueError message) /\
     main os m o stdout_error absolute args w = (1%Z, w1, [CROSS_MARK ++ " Error: " ++ message])).
Proof.
  intros Hinit Hfn Hne Hr.
  assert (Hf1 : files w1 = files w).
  { pose proof (f_equal snd Hinit) as E. cbn [snd] in E. rewrite <- E.
    rewrite init_unfold.
    destruct (ScreenSnapConfig_init os m None) as [cm|e]; [|reflexivity].
    destruct (resolve_output_dir os cm (args_output_dir args)) as [d|e]; [|reflexivity].
    destruct (negb (str.mem (str.lower (args_format args)) valid_formats)); [reflexivity|].
    destruct (has_nul d); [reflexivity|].
    destruct (mkdir_error m d); [reflexivity|].
    now destruct (pillow_installed m). }
  destruct (refused_name_writes_nothing os self o n w1 Hne Hr)
    as (message & Hv & Hcap & Hwin).
  assert (U : main os m o stdout_error absolute args w =
    match
      match args_window args with
      | Some title =>
          if str.truthy title
          then capture_window os self o title (Some n) w1
          else capture os self o (Some n) w1
      | None => capture os self o (Some n) w1
      end
    with
    | (Ok p, w') =>
        match stdout_error (success_line os absolute p) with
        | None => (0%Z, with_line (success_line os absolute p) w', [])
        | Some text => (1%Z, w', [CROSS_MARK ++ " Error: " ++ text])
        end
    | (Raise e, w') => (1%Z, w', [CROSS_MARK ++ " Error: " ++ exn_str e])
    end).
  { unfold main, main_try, bindM, print_encoded. rewrite Hinit, Hfn. cbv beta iota.
    destruct (args_window args) as [title|]; [destruct (str.truthy title)|].
    - destruct (capture_window os self o title (Some n) w1) as [[p|e] w'];
        [|reflexivity].
      now destruct (stdout_error (success_line os absolute p)).
    - destruct (capture os self o (Some n) w1) as [[p|e] w']; [|reflexivity].
      now destruct (stdout_error (success_line os absolute p)).
    - destruct (capture os self o (Some n) w1) as [[p|e] w']; [|reflexivity].
      now destruct (stdout_error (success_line os absolute p)). }
  rewrite U. clear U.
  destruct (args_window args) as [title|] eqn:Hw.
  - destruct (str.truthy title) eqn:Ht.
    + destruct (Hwin title) as (e & He & Hfiles).
      destruct (capture_window os self o title (Some n) w1) as [[p|e'] w'];
        cbn [fst snd] in *; [discriminate|].
      split; [reflexivity|]. split; [congruence|].
      split; [eexists; reflexivity|].
      intros [H | H]; [discriminate|]. injection H as ->. discriminate.
    + rewrite Hcap. cbn [fst snd].
      split; [reflexivity|]. split; [exact Hf1|].
      split; [eexists; reflexivity|].
      intros _. exists message. now split.
  - rewrite Hcap. cbn [fst snd].
    split; [reflexivity|]. split; [exact Hf1|].
    split; [eexists; reflexivity|].
    intros _. exists message. now split.
Qed.

(** An instance: [screensnap a:b] on the sample machine. *)
Lemma main_refuses_bad_name_witness :
  ScreenSnap_init Posix quiet_machine (Some "out") "png" None blank =
    (Ok (snap "png"), mkWorld [] [parse Posix "out"] []) /\
  "a:b" <> EmptyString /\
  Spec.rejected "a:b" = true /\
  main Posix quiet_machine working_oracle (fun _ => None) (fun p => p)
    (mkNamespace (Some "a:b") None (Some "out") "png") blank =
    (1%Z, mkWorld [] [parse Posix "out"] [],
     [CROSS_MARK ++ " Error: Invalid character in filename: ':'"]) /\
  files (snd (fst (main Posix quiet_machine working_oracle (fun _ => None) (fun p => p)
    (mkNamespace (Some "a:b") None (Some "out") "png") blank))) = files blank.
Proof.
  assert (Hinit : ScreenSnap_init Posix quiet_machine (Some "out") "png" None blank =
    (Ok (snap "png"), mkWorld [] [parse Posix "out"] [])) by reflexivity.
  assert (Hne : "a:b" <> EmptyString) by discriminate.
  assert (Hr : Spec.rejected "a:b" = true) by reflexivity.
  repeat (split; [assumption|]). split; [reflexivity|].
  exact (proj1 (proj2 (main_refuses_bad_name Posix quiet_machine working_oracle
    (fun _ => None) (fun p => p) (mkNamespace (Some "a:b") None (Some "out") "png") blank _
    (snap "png") "a:b" Hinit eq_refl Hne Hr))).
Defined.

(** X14: [main] takes the window path only for a non-empty title, and its
    success message is part of the [try] block.  Without [--window], or with
    an empty title, once the instance is built and the backend grabs and
    saves, [main] writes the one file at the generated path.  If standard
    output can encode the line made of the check mark,
    [ Screenshot saved to: ] and the absolute form of that path, [main]
    prints it, puts nothing on standard error and returns status 0.  If it
    cannot, the file stays written, nothing is printed, and [main] returns
    status 1 with the cross mark, [ Error: ] and the message of the encoding
    error on standard error. *)
Theorem main_saves_and_reports (os : flavour) (m : machine) (o : oracle)
    (stdout_error : string -> option string)
    (absolute : Path -> Path) (args : Namespace) (w w1 : world)
    (self : ScreenSnap) (p : Path) (screenshot : image) :
  ScreenSnap_init os m (args_output_dir args) (args_format args) None w =
    (Ok self, w1) ->
  args_window args = None \/ args_window args = Some EmptyString ->
  _generate_filename os self (now o) (args_filename args) = Ok p ->
  grab o = Ok screenshot ->
  image_save o p (str.upper (format self)) screenshot = None ->
  main os m o stdout_error absolute args w =
    match stdout_error (success_line os absolute p) with
    | None =>
        (0%Z,
         with_line (CHECK_MARK ++ " Screenshot saved to: " ++ to_str os (absolute p))
           (with_file p (ImageData (str.upper (format self)) screenshot) w1),
         [])
    | Some message =>
        (1%Z,
         with_file p (ImageData (str.upper (format self)) screenshot) w1,
         [CROSS_MARK ++ " Error: " ++ message])
    end.
Proof.
  intros Hinit Hw G Hg Hs.
  assert (Hcap : capture os self o (args_filename args) w1 =
    (Ok p, with_file p (ImageData (str.upper (format self)) screenshot) w1)).
  { now rewrite capture_unfold, G, Hg, Hs. }
  unfold main, main_try. unfold bindM at 1. rewrite Hinit.
  destruct Hw as [-> | ->]; cbn [str.truthy]; unfold bindM; rewrite Hcap;
    unfold print_encoded;
    destruct (stdout_error (success_line os absolute p)); reflexivity.
Qed.

(** Two instances.  [screensnap --window "" shot] on the sample machine, run
    from [/work], on a console that encodes everything.  And
    [screensnap -o //srv/share shot] on Windows, on a console that refuses
    the check mark: the file is written on the share and the status is 1. *)
Lemma main_saves_and_reports_witness :
  main Posix quiet_machine working_oracle (fun _ => None)
    (fun p => mkPath EmptyString "/" ("work" :: parts p))
    (mkNamespace (Some "shot") (Some EmptyString) (Some "out") "png") blank =
    (0%Z,
     mkWorld [(out_file "shot.png", ImageData "PNG" one_pixel)]
       [parse Posix "out"]
       [CHECK_MARK ++ " Screenshot saved to: /work/out/shot.png"],
     []) /\
  main Nt windows_machine working_oracle legacy_console (fun p => p)
    (mkNamespace (Some "shot") None (Some "//srv/share") "png") blank =
    (1%Z,
     mkWorld [(joinpath Nt (parse Nt "//srv/share") "shot.png", ImageData "PNG" one_pixel)]
       [parse Nt "//srv/share"] [],
     [CROSS_MARK ++ " Error: 'charmap' codec can't encode character '\u2705' in position 0: character maps to <undefined>"]) /\
  to_str Nt (joinpath Nt (parse Nt "//srv/share") "shot.png") =
    str.replace "/" str.backslash "//srv/share/shot.png".
Proof.
  split; [|split; [|reflexivity]].
  - exact (main_saves_and_reports Posix quiet_machine working_oracle (fun _ => None)
      (fun p => mkPath EmptyString "/" ("work" :: parts p))
      (mkNamespace (Some "shot") (Some EmptyString) (Some "out") "png") blank
      (mkWorld [] [parse Posix "out"] [])
      (snap "png") (out_file "shot.png") one_pixel eq_refl (or_intror eq_refl) eq_refl
      eq_refl eq_refl).
  - exact (main_saves_and_reports Nt windows_machine working_oracle legacy_console
      (fun p => p)
      (mkNamespace (Some "shot") None (Some "//srv/share") "png") blank
      (mkWorld [] [parse Nt "//srv/share"] [])
      (mkScreenSnap
         (mkConfig (DEFAULT_CONFIG_PATH Nt windows_machine) _default_config)
         (parse Nt "//srv/share") "png" "Windows")
      (joinpath Nt (parse Nt "//srv/share") "shot.png") one_pixel
      eq_refl (or_introl eq_refl) eq_refl eq_refl eq_refl).
Defined.

(** An instance of X1: [a\b] is refused on both platforms. *)
Lemma validate_verdict_is_portable_witness :
  (exists e, _validate_filename Posix (String "a" (String str.backslash "b")) = Raise e) /\
  (exists e, _validate_filename Nt (String "a" (String str.backslash "b")) = Raise e).
Proof.
  assert (H : exists e,
    _validate_filename Posix (String "a" (String str.backslash "b")) = Raise e).
  { eexists. reflexivity. }
  split; [exact H|].
  exact (proj1 (proj1 (validate_verdict_is_portable
                         (String "a" (String str.backslash "b")))) H).
Defined.

(** ** The existence test of the preferences path *)

(** X15: the test [config_path.exists()] stands before the [try] of
    [_load_config], so what it raises is not caught.  When examining the
    preferences path raises, [_load_config] raises the same exception and
    so does [ScreenSnap.__init__], whatever its arguments, before anything
    is made: the fallback to the defaults is not reached. *)
Theorem exists_error_propagates (os : flavour) (m : machine) (dir : option string)
    (fmt : string) (path : option Path) (w : world) (e : exn) :
  prefs_file m (match path with Some q => q | None => DEFAULT_CONFIG_PATH os m end) =
    Unreachable e ->
  _load_config m (match path with Some q => q | None => DEFAULT_CONFIG_PATH os m end) =
    Raise e /\
  ScreenSnap_init os m dir fmt path w = (Raise e, w).
Proof.
  intros Hp. split.
  - unfold _load_config. now rewrite Hp.
  - rewrite init_unfold. unfold ScreenSnapConfig_init, _load_config. now rewrite Hp.
Qed.

(** An instance: the home directory may not be searched, and the caller
    passes [output_dir="out"]. *)
Lemma exists_error_propagates_witness :
  prefs_file locked_prefs_machine (DEFAULT_CONFIG_PATH Posix locked_prefs_machine) =
    Unreachable (Exn PermissionError
      "[Errno 13] Permission denied: '/home/u/.screensnaprc'") /\
  isinstance (Exn PermissionError
      "[Errno 13] Permission denied: '/home/u/.screensnaprc'") OSError = true /\
  ScreenSnap_init Posix locked_prefs_machine (Some "out") "png" None blank =
    (Raise (Exn PermissionError
       "[Errno 13] Permission denied: '/home/u/.screensnaprc'"),
     blank).
Proof.
  split; [reflexivity|]. split; [reflexivity|].
  exact (proj2 (exists_error_propagates Posix locked_prefs_machine (Some "out") "png"
    None blank _ eq_refl)).
Defined.

(** ** [capture] with the formats Pillow knows *)

Lemma registered_format (self : ScreenSnap) :
  In (format self) valid_formats -> format self <> "jpg" ->
  Pillow.Image_save (str.upper (format self)) = None.
Proof.
  unfold valid_formats. simpl.
  intros [<- | [<- | [<- | []]]] H; solve [reflexivity | now elim H].
Qed.

(** X16: a supplied name on an instance the constructor returned.  For a
    name that passes the validation the generated path lies in the output
    directory and its final component is the name itself when it ends with
    [.<format>], the name followed by [.<format>] otherwise: with format
    [png], [shot.png] stays [shot.png].  Whenever [capture] returns, it
    returns that path, the screen was grabbed, and the one effect is the
    grabbed image written there under the id [FORMAT].  With Pillow in
    working order and the screen grabbed it does return for the formats
    [png] and [jpeg]. *)
Theorem named_capture_saves (os : flavour) (m : machine) (dir : option string)
    (fmt : string) (path : option Path) (w0 w1 : world) (self : ScreenSnap)
    (o : oracle) (w : world) (n : string) :
  ScreenSnap_init os m dir fmt path w0 = (Ok self, w1) ->
  n <> EmptyString ->
  _validate_filename os n = Ok n ->
  exists p,
    _generate_filename os self (now o) (Some n) = Ok p /\
    parent p = output_dir self /\
    name p = (if str.endswith n ("." ++ format self) then n
              else n ++ "." ++ format self) /\
    str.endswith (to_str os p) (name p) = true /\
    (format self = "png" -> n = "shot.png" -> name p = "shot.png") /\
    (forall q w', capture os self o (Some n) w = (Ok q, w') ->
       q = p /\
       exists screenshot,
         grab o = Ok screenshot /\
         w' = with_file p (ImageData (str.upper (format self)) screenshot) w) /\
    (forall screenshot,
       Pillow.encodes o -> grab o = Ok screenshot -> format self <> "jpg" ->
       capture os self o (Some n) w =
         (Ok p, with_file p (ImageData (str.upper (format self)) screenshot) w)).
Proof.
  intros Hinit Hne Hv. apply init_format in Hinit as [_ Hf].
  destruct (@capture_valid_name os self o w n Hf Hne Hv)
    as (p & G & Hpar & Hn & Hstr & _).
  exists p. unfold final_name in Hn.
  split; [exact G|]. split; [exact Hpar|]. split; [exact Hn|].
  split; [exact Hstr|]. split; [|split].
  - intros Hpng ->. now rewrite Hn, Hpng.
  - intros q w'. rewrite capture_unfold, G.
    destruct (grab o) as [screenshot|e]; [|discriminate].
    destruct (image_save o p (str.upper (format self)) screenshot); [discriminate|].
    intros H. injection H as <- <-. split; [reflexivity|].
    exists screenshot. now split.
  - intros screenshot Henc Hg Hjpg.
    rewrite capture_unfold, G, Hg, (Henc p (str.upper (format self)) screenshot).
    now rewrite (registered_format self Hf Hjpg).
Qed.

(** Two instances: [shot.png] with format [png], and [shot] with format
    [jpeg]. *)
Lemma named_capture_saves_witness :
  ScreenSnap_init Posix quiet_machine (Some "out") "png" None blank =
    (Ok (snap "png"), mkWorld [] [parse Posix "out"] []) /\
  _validate_filename Posix "shot.png" = Ok "shot.png" /\
  Pillow.encodes pillow_oracle /\
  capture Posix (snap "png") pillow_oracle (Some "shot.png") blank =
    (Ok (out_file "shot.png"),
     mkWorld [(out_file "shot.png", ImageData "PNG" one_pixel)] [] []) /\
  capture Posix (snap "jpeg") pillow_oracle (Some "shot") blank =
    (Ok (out_file "shot.jpeg"),
     mkWorld [(out_file "shot.jpeg", ImageData "JPEG" one_pixel)] [] []).
Proof.
  assert (Hinit : ScreenSnap_init Posix quiet_machine (Some "out") "png" None blank =
    (Ok (snap "png"), mkWorld [] [parse Posix "out"] [])) by reflexivity.
  assert (Hinit' : ScreenSnap_init Posix quiet_machine (Some "out") "jpeg" None blank =
    (Ok (snap "jpeg"), mkWorld [] [parse Posix "out"] [])) by reflexivity.
  assert (Hv : _validate_filename Posix "shot.png" = Ok "shot.png") by reflexivity.
  assert (Hv' : _validate_filename Posix "shot" = Ok "shot") by reflexivity.
  assert (Henc : Pillow.encodes pillow_oracle) by (intros p fmt im; reflexivity).
  split; [exact Hinit|]. split; [exact Hv|]. split; [exact Henc|]. split.
  - destruct (named_capture_saves Posix quiet_machine (Some "out") "png" None
                blank _ (snap "png") pillow_oracle blank "shot.png" Hinit
                ltac:(discriminate) Hv)
      as (p & G & _ & _ & _ & _ & _ & Hc).
    assert (E : p = out_file "shot.png").
    { assert (G' : _generate_filename Posix (snap "png") (now pillow_oracle)
                     (Some "shot.png") = Ok (out_file "shot.png")) by reflexivity.
      rewrite G' in G. now injection G. }
    rewrite (Hc one_pixel Henc eq_refl ltac:(discriminate)), E. reflexivity.
  - destruct (named_capture_saves Posix quiet_machine (Some "out") "jpeg" None
                blank _ (snap "jpeg") pillow_oracle blank "shot" Hinit'
                ltac:(discriminate) Hv')
      as (p & G & _ & _ & _ & _ & _ & Hc).
    assert (E : p = out_file "shot.jpeg").
    { assert (G' : _generate_filename Posix (snap "jpeg") (now pillow_oracle)
                     (Some "shot") = Ok (out_file "shot.jpeg")) by reflexivity.
      rewrite G' in G. now injection G. }
    rewrite (Hc one_pixel Henc eq_refl ltac:(discriminate)), E. reflexivity.
Defined.

(** X17: the empty name with the formats [png] and [jpeg].  On an instance
    the constructor returned for one of them, with Pillow in working order
    and the screen grabbed, [capture("")] and [capture()] return
    [output_dir / name] where [name] is [screenshot_], the clock reading as
    [YYYYMMDD_HHMMSS], a dot and the format, and their one effect is the
    grabbed image written there under the id [FORMAT].  The name starts with
    [screenshot_], ends with the extension, and depends on the clock reading
    down to the second and on the format only: any instance of the same
    format gets the same name within the same second. *)
Theorem stamped_capture_saves (os : flavour) (m : machine) (dir : option string)
    (fmt : string) (path : option Path) (w0 w1 : world) (self : ScreenSnap)
    (o : oracle) (w : world) (screenshot : image) :
  ScreenSnap_init os m dir fmt path w0 = (Ok self, w1) ->
  format self <> "jpg" ->
  Pillow.encodes o ->
  grab o = Ok screenshot ->
  exists p,
    capture os self o (Some EmptyString) w =
      (Ok p, with_file p (ImageData (str.upper (format self)) screenshot) w) /\
    capture os self o None w =
      (Ok p, with_file p (ImageData (str.upper (format self)) screenshot) w) /\
    parent p = output_dir self /\
    name p = "screenshot_" ++ strftime_Ymd_HMS (now o) ++ "." ++ format self /\
    str.startswith (name p) "screenshot_" = true /\
    str.endswith (name p) ("." ++ format self) = true /\
    (forall (other : ScreenSnap) (t : datetime),
       format other = format self ->
       Spec.same_second (now o) t ->
       exists p2,
         _generate_filename os other t (Some EmptyString) = Ok p2 /\
         _generate_filename os other t None = Ok p2 /\
         name p2 = name p).
Proof.
  intros Hinit Hjpg Henc Hg. apply init_format in Hinit as [_ Hf].
  destruct (stamped_name_plain (now o) Hf) as [Hp Hl].
  exists (joinpath os (output_dir self) (stamped_name (format self) (now o))).
  assert (Hcap : forall filename,
    filename = None \/ filename = Some EmptyString ->
    capture os self o filename w =
      (Ok (joinpath os (output_dir self) (stamped_name (format self) (now o))),
       with_file (joinpath os (output_dir self) (stamped_name (format self) (now o)))
         (ImageData (str.upper (format self)) screenshot) w)).
  { intros filename H.
    rewrite capture_unfold, (generate_stamped os self (now o) H), Hg, Henc.
    now rewrite (registered_format self Hf Hjpg). }
  split; [apply Hcap; now right|]. split; [apply Hcap; now left|].
  rewrite (name_joinpath os (output_dir self) Hp Hl).
  split; [now apply parent_joinpath|]. split; [reflexivity|].
  split; [apply startswith_app|]. split; [apply stamped_name_endswith|].
  intros other t Hfmt Hsec.
  exists (joinpath os (output_dir other) (stamped_name (format other) t)).
  split; [apply generate_stamped; now right|].
  split; [apply generate_stamped; now left|].
  rewrite Hfmt. unfold stamped_name. rewrite <- (same_second_strftime _ _ Hsec).
  fold (stamped_name (format self) (now o)).
  now rewrite (name_joinpath os (output_dir other) Hp Hl).
Qed.

(** An instance: the empty name at 09:05:07 on 2026-01-18, format [png]. *)
Lemma stamped_capture_saves_witness :
  ScreenSnap_init Posix quiet_machine (Some "out") "png" None blank =
    (Ok (snap "png"), mkWorld [] [parse Posix "out"] []) /\
  Pillow.encodes pillow_oracle /\
  capture Posix (snap "png") pillow_oracle (Some EmptyString) blank =
    (Ok (out_file "screenshot_20260118_090507.png"),
     mkWorld [(out_file "screenshot_20260118_090507.png", ImageData "PNG" one_pixel)]
       [] []).
Proof.
  assert (Hinit : ScreenSnap_init Posix quiet_machine (Some "out") "png" None blank =
    (Ok (snap "png"), mkWorld [] [parse Posix "out"] [])) by reflexivity.
  assert (Henc : Pillow.encodes pillow_oracle) by (intros p fmt im; reflexivity).
  split; [exact Hinit|]. split; [exact Henc|].
  destruct (stamped_capture_saves Posix quiet_machine (Some "out") "png" None blank _
              (snap "png") pillow_oracle blank one_pixel Hinit
              ltac:(discriminate) Henc eq_refl)
    as (p & Hc & _).
  rewrite Hc.
  assert (E : capture Posix (snap "png") pillow_oracle (Some EmptyString) blank =
    (Ok (out_file "screenshot_20260118_090507.png"),
     mkWorld [(out_file "screenshot_20260118_090507.png", ImageData "PNG" one_pixel)]
       [] [])) by reflexivity.
  rewrite Hc in E. exact E.
Defined.
